(** * NexMind chat page: the streaming relay and the send handler

    A shallow embedding of [frontend/app/chat/page.tsx] (the component
    [Home], its handlers [handleAgentStream] and [handleSendMessage], the
    bubble renderer) and of the earlier revision of the same page that
    posts to [/api/chat] only.

    Conventions.
    - A JavaScript string is the list of its UTF-16 code units, so that
      [length] is the [.length] of the source.
    - [useState] cells are the fields of one record [State]; a setter call
      is a field update, and an updater [prev => ...] is applied to the
      current value of the cell.  A handler reads the committed state.
    - [Date.now()], [new Date()] and [Math.random()] read an oracle at the
      position [tick] of the state, and advance it.
    - [fetch], the body reader and [axios.post] are inputs: what the
      network answered.  Every call is recorded in [requests], every
      [setTimeout] in [timers].
    - [JSON.parse] is a parameter.  The object it returns is read through
      the seven properties the handler looks at, each a string or
      [undefined], as the interfaces [AgentAction] and [Message] type them.
    - An [async] function is run in one piece, given what its awaited calls
      answered; the machine at the end cuts [handleSendMessage] at its
      first [await].
    - [console.log]/[console.error] have no effect on the state and are
      left out. *)

From Stdlib Require Import NArith Ascii String.
From stdpp Require Import base decidable option list sets.

Local Open Scope N_scope.

(* ===================================================================== *)
(** ** JavaScript strings *)
(* ===================================================================== *)

Definition jsstring : Type := list N.

(** An ASCII literal as a JavaScript string. *)
Definition js (s : string) : jsstring :=
  List.map N_of_ascii (list_ascii_of_string s).

(** The same, with every apostrophe standing for a double quote (U+0022),
    to write JSON text. *)
Definition jsq (s : string) : jsstring :=
  List.map (fun c => if N.eqb c 39 then 34 else c) (js s).

(** [s.startsWith(prefix)] *)
Fixpoint startsWith (s prefix : jsstring) : bool :=
  match prefix, s with
  | [], _ => true
  | _ :: _, [] => false
  | p :: prefix', c :: s' => N.eqb c p && startsWith s' prefix'
  end.

(** [s.includes(needle)] *)
Fixpoint includes (s needle : jsstring) : bool :=
  startsWith s needle ||
  match s with
  | [] => false
  | _ :: s' => includes s' needle
  end.

(** [s.split('\n')]: never empty, [''.split('\n')] is [['']]. *)
Fixpoint split_newline (s : jsstring) : list jsstring :=
  match s with
  | [] => [[]]
  | c :: s' =>
      if N.eqb c 10 then [] :: split_newline s'
      else match split_newline s' with
           | l :: ls => (c :: l) :: ls
           | [] => [[c]]
           end
  end.

(** The lines of a chunk, put back together with the separator. *)
Fixpoint join_newline (lines : list jsstring) : jsstring :=
  match lines with
  | [] => []
  | [l] => l
  | l :: rest => l ++ 10 :: join_newline rest
  end.

(** [s.slice(n)] for [0 <= n]. *)
Definition slice_from (n : nat) (s : jsstring) : jsstring := drop n s.

(** White space and line terminators of ECMAScript, as stripped by [trim]. *)
Definition is_white_space (c : N) : bool :=
  (N.leb 9 c && N.leb c 13) || N.eqb c 32 || N.eqb c 160 || N.eqb c 5760
  || (N.leb 8192 c && N.leb c 8202) || N.eqb c 8232 || N.eqb c 8233
  || N.eqb c 8239 || N.eqb c 8287 || N.eqb c 12288 || N.eqb c 65279.

Fixpoint trimStart (s : jsstring) : jsstring :=
  match s with
  | [] => []
  | c :: s' => if is_white_space c then trimStart s' else s
  end.

Definition trimEnd (s : jsstring) : jsstring := rev (trimStart (rev s)).

(** [s.trim()] *)
Definition trim (s : jsstring) : jsstring := trimEnd (trimStart s).

(** Truthiness of a string: the empty string is falsy. *)
Definition truthy (s : jsstring) : bool :=
  match s with [] => false | _ :: _ => true end.

(** Truthiness of a value that may be [undefined]. *)
Definition truthy_opt (v : option jsstring) : bool :=
  match v with Some s => truthy s | None => false end.

(** [v && v.length > 500] *)
Definition longer_than_500 (v : option jsstring) : bool :=
  match v with
  | Some s => truthy s && N.ltb 500 (N.of_nat (length s))
  | None => false
  end.

(** The literals of the page. *)
Definition s_sousuo : jsstring := [25628; 32034].      (* '搜索' *)
Definition s_fenxi : jsstring := [20998; 26512].       (* '分析' *)
Definition s_baogao : jsstring := [25253; 21578].      (* '报告' *)
Definition s_error_title : jsstring :=                 (* '处理错误' *)
  [22788; 29702; 38169; 35823].
Definition s_error_description : jsstring :=
  (* '处理过程中发生错误，请重试' *)
  [22788; 29702; 36807; 31243; 20013; 21457; 29983; 38169; 35823; 65292;
   35831; 37325; 35797].
Definition s_loading : jsstring :=                     (* '正在分析中，请稍候...' *)
  [27491; 22312; 20998; 26512; 20013; 65292; 35831; 31245; 20505; 46; 46; 46].
Definition s_cannot_process : jsstring :=
  (* '抱歉，我暂时无法处理您的请求。请稍后再试。' *)
  [25265; 27465; 65292; 25105; 26242; 26102; 26080; 27861; 22788; 29702;
   24744; 30340; 35831; 27714; 12290; 35831; 31245; 21518; 20877; 35797;
   12290].
Definition s_unavailable : jsstring :=
  (* '抱歉，服务暂时不可用。请检查后端服务是否正常运行。' *)
  [25265; 27465; 65292; 26381; 21153; 26242; 26102; 19981; 21487; 29992;
   12290; 35831; 26816; 26597; 21518; 31471; 26381; 21153; 26159; 21542;
   27491; 24120; 36816; 34892; 12290].
Definition s_greeting : jsstring :=
  (* '您好！我是NexMind智能分析助手。...comprehensive的企业分析报告。' *)
  [24744; 22909; 65281; 25105; 26159; 78; 101; 120; 77; 105; 110; 100;
   26234; 33021; 20998; 26512; 21161; 25163; 12290; 35831; 21578; 35785;
   25105; 24744; 24819; 20102; 35299; 21738; 23478; 20013; 22269; 20844;
   21496; 30340; 35814; 32454; 20449; 24687; 65292; 25105; 23558; 20026;
   24744; 29983; 25104; 99; 111; 109; 112; 114; 101; 104; 101; 110; 115;
   105; 118; 101; 30340; 20225; 19994; 20998; 26512; 25253; 21578; 12290].

(* ===================================================================== *)
(** ** Data of the page *)
(* ===================================================================== *)

(** [new Date()] at an instant of the clock, or [new Date(x)] of a field
    of an event, kept as it was received. *)
Inductive Date :=
  | DateAt (t : N)
  | DateOf (raw : option jsstring).

Inductive MessageType := user | bot.

(** [interface Message]; [isLoading] is optional. *)
Record Message := mkMessage {
  msg_id : N;
  msg_type : MessageType;
  content : jsstring;
  msg_timestamp : Date;
  msg_isLoading : option bool
}.

(** [msg.isLoading] under [!] or in a condition: absent is falsy. *)
Definition is_loading (m : Message) : bool :=
  match msg_isLoading m with Some b => b | None => false end.

Inductive ActionType := search | analyze | generate | complete.
Inductive ActionStatus := pending | running | completed | error.

Inductive ActionId :=
  | action_id (now rnd : N)          (* `action-${Date.now()}-${Math.random()}` *)
  | error_id (now : N).              (* `error-${Date.now()}` *)

(** [interface AgentAction]; [duration] is optional.  [description] is
    whatever the event carried, possibly [undefined]. *)
Record AgentAction := mkAction {
  act_id : ActionId;
  act_type : ActionType;
  title : jsstring;
  description : option jsstring;
  status : ActionStatus;
  act_timestamp : Date;
  duration : option N
}.

(** The object [JSON.parse] returned, as the handler reads it: the seven
    properties it looks at, each a string or [undefined]. *)
Record StreamData := mkData {
  d_type : option jsstring;
  d_step_name : option jsstring;
  d_description : option jsstring;
  d_status : option jsstring;
  d_timestamp : option jsstring;
  d_response : option jsstring;
  d_message : option jsstring
}.

(** A request sent to the backend: the method, the URL and the two
    members of the JSON body. *)
Record Request := mkRequest {
  http_method : jsstring;
  url : jsstring;
  body_message : jsstring;
  conversation_id : jsstring
}.

Definition url_stream : jsstring := js "http://localhost:8000/api/chat/stream".
Definition url_chat : jsstring := js "http://localhost:8000/api/chat".
Definition url_chat_relative : jsstring := js "/api/chat".

(** A callback handed to [setTimeout], with its delay in milliseconds. *)
Inductive TimerCallback :=
  | HideAgentPanel                                   (* () => setShowAgentPanel(false) *)
  | SimulateAction (index : nat) (query : jsstring). (* the callback of simulateAgentActions *)

(** What the network answers to one read of the body. *)
Inductive ReadResult :=
  | RChunk (chunk : jsstring)   (* { done: false, value }, decoded *)
  | RReject.                    (* the read promise rejects *)

(** What [fetch] answers; a body is the reads until [done]. *)
Inductive FetchResult :=
  | FetchRejected
  | FetchResponse (ok : bool) (body : option (list ReadResult)).

(** What [axios.post] answers; [AxiosOk r] has [response.data.response = r]. *)
Inductive AxiosResult :=
  | AxiosRejected
  | AxiosOk (response : option jsstring).

Inductive Error :=
  | ParseError                        (* thrown by JSON.parse or by reading a property of null *)
  | TypeError                         (* step_name is undefined: no [includes] *)
  | StreamRequestFailed               (* new Error('Stream request failed') *)
  | NoReaderAvailable                 (* new Error('No reader available') *)
  | NetworkError                      (* a rejected fetch, read or post *)
  | AgentError (message : option jsstring). (* new Error(data.message) *)

(** The cells of the component, and what it did to the outside. *)
Record State := mkState {
  messages : list Message;
  inputValue : jsstring;
  isLoading : bool;
  agentActions : list AgentAction;
  showAgentPanel : bool;
  showReportPanel : bool;
  currentReport : jsstring;
  reportTitle : option Date;          (* `企业分析报告 - ${date}`, or '' *)
  requests : list Request;            (* every fetch / axios.post, in order *)
  timers : list (TimerCallback * N);  (* every setTimeout, in order *)
  tick : nat                          (* readings of the clock so far *)
}.

(** The message the list starts with (id '1'). *)
Definition greeting (t0 : N) : Message :=
  mkMessage 1 bot s_greeting (DateAt t0) None.

Definition setMessages (f : list Message -> list Message) (st : State) : State :=
  mkState (f (messages st)) (inputValue st) (isLoading st) (agentActions st)
    (showAgentPanel st) (showReportPanel st) (currentReport st) (reportTitle st)
    (requests st) (timers st) (tick st).
Definition setInputValue (v : jsstring) (st : State) : State :=
  mkState (messages st) v (isLoading st) (agentActions st)
    (showAgentPanel st) (showReportPanel st) (currentReport st) (reportTitle st)
    (requests st) (timers st) (tick st).
Definition setIsLoading (v : bool) (st : State) : State :=
  mkState (messages st) (inputValue st) v (agentActions st)
    (showAgentPanel st) (showReportPanel st) (currentReport st) (reportTitle st)
    (requests st) (timers st) (tick st).
Definition setAgentActions (f : list AgentAction -> list AgentAction) (st : State) : State :=
  mkState (messages st) (inputValue st) (isLoading st) (f (agentActions st))
    (showAgentPanel st) (showReportPanel st) (currentReport st) (reportTitle st)
    (requests st) (timers st) (tick st).
Definition setShowAgentPanel (v : bool) (st : State) : State :=
  mkState (messages st) (inputValue st) (isLoading st) (agentActions st)
    v (showReportPanel st) (currentReport st) (reportTitle st)
    (requests st) (timers st) (tick st).
Definition setShowReportPanel (v : bool) (st : State) : State :=
  mkState (messages st) (inputValue st) (isLoading st) (agentActions st)
    (showAgentPanel st) v (currentReport st) (reportTitle st)
    (requests st) (timers st) (tick st).
Definition setCurrentReport (v : jsstring) (st : State) : State :=
  mkState (messages st) (inputValue st) (isLoading st) (agentActions st)
    (showAgentPanel st) (showReportPanel st) v (reportTitle st)
    (requests st) (timers st) (tick st).
Definition setReportTitle (v : option Date) (st : State) : State :=
  mkState (messages st) (inputValue st) (isLoading st) (agentActions st)
    (showAgentPanel st) (showReportPanel st) (currentReport st) v
    (requests st) (timers st) (tick st).
Definition send_request (r : Request) (st : State) : State :=
  mkState (messages st) (inputValue st) (isLoading st) (agentActions st)
    (showAgentPanel st) (showReportPanel st) (currentReport st) (reportTitle st)
    (requests st ++ [r]) (timers st) (tick st).
Definition setTimeout (cb : TimerCallback) (delay : N) (st : State) : State :=
  mkState (messages st) (inputValue st) (isLoading st) (agentActions st)
    (showAgentPanel st) (showReportPanel st) (currentReport st) (reportTitle st)
    (requests st) (timers st ++ [(cb, delay)]) (tick st).
Definition advance (st : State) : State :=
  mkState (messages st) (inputValue st) (isLoading st) (agentActions st)
    (showAgentPanel st) (showReportPanel st) (currentReport st) (reportTitle st)
    (requests st) (timers st) (S (tick st)).

(* ===================================================================== *)
(** ** Control flow: state, exceptions, early return *)
(* ===================================================================== *)

(** How a piece of code ends: normally with a value, or by throwing. *)
Inductive Completion (A : Type) :=
  | Normal (a : A)
  | Thrown (e : Error).
Arguments Normal {A} a.
Arguments Thrown {A} e.

Definition M (A : Type) : Type := State -> Completion A * State.

Definition ret {A} (a : A) : M A := fun st => (Normal a, st).
Definition throw {A} (e : Error) : M A := fun st => (Thrown e, st).
Definition bind {A B} (m : M A) (k : A -> M B) : M B :=
  fun st =>
    match m st with
    | (Normal a, st') => k a st'
    | (Thrown e, st') => (Thrown e, st')
    end.
(** [try { m } catch (e) { h e }] *)
Definition try_catch {A} (m : M A) (h : Error -> M A) : M A :=
  fun st =>
    match m st with
    | (Normal a, st') => (Normal a, st')
    | (Thrown e, st') => h e st'
    end.
(** [try { m } finally { f }], for an [f] that does not throw. *)
Definition try_finally {A} (m : M A) (f : State -> State) : M A :=
  fun st => let (c, st') := m st in (c, f st').
(** A setter call. *)
Definition update (f : State -> State) : M unit := fun st => (Normal tt, f st).

Notation "'let*' x ':=' m 'in' k" := (bind m (fun x => k))
  (at level 10, x name, m at level 100, k at level 200, only parsing).
Notation "'exec' m 'in' k" := (bind m (fun _ => k))
  (at level 10, m at level 100, k at level 200, only parsing).

(** What one iteration of a loop asks for: go on, or leave the function
    with [return v]. *)
Inductive LoopCtl :=
  | Continue
  | Return (v : option jsstring).

(** [a || b] on values: the first if truthy, else the second. *)
Definition or_else (v : option jsstring) (d : jsstring) : jsstring :=
  match v with
  | Some s => if truthy s then s else d
  | None => d
  end.

Section Page.

(** [JSON.parse] and the reading of the properties: [None] when
    [JSON.parse] throws or returns [null], so that [data.type] throws. *)
Variable JSON_parse : jsstring -> option StreamData.
(** The clock and the random source, by reading number. *)
Variable Date_now : nat -> N.
Variable Math_random : nat -> N.

Definition dateNow : M N := fun st => (Normal (Date_now (tick st)), advance st).
Definition newDate : M Date := fun st => (Normal (DateAt (Date_now (tick st))), advance st).
Definition mathRandom : M N := fun st => (Normal (Math_random (tick st)), advance st).

(* --------------------------------------------------------------------- *)
(** *** handleAgentStream *)
(* --------------------------------------------------------------------- *)

(** The [type] of the new action, from the name of the step. *)
Definition classify (step_name : jsstring) : ActionType :=
  if includes step_name s_sousuo then search
  else if includes step_name s_fenxi then analyze
  else if includes step_name s_baogao then generate
  else complete.

(** The [status] of the new action. *)
Definition classify_status (s : option jsstring) : ActionStatus :=
  if bool_decide (s = Some (js "running")) then running
  else if bool_decide (s = Some (js "completed")) then completed
  else pending.

(** [{ ...old, ...newAction }]: the six properties of [newAction] win,
    [duration] is the one [newAction] does not have. *)
Definition spread (old newAction : AgentAction) : AgentAction :=
  mkAction (act_id newAction) (act_type newAction) (title newAction)
    (description newAction) (status newAction) (act_timestamp newAction)
    (duration old).

(** The updater passed to [setAgentActions] for a step. *)
Definition upsert (newAction : AgentAction) (prev : list AgentAction)
  : list AgentAction :=
  match list_find (fun a => title a = title newAction) prev with
  | Some (existingIndex, old) =>
      <[existingIndex := spread old newAction]> prev
  | None => prev ++ [newAction]
  end.

(** The object literal [newAction]; [data.step_name.includes] throws when
    [step_name] is undefined, after the id has been computed. *)
Definition make_action (data : StreamData) : M AgentAction :=
  let* now := dateNow in
  let* rnd := mathRandom in
  match d_step_name data with
  | None => throw TypeError
  | Some name =>
      ret (mkAction (action_id now rnd) (classify name) name
             (d_description data) (classify_status (d_status data))
             (DateOf (d_timestamp data)) None)
  end.

(** The body of the inner [try]. *)
Definition handle_data (line : jsstring) : M LoopCtl :=
  let jsonStr := trim (slice_from 6 line) in
  match JSON_parse jsonStr with
  | None => throw ParseError
  | Some data =>
      if bool_decide (d_type data = Some (js "step")) then
        let* newAction := make_action data in
        exec update (setAgentActions (upsert newAction)) in
        ret Continue
      else if bool_decide (d_type data = Some (js "final")) then
        exec (if longer_than_500 (d_response data) then
                exec update (setCurrentReport (default [] (d_response data))) in
                let* d := newDate in
                exec update (setReportTitle (Some d)) in
                update (setShowReportPanel true)
              else ret tt) in
        exec update (setTimeout HideAgentPanel 2000) in
        ret (Return (d_response data))
      else if bool_decide (d_type data = Some (js "error")) then
        throw (AgentError (d_message data))
      else ret Continue
  end.

(** One iteration of [for (const line of lines)]. *)
Definition process_line (line : jsstring) : M LoopCtl :=
  if startsWith line (js "data: ") then
    try_catch (handle_data line) (fun _ => ret Continue)
  else ret Continue.

(** [for (const line of lines) { ... }], left by a [return]. *)
Fixpoint process_lines (lines : list jsstring) : M LoopCtl :=
  match lines with
  | [] => ret Continue
  | line :: rest =>
      let* ctl := process_line line in
      match ctl with
      | Continue => process_lines rest
      | Return v => ret (Return v)
      end
  end.

Definition process_chunk (chunk : jsstring) : M LoopCtl :=
  process_lines (split_newline chunk).

(** [while (true) { read; if (done) break; ... }]: [Continue] when the
    reader reports [done], [Return v] when a line returned. *)
Fixpoint read_all (reads : list ReadResult) : M LoopCtl :=
  match reads with
  | [] => ret Continue
  | RReject :: _ => throw NetworkError
  | RChunk chunk :: rest =>
      let* ctl := process_chunk chunk in
      match ctl with
      | Continue => read_all rest
      | Return v => ret (Return v)
      end
  end.

(** The loop and what follows it: falling out of the loop returns
    [undefined]. *)
Definition read_loop (reads : list ReadResult) : M (option jsstring) :=
  let* ctl := read_all reads in
  match ctl with
  | Continue => ret None
  | Return v => ret v
  end.

Definition error_action (now : N) (d : Date) : AgentAction :=
  mkAction (error_id now) complete s_error_title (Some s_error_description)
    error d None.

Definition stream_request (query : jsstring) : Request :=
  mkRequest (js "POST") url_stream query (js "default").

Definition handleAgentStream (query : jsstring) (resp : FetchResult)
  : M (option jsstring) :=
  exec update (setShowAgentPanel true) in
  exec update (setAgentActions (fun _ => [])) in
  try_catch
    (exec update (send_request (stream_request query)) in
     match resp with
     | FetchRejected => throw NetworkError
     | FetchResponse ok body =>
         if negb ok then throw StreamRequestFailed
         else match body with
              | None => throw NoReaderAvailable
              | Some reads => read_loop reads
              end
     end)
    (fun e =>
       let* now := dateNow in
       let* d := newDate in
       exec update (setAgentActions (fun prev => prev ++ [error_action now d])) in
       throw e).

(* --------------------------------------------------------------------- *)
(** *** handleSendMessage *)
(* --------------------------------------------------------------------- *)

(** [!inputValue.trim() || isLoading] *)
Definition send_guard (st : State) : bool :=
  negb (truthy (trim (inputValue st))) || isLoading st.

Definition get {A} (f : State -> A) : M A := fun st => (Normal (f st), st).

(** [prev => [...prev.filter(msg => !msg.isLoading), m]] *)
Definition replace_loading (m : Message) (prev : list Message) : list Message :=
  List.filter (fun msg => negb (is_loading msg)) prev ++ [m].

(** The bot message the three updaters build: id [Date.now() + 2]. *)
Definition post_bot_message (text : jsstring) : M unit :=
  let* now := dateNow in
  let* d := newDate in
  update (setMessages (replace_loading (mkMessage (now + 2) bot text d None))).

Definition chat_request (query : jsstring) : Request :=
  mkRequest (js "POST") url_chat query (js "default").

(** The report panel is opened on a long response. *)
Definition show_report (response : option jsstring) : M unit :=
  if longer_than_500 response then
    exec update (setCurrentReport (default [] response)) in
    let* d := newDate in
    exec update (setReportTitle (Some d)) in
    update (setShowReportPanel true)
  else ret tt.

(** From the guard to the loading message: the part that runs before the
    first [await].  Returns [currentQuery]. *)
Definition send_prologue : M jsstring :=
  let* currentQuery := get inputValue in
  let* now := dateNow in
  let* d := newDate in
  let userMessage := mkMessage now user currentQuery d None in
  exec update (setMessages (fun prev => prev ++ [userMessage])) in
  exec update (setInputValue []) in
  exec update (setIsLoading true) in
  exec update (setShowAgentPanel true) in
  exec update (setAgentActions (fun _ => [])) in
  exec update (setCurrentReport []) in
  exec update (setShowReportPanel false) in
  let* now1 := dateNow in
  let* d1 := newDate in
  let loadingMessage := mkMessage (now1 + 1) bot s_loading d1 (Some true) in
  exec update (setMessages (fun prev => prev ++ [loadingMessage])) in
  ret currentQuery.

(** [try { ... } catch (error) { ... } finally { setIsLoading(false) }] *)
Definition send_body (currentQuery : jsstring) (resp : FetchResult)
    (fallback : AxiosResult) : M unit :=
  try_finally
    (try_catch
       (let* finalResponse := handleAgentStream currentQuery resp in
        if truthy_opt finalResponse then
          post_bot_message (default [] finalResponse)
        else
          exec update (send_request (chat_request currentQuery)) in
          match fallback with
          | AxiosRejected => throw NetworkError
          | AxiosOk response =>
              exec post_bot_message (or_else response s_cannot_process) in
              show_report response
          end)
       (fun _ => post_bot_message s_unavailable))
    (setIsLoading false).

Definition handleSendMessage (resp : FetchResult) (fallback : AxiosResult)
  : M unit :=
  fun st =>
    if send_guard st then (Normal tt, st)
    else (let* currentQuery := send_prologue in
          send_body currentQuery resp fallback) st.

End Page.

(* --------------------------------------------------------------------- *)
(** *** Rendering *)
(* --------------------------------------------------------------------- *)

Inductive Rendering :=
  | Markdown     (* <ReactMarkdown> inside div.prose *)
  | PlainText.   (* <p className="whitespace-pre-wrap"> *)

(** [message.type === 'bot' && message.content.length > 500 ? ... : ...] *)
Definition render_bubble (m : Message) : Rendering :=
  match msg_type m with
  | bot => if N.ltb 500 (N.of_nat (length (content m))) then Markdown else PlainText
  | user => PlainText
  end.

(** [{showReportPanel && currentReport && ( ... )}] *)
Definition report_panel_visible (st : State) : bool :=
  showReportPanel st && truthy (currentReport st).

(* ===================================================================== *)
(** ** The earlier revision of the page: [/api/chat] only *)
(* ===================================================================== *)

Module Legacy.
Section Page.

Variable Date_now : nat -> N.

(** Shows the panel, empties the list and arms one timer per simulated
    action, [index * 800] ms from now. *)
Definition simulateAgentActions (query : jsstring) : M unit :=
  exec update (setShowAgentPanel true) in
  exec update (setAgentActions (fun _ => [])) in
  exec update (setTimeout (SimulateAction 0 query) 0) in
  exec update (setTimeout (SimulateAction 1 query) 800) in
  update (setTimeout (SimulateAction 2 query) 1600).

Definition chat_request (query : jsstring) : Request :=
  mkRequest (js "POST") url_chat_relative query (js "default").

Definition post_bot_message (text : jsstring) : M unit :=
  let* now := dateNow Date_now in
  let* d := newDate Date_now in
  update (setMessages (replace_loading (mkMessage (now + 2) bot text d None))).

Definition send_prologue : M jsstring :=
  let* currentQuery := get inputValue in
  let* now := dateNow Date_now in
  let* d := newDate Date_now in
  let userMessage := mkMessage now user currentQuery d None in
  exec update (setMessages (fun prev => prev ++ [userMessage])) in
  exec update (setInputValue []) in
  exec update (setIsLoading true) in
  exec simulateAgentActions currentQuery in
  let* now1 := dateNow Date_now in
  let* d1 := newDate Date_now in
  let loadingMessage := mkMessage (now1 + 1) bot s_loading d1 (Some true) in
  exec update (setMessages (fun prev => prev ++ [loadingMessage])) in
  ret currentQuery.

Definition send_body (currentQuery : jsstring) (answer : AxiosResult) : M unit :=
  try_finally
    (try_catch
       (exec update (send_request (chat_request currentQuery)) in
        match answer with
        | AxiosRejected => throw NetworkError
        | AxiosOk response => post_bot_message (or_else response s_cannot_process)
        end)
       (fun _ => post_bot_message s_unavailable))
    (setIsLoading false).

Definition handleSendMessage (answer : AxiosResult) : M unit :=
  fun st =>
    if send_guard st then (Normal tt, st)
    else (let* currentQuery := send_prologue in
          send_body currentQuery answer) st.

End Page.
End Legacy.

(* ===================================================================== *)
(** ** The page as a machine: one step per browser event *)
(* ===================================================================== *)

(** [handleSendMessage] is asynchronous: it runs up to its first [await]
    when the button is pressed, and the rest when the network has
    answered; its requests are recorded then, one after the other, the
    second only after the first has been awaited.  [in_flight] holds the
    queries of the invocations that passed the guard and have not
    finished. *)
Record App := mkApp {
  page : State;
  in_flight : list jsstring
}.

Inductive Event :=
  | Typed (text : jsstring)                                (* onChange of the textarea *)
  | SendPressed                                            (* click, or Enter *)
  | Settled (resp : FetchResult) (fallback : AxiosResult)  (* the awaited calls settle *)
  | AgentPanelSet (shown : bool)                           (* the panel buttons, the timer *)
  | ReportPanelSet (shown : bool).

Section Machine.

Variable JSON_parse : jsstring -> option StreamData.
Variable Date_now : nat -> N.
Variable Math_random : nat -> N.

Definition app_step (a : App) (e : Event) : App :=
  match e with
  | Typed text => mkApp (setInputValue text (page a)) (in_flight a)
  | SendPressed =>
      if send_guard (page a) then a
      else match send_prologue Date_now (page a) with
           | (Normal currentQuery, st) => mkApp st (in_flight a ++ [currentQuery])
           | (Thrown _, st) => mkApp st (in_flight a)
           end
  | Settled resp fallback =>
      match in_flight a with
      | [] => a
      | currentQuery :: rest =>
          mkApp (snd (send_body JSON_parse Date_now Math_random
                        currentQuery resp fallback (page a))) rest
      end
  | AgentPanelSet shown => mkApp (setShowAgentPanel shown (page a)) (in_flight a)
  | ReportPanelSet shown => mkApp (setShowReportPanel shown (page a)) (in_flight a)
  end.

Definition app_run (a : App) (events : list Event) : App :=
  foldl app_step a events.

(** The component as first rendered. *)
Definition initial_state (t0 : N) : State :=
  mkState [greeting t0] [] false [] false false [] None [] [] 0.

Definition initial_app (t0 : N) : App := mkApp (initial_state t0) [].

End Machine.

(** At most one invocation is past the guard, and the flag is up while
    it is. *)
Definition one_in_flight (a : App) : Prop :=
  in_flight a = [] \/ (exists q, in_flight a = [q]) /\ isLoading (page a) = true.

(* ===================================================================== *)
(** ** The events of a stream, read off the lines *)
(* ===================================================================== *)

(** What a line is for the handler. *)
Inductive LineKind :=
  | NotData                               (* no 'data: ' prefix *)
  | Unparsed                              (* JSON.parse or data.type throws *)
  | StepEvent (data : StreamData)
  | FinalEvent (response : option jsstring)
  | ErrorEvent (message : option jsstring)
  | OtherEvent.

Section Lines.

Variable JSON_parse : jsstring -> option StreamData.

Definition line_kind (line : jsstring) : LineKind :=
  if startsWith line (js "data: ") then
    match JSON_parse (trim (slice_from 6 line)) with
    | None => Unparsed
    | Some data =>
        if bool_decide (d_type data = Some (js "step")) then StepEvent data
        else if bool_decide (d_type data = Some (js "final")) then
          FinalEvent (d_response data)
        else if bool_decide (d_type data = Some (js "error")) then
          ErrorEvent (d_message data)
        else OtherEvent
    end
  else NotData.

(** The names of the steps in the order they arrive, up to the line that
    ends the function. *)
Fixpoint arrived_titles (lines : list jsstring) : list jsstring :=
  match lines with
  | [] => []
  | line :: rest =>
      match line_kind line with
      | FinalEvent _ => []
      | StepEvent data =>
          match d_step_name data with
          | Some name => name :: arrived_titles rest
          | None => arrived_titles rest
          end
      | _ => arrived_titles rest
      end
  end.

(** The chunks the reader delivers before it rejects or is done. *)
Fixpoint received (reads : list ReadResult) : list jsstring :=
  match reads with
  | RChunk chunk :: rest => chunk :: received rest
  | _ => []
  end.

Definition stream_lines (chunks : list jsstring) : list jsstring :=
  concat (split_newline <$> chunks).

End Lines.

(** Everything but the count of clock readings: the cells of the
    component, the requests sent and the timers armed. *)
Definition cells (st : State) :=
  (messages st, inputValue st, isLoading st, agentActions st,
   showAgentPanel st, (showReportPanel st, currentReport st, reportTitle st),
   requests st, timers st).

(** The two cells of the report, after an offer of [v] on cells [old]. *)
Definition report_cells (st : State) : jsstring * bool :=
  (currentReport st, showReportPanel st).

Definition offered (v : option jsstring) (old : jsstring * bool) : jsstring * bool :=
  if longer_than_500 v then (default [] v, true) else old.

(** The effect of a line, by its kind. *)
Section Effects.

Variable Date_now : nat -> N.
Variable Math_random : nat -> N.

(** The action a step event with a name builds in state [st]. *)
Definition step_action (data : StreamData) (name : jsstring) (st : State)
  : AgentAction :=
  mkAction (action_id (Date_now (tick st)) (Math_random (S (tick st))))
    (classify name) name (d_description data)
    (classify_status (d_status data)) (DateOf (d_timestamp data)) None.

(** The state after the report panel has been offered a response. *)
Definition reported (v : option jsstring) (st : State) : State :=
  if longer_than_500 v then
    setShowReportPanel true
      (setReportTitle (Some (DateAt (Date_now (tick st))))
         (advance (setCurrentReport (default [] v) st)))
  else st.

(** The state a final event leaves. *)
Definition final_state (v : option jsstring) (st : State) : State :=
  setTimeout HideAgentPanel 2000 (reported v st).

(** The bot message with a text, built in state [st], and the state after
    it has replaced the loading messages. *)
Definition bot_message (text : jsstring) (st : State) : Message :=
  mkMessage (Date_now (tick st) + 2) bot text (DateAt (Date_now (S (tick st)))) None.

Definition posted (text : jsstring) (st : State) : State :=
  setMessages (replace_loading (bot_message text st)) (advance (advance st)).

(** The messages [handleSendMessage] adds before the first [await]. *)
Definition user_message (st : State) : Message :=
  mkMessage (Date_now (tick st)) user (inputValue st)
    (DateAt (Date_now (S (tick st)))) None.

Definition loading_message (st : State) : Message :=
  mkMessage (Date_now (S (S (tick st))) + 1) bot s_loading
    (DateAt (Date_now (S (S (S (tick st)))))) (Some true).

(** The state at the first [await] of [handleSendMessage]. *)
Definition prologue_state (st : State) : State :=
  mkState ((messages st ++ [user_message st]) ++ [loading_message st])
    [] true [] true false [] (reportTitle st)
    (requests st) (timers st) (S (S (S (S (tick st))))).

(** What a line of each kind does to the state, and whether the loop goes on. *)
Definition line_effect (k : LineKind) (st : State) : LoopCtl * State :=
  match k with
  | StepEvent data =>
      match d_step_name data with
      | Some name =>
          (Continue,
           setAgentActions (upsert (step_action data name st)) (advance (advance st)))
      | None => (Continue, advance (advance st))
      end
  | FinalEvent v => (Return v, final_state v st)
  | _ => (Continue, st)
  end.

(** The state [send_body] leaves, by how the stream and the fallback
    went. *)
Definition send_outcome (currentQuery : jsstring) (fallback : AxiosResult)
    (stream : Completion (option jsstring) * State) : State :=
  setIsLoading false
    match stream with
    | (Normal v, st1) =>
        if truthy_opt v then posted (default [] v) st1
        else match fallback with
             | AxiosRejected =>
                 posted s_unavailable (send_request (chat_request currentQuery) st1)
             | AxiosOk response =>
                 reported response
                   (posted (or_else response s_cannot_process)
                      (send_request (chat_request currentQuery) st1))
             end
    | (Thrown _, st1) => posted s_unavailable st1
    end.

(** The response a send received: the one [handleAgentStream] returned if
    it is truthy, else the one of the fallback, if any. *)
Definition response_received (stream_value : Completion (option jsstring))
    (fallback : AxiosResult) : option jsstring :=
  match stream_value with
  | Normal v =>
      if truthy_opt v then v
      else match fallback with
           | AxiosOk response => response
           | AxiosRejected => None
           end
  | Thrown _ => None
  end.

(** The requests a send makes after the stream request. *)
Definition fallback_requests (currentQuery : jsstring)
    (stream_value : Completion (option jsstring)) : list Request :=
  match stream_value with
  | Normal v => if truthy_opt v then [] else [chat_request currentQuery]
  | Thrown _ => []
  end.

(** An event of type 'error', or a line that is not an event. *)
Definition error_or_blank (k : LineKind) : Prop :=
  match k with ErrorEvent _ | NotData => True | _ => False end.

(** Whether the reader rejects before it is done. *)
Fixpoint rejects (reads : list ReadResult) : bool :=
  match reads with
  | [] => false
  | RReject :: _ => true
  | RChunk _ :: rest => rejects rest
  end.

(** A line that does not end the function. *)
Definition goes_on (k : LineKind) : Prop :=
  match k with FinalEvent _ => False | _ => True end.

(** The state in which the reading of the stream starts. *)
Definition stream_start (query : jsstring) (st : State) : State :=
  send_request (stream_request query)
    (setAgentActions (fun _ => []) (setShowAgentPanel true st)).

(** The state the outer [catch] of [handleAgentStream] leaves. *)
Definition stream_caught (st : State) : State :=
  setAgentActions
    (fun prev => prev ++ [error_action (Date_now (tick st))
                            (DateAt (Date_now (S (tick st))))])
    (advance (advance st)).

End Effects.

(** A name joins the names seen so far, at the end, unless it is there. *)
Definition note_title (seen : list jsstring) (name : jsstring) : list jsstring :=
  if bool_decide (name ∈ seen) then seen else seen ++ [name].

(** A list of names without its repetitions, in order of first occurrence. *)
Definition first_occurrences (names : list jsstring) : list jsstring :=
  foldl note_title [] names.

(** The same by recursion from the front: the first name, then the others
    without it. *)
Definition differs_from (x y : jsstring) : bool := negb (bool_decide (y = x)).

Fixpoint nub (names : list jsstring) : list jsstring :=
  match names with
  | [] => []
  | x :: rest => x :: List.filter (differs_from x) (nub rest)
  end.

Definition unseen (seen : list jsstring) (name : jsstring) : bool :=
  negb (bool_decide (name ∈ seen)).

(* ===================================================================== *)
(** ** A decoder to run the handlers on concrete lines *)
(* ===================================================================== *)

(** [demo_parse] agrees with [JSON.parse] and the property reads on the
    text it accepts: an object whose members are strings without escapes,
    between optional JSON white space.  Everything else, [null] included,
    is [None]. *)
Module Demo.

Definition json_space (c : N) : bool :=
  N.eqb c 32 || N.eqb c 9 || N.eqb c 10 || N.eqb c 13.

Fixpoint skip_space (s : jsstring) : jsstring :=
  match s with
  | c :: s' => if json_space c then skip_space s' else s
  | [] => []
  end.

(** After an opening quote: the characters up to the closing quote, and
    what follows it. *)
Fixpoint read_string (s : jsstring) : option (jsstring * jsstring) :=
  match s with
  | [] => None
  | c :: s' =>
      if N.eqb c 34 then Some ([], s')
      else if N.eqb c 92 || N.ltb c 32 then None
      else match read_string s' with
           | Some (str, rest) => Some (c :: str, rest)
           | None => None
           end
  end.

Definition empty_data : StreamData :=
  mkData None None None None None None None.

Definition set_member (k v : jsstring) (d : StreamData) : StreamData :=
  if bool_decide (k = js "type") then
    mkData (Some v) (d_step_name d) (d_description d) (d_status d) (d_timestamp d) (d_response d) (d_message d)
  else if bool_decide (k = js "step_name") then
    mkData (d_type d) (Some v) (d_description d) (d_status d) (d_timestamp d) (d_response d) (d_message d)
  else if bool_decide (k = js "description") then
    mkData (d_type d) (d_step_name d) (Some v) (d_status d) (d_timestamp d) (d_response d) (d_message d)
  else if bool_decide (k = js "status") then
    mkData (d_type d) (d_step_name d) (d_description d) (Some v) (d_timestamp d) (d_response d) (d_message d)
  else if bool_decide (k = js "timestamp") then
    mkData (d_type d) (d_step_name d) (d_description d) (d_status d) (Some v) (d_response d) (d_message d)
  else if bool_decide (k = js "response") then
    mkData (d_type d) (d_step_name d) (d_description d) (d_status d) (d_timestamp d) (Some v) (d_message d)
  else if bool_decide (k = js "message") then
    mkData (d_type d) (d_step_name d) (d_description d) (d_status d) (d_timestamp d) (d_response d) (Some v)
  else d.

(** The members after the opening brace or a comma. *)
Fixpoint read_members (fuel : nat) (s : jsstring) (d : StreamData)
  : option StreamData :=
  match fuel with
  | O => None
  | S fuel' =>
      match skip_space s with
      | 34 :: s1 =>
          match read_string s1 with
          | Some (k, s2) =>
              match skip_space s2 with
              | 58 :: s3 =>
                  match skip_space s3 with
                  | 34 :: s4 =>
                      match read_string s4 with
                      | Some (v, s5) =>
                          match skip_space s5 with
                          | 44 :: s6 => read_members fuel' s6 (set_member k v d)
                          | 125 :: s6 =>
                              match skip_space s6 with
                              | [] => Some (set_member k v d)
                              | _ => None
                              end
                          | _ => None
                          end
                      | None => None
                      end
                  | _ => None
                  end
              | _ => None
              end
          | None => None
          end
      | _ => None
      end
  end.

Definition demo_parse (text : jsstring) : option StreamData :=
  match skip_space text with
  | 123 :: s1 =>
      match skip_space s1 with
      | 125 :: s2 => match skip_space s2 with [] => Some empty_data | _ => None end
      | _ => read_members (length text) s1 empty_data
      end
  | _ => None
  end.

(** A clock that advances by one millisecond per reading, and a constant
    random source. *)
Definition demo_now (n : nat) : N := 1700000000000 + N.of_nat n.
Definition demo_random (_ : nat) : N := 0.

(** Lines as the backend writes them. *)
Definition step_line (name status : jsstring) : jsstring :=
  jsq "data: {'type':'step','step_name':'" ++ name
    ++ jsq "','description':'...','status':'" ++ status ++ jsq "'}".
Definition final_line (response : jsstring) : jsstring :=
  jsq "data: {'type':'final','response':'" ++ response ++ jsq "'}".
Definition error_line : jsstring :=
  jsq "data: {'type':'error','message':'boom'}".

Definition step_data (name status : jsstring) : StreamData :=
  mkData (Some (js "step")) (Some name) (Some (js "...")) (Some status) None None None.
Definition final_data (response : jsstring) : StreamData :=
  mkData (Some (js "final")) None None None None (Some response) None.
Definition error_data : StreamData :=
  mkData (Some (js "error")) None None None None None (Some (js "boom")).

(** The page after the user has typed a company name. *)
Definition typed : State := setInputValue (js "Tencent") (initial_state 0).

(** An event stream: the search step starts and completes, the analysis
    starts, the report arrives.  Events end with a blank line. *)
Definition stream_ok : list ReadResult :=
  [RChunk (step_line s_sousuo (js "running") ++ [10; 10]);
   RChunk (step_line s_sousuo (js "completed") ++ [10; 10]
           ++ step_line s_fenxi (js "running") ++ [10; 10]);
   RChunk (final_line (js "Tencent is a company.") ++ [10; 10])].

(** A stream that reports an error and ends. *)
Definition stream_error : list ReadResult :=
  [RChunk (error_line ++ [10; 10])].

(** A step event that carries no [step_name]. *)
Definition nameless_step : jsstring :=
  jsq "data: {'type':'step','status':'running'}".

(** A final event that the network cuts in two, inside its line. *)
Definition cut_head : jsstring := jsq "data: {'type':'final','resp".
Definition cut_tail : jsstring := jsq "onse':'ok'}".
Definition stream_cut : list ReadResult :=
  [RChunk cut_head; RChunk (cut_tail ++ [10; 10])].

End Demo.

(* ===================================================================== *)
(** ** The rest of the page: what is drawn, the controls, the PDF name *)
(* ===================================================================== *)

(** The left panel: [messages.filter(msg => msg.type === 'user')]. *)
Definition is_user (m : Message) : bool :=
  match msg_type m with user => true | bot => false end.

Definition chat_history (st : State) : list Message :=
  List.filter is_user (messages st).

(** The card of an action in the agent panel: its colours, by status. *)
Inductive CardStyle :=
  | GreenCard    (* border-green-200 bg-green-50 *)
  | BlueCard     (* border-blue-200 bg-blue-50 *)
  | RedCard      (* border-red-200 bg-red-50 *)
  | GrayCard.    (* border-gray-200 *)

Definition card_style (s : ActionStatus) : CardStyle :=
  match s with
  | completed => GreenCard
  | running => BlueCard
  | error => RedCard
  | pending => GrayCard
  end.

(** [{action.duration && action.status === 'completed' && ( ... )}] *)
Definition shows_duration (a : AgentAction) : bool :=
  match duration a with
  | Some d =>
      negb (N.eqb d 0) && match status a with completed => true | _ => false end
  | None => false
  end.

(** The buttons that set the two panel flags.  Each is in the tree only
    under its own condition. *)
Inductive Control :=
  | HeaderAgentButton    (* {showAgentPanel && <button onClick={() => setShowAgentPanel(!showAgentPanel)}>} *)
  | AgentPanelClose      (* the cross of the agent panel *)
  | HeaderReportButton   (* {currentReport && <button onClick={() => setShowReportPanel(!showReportPanel)}>} *)
  | ReportPanelClose.    (* the cross of the report panel *)

Definition rendered (c : Control) (st : State) : bool :=
  match c with
  | HeaderAgentButton | AgentPanelClose => showAgentPanel st
  | HeaderReportButton => truthy (currentReport st)
  | ReportPanelClose => report_panel_visible st
  end.

Definition on_click (c : Control) (st : State) : State :=
  match c with
  | HeaderAgentButton => setShowAgentPanel (negb (showAgentPanel st)) st
  | AgentPanelClose => setShowAgentPanel false st
  | HeaderReportButton => setShowReportPanel (negb (showReportPanel st)) st
  | ReportPanelClose => setShowReportPanel false st
  end.

(** A click lands on a control only if it is drawn. *)
Definition click (c : Control) (st : State) : State :=
  if rendered c st then on_click c st else st.

(** A timer of the page goes off. *)
Definition fire (cb : TimerCallback) (st : State) : State :=
  match cb with
  | HideAgentPanel => setShowAgentPanel false st
  | SimulateAction _ _ => st
  end.

(** [downloadReportAsPDF], the name of the file:
    [reportTitle ? `${reportTitle.replace(/[^a-zA-Z0-9\u4e00-\u9fff]/g, '_')}.pdf`
                 : '企业分析报告.pdf'].  The regular expression has no [u] flag:
    it works on code units. *)
Definition is_name_char (c : N) : bool :=
  (N.leb 97 c && N.leb c 122) || (N.leb 65 c && N.leb c 90)
  || (N.leb 48 c && N.leb c 57) || (N.leb 19968 c && N.leb c 40959).

Definition replace_other_chars (s : jsstring) : jsstring :=
  List.map (fun c => if is_name_char c then c else 95) s.

Definition s_default_pdf : jsstring :=                 (* '企业分析报告.pdf' *)
  [20225; 19994; 20998; 26512; 25253; 21578; 46; 112; 100; 102].
Definition s_report_title : jsstring :=                (* '企业分析报告 - ' *)
  [20225; 19994; 20998; 26512; 25253; 21578; 32; 45; 32].

Definition pdf_file_name (reportTitle : jsstring) : jsstring :=
  if truthy reportTitle then replace_other_chars reportTitle ++ js ".pdf"
  else s_default_pdf.

(** The title cell as a string: '' at first, then
    [`企业分析报告 - ${new Date().toLocaleDateString()}`]. *)
Definition report_title_text (toLocaleDateString : Date -> jsstring)
    (t : option Date) : jsstring :=
  match t with
  | None => []
  | Some d => s_report_title ++ toLocaleDateString d
  end.

(* ===================================================================== *)
(** ** The first revision of the page: no agent panel *)
(* ===================================================================== *)

Module First.
Section Page.

Variable Date_now : nat -> N.

Definition send_prologue : M jsstring :=
  let* inputValue0 := get inputValue in
  let* now := dateNow Date_now in
  let* d := newDate Date_now in
  let userMessage := mkMessage now user inputValue0 d None in
  exec update (setMessages (fun prev => prev ++ [userMessage])) in
  exec update (setInputValue []) in
  exec update (setIsLoading true) in
  let* now1 := dateNow Date_now in
  let* d1 := newDate Date_now in
  let loadingMessage := mkMessage (now1 + 1) bot s_loading d1 (Some true) in
  exec update (setMessages (fun prev => prev ++ [loadingMessage])) in
  ret inputValue0.

(** [message: inputValue] is the value of the render the handler was
    made in, the one the prologue read. *)
Definition send_body (inputValue0 : jsstring) (answer : AxiosResult) : M unit :=
  try_finally
    (try_catch
       (exec update (send_request (Legacy.chat_request inputValue0)) in
        match answer with
        | AxiosRejected => throw NetworkError
        | AxiosOk response =>
            Legacy.post_bot_message Date_now (or_else response s_cannot_process)
        end)
       (fun _ => Legacy.post_bot_message Date_now s_unavailable))
    (setIsLoading false).

Definition handleSendMessage (answer : AxiosResult) : M unit :=
  fun st =>
    if send_guard st then (Normal tt, st)
    else (let* inputValue0 := send_prologue in
          send_body inputValue0 answer) st.

End Page.
End First.

(* ===================================================================== *)
(** ** How a stream ends, read off the answer of the network *)
(* ===================================================================== *)

(** The last of the steps with a name. *)
Definition latest_step (name : jsstring) (steps : list (jsstring * StreamData))
  : option StreamData :=
  snd <$> List.find (fun p => bool_decide (fst p = name)) (rev steps).

(** A card shows what an event said. *)
Definition shows (a : AgentAction) (data : StreamData) : Prop :=
  description a = d_description data /\
  status a = classify_status (d_status data) /\
  act_timestamp a = DateOf (d_timestamp data) /\
  act_type a = classify (title a).

(** The cards are up to date with the steps [steps], and no two have the
    same title. *)
Definition up_to_date (steps : list (jsstring * StreamData))
    (actions : list AgentAction) : Prop :=
  NoDup (title <$> actions) /\
  forall a, a ∈ actions ->
    exists data, latest_step (title a) steps = Some data /\ shows a data.

(** An action as the stream makes them: no duration, never in error. *)
Definition stream_made (a : AgentAction) : Prop :=
  duration a = None /\ status a <> error.

Definition ends_stream (k : LineKind) : bool :=
  match k with FinalEvent _ => true | _ => false end.

(** Neither a step nor a final event: a line that changes nothing. *)
Definition is_inert (k : LineKind) : bool :=
  match k with StepEvent _ | FinalEvent _ => false | _ => true end.

Section Outcome.

Variable JSON_parse : jsstring -> option StreamData.

(** A final event is among the lines received. *)
Definition reaches_final (resp : FetchResult) : bool :=
  match resp with
  | FetchResponse true (Some reads) =>
      existsb (fun l => ends_stream (line_kind JSON_parse l))
              (stream_lines (received reads))
  | _ => false
  end.

(** The transport fails before a final event is received. *)
Definition transport_fails (resp : FetchResult) : bool :=
  match resp with
  | FetchResponse true (Some reads) =>
      negb (reaches_final resp) && rejects reads
  | _ => true
  end.

(** The error of a failed transport. *)
Definition transport_error (resp : FetchResult) : Error :=
  match resp with
  | FetchResponse false _ => StreamRequestFailed
  | FetchResponse true None => NoReaderAvailable
  | _ => NetworkError
  end.

(** The response of the first final event among the lines, [undefined]
    if there is none or it has none. *)
Definition first_final (lines : list jsstring) : option jsstring :=
  match List.find (fun l => ends_stream (line_kind JSON_parse l)) lines with
  | Some l => match line_kind JSON_parse l with FinalEvent v => v | _ => None end
  | None => None
  end.

Definition stream_value (resp : FetchResult) : option jsstring :=
  match resp with
  | FetchResponse true (Some reads) => first_final (stream_lines (received reads))
  | _ => None
  end.

(** The text of the bot message a send ends with. *)
Definition final_text (resp : FetchResult) (fallback : AxiosResult) : jsstring :=
  if transport_fails resp then s_unavailable
  else if truthy_opt (stream_value resp) then default [] (stream_value resp)
  else match fallback with
       | AxiosRejected => s_unavailable
       | AxiosOk response => or_else response s_cannot_process
       end.

(** The step events with a name, in the order they arrive, up to the line
    that ends the function. *)
Fixpoint arrived_steps (lines : list jsstring) : list (jsstring * StreamData) :=
  match lines with
  | [] => []
  | line :: rest =>
      match line_kind JSON_parse line with
      | FinalEvent _ => []
      | StepEvent data =>
          match d_step_name data with
          | Some name => (name, data) :: arrived_steps rest
          | None => arrived_steps rest
          end
      | _ => arrived_steps rest
      end
  end.

(** The timers [handleAgentStream] arms. *)
Definition hide_timers (resp : FetchResult) : list (TimerCallback * N) :=
  if reaches_final resp then [(HideAgentPanel, 2000)] else [].

End Outcome.

(** What holds of the page in every state the machine reaches: the
    greeting is the first message; either nothing is in flight, the flag
    is down and no message is loading, or one query is in flight, the flag
    is up and the list ends with the user's message and the loading one. *)
Definition settled_or_waiting (t0 : N) (a : App) : Prop :=
  head (messages (page a)) = Some (greeting t0) /\
  ((in_flight a = [] /\ isLoading (page a) = false /\
    Forall (fun m => is_loading m = false) (messages (page a))) \/
   (exists q earlier u l,
       in_flight a = [q] /\ isLoading (page a) = true /\
       messages (page a) = earlier ++ [u; l] /\
       Forall (fun m => is_loading m = false) earlier /\
       msg_type u = user /\ content u = q /\ is_loading u = false /\
       msg_type l = bot /\ content l = s_loading /\ is_loading l = true)).

Ltac unfold_setters :=
  unfold setMessages, setInputValue, setIsLoading, setAgentActions,
    setShowAgentPanel, setShowReportPanel, setCurrentReport, setReportTitle,
    send_request, setTimeout, advance in *.

(* ===================================================================== *)
(** ** Facts about the string functions *)
(* ===================================================================== *)

Example startsWith_examples :
  startsWith (js "data: {}") (js "data: ") = true /\
  startsWith (js "data:{}") (js "data: ") = false /\
  startsWith (js "dat") (js "data: ") = false.
Proof. repeat split. Qed.

Example includes_examples :
  includes (js "abcab") (js "ca") = true /\
  includes (js "abcab") (js "cb") = false /\
  includes s_loading s_fenxi = true.
Proof. repeat split. Qed.

Example split_newline_examples :
  split_newline [] = [[]] /\
  split_newline (js "a" ++ [10; 10] ++ js "b") = [js "a"; []; js "b"] /\
  split_newline (js "a" ++ [10]) = [js "a"; []].
Proof. repeat split. Qed.

Example trim_examples :
  trim ([32; 9] ++ js "{ }" ++ [13; 10]) = js "{ }" /\
  trim [32; 10; 12288] = [] /\
  slice_from 6 (js "data: {}") = js "{}".
Proof. repeat split. Qed.

Example demo_parse_examples :
  Demo.demo_parse (jsq "{'type':'final', 'response':'ok'}")
    = Some (Demo.final_data (js "ok")) /\
  Demo.demo_parse (jsq "{}") = Some Demo.empty_data /\
  Demo.demo_parse (jsq "{'type':") = None /\
  Demo.demo_parse (js "null") = None.
Proof. repeat split. Qed.

Lemma startsWith_spec (s prefix : jsstring) :
  startsWith s prefix = true <-> exists rest, s = prefix ++ rest.
Proof.
  revert s; induction prefix as [|p prefix IH]; intros s; simpl.
  - split; [intros _; exists s; reflexivity | intros _; destruct s; reflexivity].
  - destruct s as [|c s].
    + simpl. split; [discriminate | intros [rest H]; discriminate].
    + simpl. rewrite andb_true_iff, N.eqb_eq, IH. split.
      * intros [-> [rest ->]]. exists rest. reflexivity.
      * intros [rest H]. injection H as -> ->. split; [reflexivity | exists rest; reflexivity].
Qed.

(** [includes] is the test for an occurrence of [needle] somewhere in [s]. *)
Lemma includes_spec (s needle : jsstring) :
  includes s needle = true <-> exists before after, s = before ++ needle ++ after.
Proof.
  induction s as [|c s IH].
  - cbn [includes]. rewrite orb_false_r, startsWith_spec. split.
    + intros [rest H]. exists [], rest. exact H.
    + intros [before [after H]]. destruct before; simpl in H.
      * exists after. exact H.
      * discriminate.
  - cbn [includes]. rewrite orb_true_iff, startsWith_spec, IH. split.
    + intros [[rest H] | [before [after H]]].
      * exists [], rest. exact H.
      * exists (c :: before), after. simpl. rewrite H. reflexivity.
    + intros [before [after H]]. destruct before as [|b before]; simpl in H.
      * left. exists after. exact H.
      * right. injection H as _ H. exists before, after. exact H.
Qed.

Lemma split_newline_nonempty (s : jsstring) : split_newline s <> [].
Proof.
  destruct s as [|c s]; simpl; [discriminate|].
  destruct (N.eqb c 10); [discriminate|].
  destruct (split_newline s); discriminate.
Qed.

Lemma join_split_newline (s : jsstring) : join_newline (split_newline s) = s.
Proof.
  induction s as [|c s IH]; [reflexivity|].
  simpl. destruct (N.eqb_spec c 10) as [->|Hc].
  - pose proof (split_newline_nonempty s) as Hne.
    destruct (split_newline s) as [|l ls]; [contradiction|].
    cbn [join_newline app]. cbn [join_newline] in IH. rewrite IH. reflexivity.
  - pose proof (split_newline_nonempty s) as Hne.
    destruct (split_newline s) as [|l ls]; [contradiction|].
    destruct ls as [|l' ls]; simpl in *; rewrite IH; reflexivity.
Qed.

Lemma split_newline_no_newline (s : jsstring) :
  Forall (fun line => 10 ∉ line) (split_newline s).
Proof.
  induction s as [|c s IH]; simpl.
  - constructor; [apply not_elem_of_nil | constructor].
  - destruct (N.eqb_spec c 10) as [->|Hc].
    + constructor; [apply not_elem_of_nil | exact IH].
    + destruct (split_newline s) as [|l ls].
      * constructor; [|constructor]. rewrite elem_of_cons. intros [H|H]; [congruence|].
        revert H. apply not_elem_of_nil.
      * inversion IH as [|? ? Hl Hls]; subst. constructor; [|exact Hls].
        rewrite elem_of_cons. intros [H|H]; [congruence | contradiction].
Qed.

Lemma trimStart_nil_iff (s : jsstring) :
  trimStart s = [] <-> Forall (fun c => is_white_space c = true) s.
Proof.
  induction s as [|c s IH]; simpl.
  - split; [constructor | reflexivity].
  - destruct (is_white_space c) eqn:Hc.
    + rewrite IH. split; [intros H; constructor; assumption | intros H; inversion H; assumption].
    + split; [discriminate | intros H; inversion H; congruence].
Qed.

Lemma trimStart_head (s : jsstring) (c : N) (rest : jsstring) :
  trimStart s = c :: rest -> is_white_space c = false.
Proof.
  induction s as [|d s IH]; simpl; [discriminate|].
  destruct (is_white_space d) eqn:Hd; [exact IH|].
  intros H. injection H as -> _. exact Hd.
Qed.

(** [trim] leaves nothing exactly when the string is white space only. *)
Lemma trim_nil_iff (s : jsstring) :
  trim s = [] <-> Forall (fun c => is_white_space c = true) s.
Proof.
  unfold trim, trimEnd. split.
  - intros H. apply trimStart_nil_iff.
    destruct (trimStart s) as [|c rest] eqn:Hs; [reflexivity|].
    assert (Hr : trimStart (rev (c :: rest)) = []).
    { rewrite <- (rev_involutive (trimStart (rev (c :: rest)))), H. reflexivity. }
    apply trimStart_nil_iff, List.Forall_rev in Hr. rewrite rev_involutive in Hr.
    inversion Hr as [|? ? Hc _]; subst.
    apply trimStart_head in Hs. congruence.
  - intros H. apply trimStart_nil_iff in H. rewrite H. reflexivity.
Qed.

(* ===================================================================== *)
(** ** The updater of the action list *)
(* ===================================================================== *)

Lemma upsert_new (a : AgentAction) (prev : list AgentAction) :
  title a ∉ title <$> prev -> upsert a prev = prev ++ [a].
Proof.
  intros Hnew. unfold upsert.
  destruct (list_find _ prev) as [[i old]|] eqn:Hfind; [|reflexivity].
  apply list_find_Some in Hfind as (Hi & Hold & _).
  exfalso. apply Hnew. rewrite <- Hold.
  apply list_elem_of_fmap_2. eapply list_elem_of_lookup_2. exact Hi.
Qed.

Lemma upsert_seen (a : AgentAction) (prev : list AgentAction) :
  title a ∈ title <$> prev ->
  exists i old,
    prev !! i = Some old /\ title old = title a /\
    (forall j b, prev !! j = Some b -> (j < i)%nat -> title b <> title a) /\
    upsert a prev = <[i := spread old a]> prev.
Proof.
  intros Hseen. unfold upsert.
  destruct (list_find _ prev) as [[i old]|] eqn:Hfind.
  - apply list_find_Some in Hfind as (Hi & Hold & Hfirst).
    exists i, old. repeat split; assumption.
  - apply list_find_None in Hfind.
    apply list_elem_of_fmap_1 in Hseen as (b & Hb & Hin).
    rewrite Forall_forall in Hfind. exfalso. apply (Hfind b Hin). congruence.
Qed.

Lemma upsert_titles (a : AgentAction) (prev : list AgentAction) :
  title <$> upsert a prev = note_title (title <$> prev) (title a).
Proof.
  unfold note_title. case_bool_decide as Hin.
  - destruct (upsert_seen a prev Hin) as (i & old & Hi & Hold & _ & ->).
    rewrite list_fmap_insert. apply list_insert_id.
    rewrite list_lookup_fmap, Hi. simpl. rewrite Hold. reflexivity.
  - rewrite (upsert_new a prev Hin), fmap_app. reflexivity.
Qed.

Lemma upsert_length (a : AgentAction) (prev : list AgentAction) :
  length (upsert a prev) =
  if bool_decide (title a ∈ title <$> prev) then length prev else S (length prev).
Proof.
  case_bool_decide as Hin.
  - destruct (upsert_seen a prev Hin) as (i & old & _ & _ & _ & ->).
    apply length_insert.
  - rewrite (upsert_new a prev Hin), length_app. simpl. lia.
Qed.

Lemma note_title_NoDup (seen : list jsstring) (name : jsstring) :
  NoDup seen -> NoDup (note_title seen name).
Proof.
  intros Hnd. unfold note_title. case_bool_decide as Hin; [exact Hnd|].
  apply NoDup_app. repeat split.
  - exact Hnd.
  - intros x Hx Hx'. apply list_elem_of_singleton in Hx'. congruence.
  - apply NoDup_singleton.
Qed.

Lemma foldl_note_title_NoDup (names seen : list jsstring) :
  NoDup seen -> NoDup (foldl note_title seen names).
Proof.
  revert seen. induction names as [|name names IH]; intros seen Hnd; simpl.
  - exact Hnd.
  - apply IH, note_title_NoDup, Hnd.
Qed.

(** [first_occurrences] is [nub]. *)
Lemma filter_swap {A} (p q : A -> bool) (l : list A) :
  List.filter p (List.filter q l) = List.filter q (List.filter p l).
Proof.
  induction l as [|a l IH]; [reflexivity|]. cbn [List.filter].
  destruct (p a) eqn:Hp, (q a) eqn:Hq; cbn [List.filter];
    rewrite ?Hp, ?Hq, IH; reflexivity.
Qed.

Lemma filter_differs_absorbed (p : jsstring -> bool) (x : jsstring) (l : list jsstring) :
  p x = false ->
  List.filter p (List.filter (differs_from x) l) = List.filter p l.
Proof.
  intros Hx. induction l as [|a l IH]; [reflexivity|]. cbn [List.filter].
  unfold differs_from at 1. case_bool_decide as Ha; cbn [negb List.filter].
  - subst a. rewrite Hx. exact IH.
  - rewrite IH. reflexivity.
Qed.

Lemma nub_filter (p : jsstring -> bool) (l : list jsstring) :
  nub (List.filter p l) = List.filter p (nub l).
Proof.
  induction l as [|x l IH]; [reflexivity|]. cbn [List.filter nub].
  destruct (p x) eqn:Hx.
  - cbn [nub]. rewrite IH, filter_swap. reflexivity.
  - rewrite (filter_differs_absorbed p x _ Hx). exact IH.
Qed.

Lemma filter_unseen_snoc (seen : list jsstring) (x : jsstring) (l : list jsstring) :
  List.filter (unseen (seen ++ [x])) l =
  List.filter (differs_from x) (List.filter (unseen seen) l).
Proof.
  induction l as [|a l IH]; [reflexivity|]. cbn [List.filter].
  assert (Ha : unseen (seen ++ [x]) a = unseen seen a && differs_from x a).
  { unfold unseen, differs_from.
    repeat case_bool_decide; try reflexivity; exfalso; set_solver. }
  rewrite Ha. destruct (unseen seen a); cbn [andb List.filter];
    [destruct (differs_from x a)|]; rewrite IH; reflexivity.
Qed.

Lemma foldl_note_title_nub (names seen : list jsstring) :
  foldl note_title seen names = seen ++ nub (List.filter (unseen seen) names).
Proof.
  revert seen; induction names as [|x names IH]; intros seen.
  - symmetry. apply app_nil_r.
  - cbn [foldl List.filter]. unfold note_title at 2, unseen at 1.
    case_bool_decide as Hin; cbn [negb]; rewrite IH; [reflexivity|].
    cbn [nub]. rewrite filter_unseen_snoc, nub_filter, <- app_assoc. reflexivity.
Qed.

Lemma first_occurrences_nub (names : list jsstring) :
  first_occurrences names = nub names.
Proof.
  unfold first_occurrences. rewrite foldl_note_title_nub. cbn [app]. f_equal.
  induction names as [|x names IH]; [reflexivity|].
  cbn [List.filter]. unfold unseen at 1.
  rewrite bool_decide_eq_false_2 by apply not_elem_of_nil. cbn [negb].
  rewrite IH. reflexivity.
Qed.

(* ===================================================================== *)
(** ** What one line does *)
(* ===================================================================== *)

Section LineFacts.

Variable JSON_parse : jsstring -> option StreamData.
Variable Date_now : nat -> N.
Variable Math_random : nat -> N.

Local Abbreviation process_line := (process_line JSON_parse Date_now Math_random).
Local Abbreviation process_lines := (process_lines JSON_parse Date_now Math_random).
Local Abbreviation process_chunk := (process_chunk JSON_parse Date_now Math_random).
Local Abbreviation read_all := (read_all JSON_parse Date_now Math_random).
Local Abbreviation read_loop := (read_loop JSON_parse Date_now Math_random).
Local Abbreviation handleAgentStream := (handleAgentStream JSON_parse Date_now Math_random).
Local Abbreviation line_kind := (line_kind JSON_parse).
Local Abbreviation arrived_titles := (arrived_titles JSON_parse).
Local Abbreviation step_action := (step_action Date_now Math_random).
Local Abbreviation final_state := (final_state Date_now).
Local Abbreviation line_effect := (line_effect Date_now Math_random).
Local Abbreviation stream_caught := (stream_caught Date_now).

Ltac line_cases H :=
  unfold line_kind in H; unfold process_line, handle_data, try_catch;
  destruct (startsWith _ _); [|discriminate H];
  destruct (JSON_parse _) as [data'|]; [|discriminate H];
  repeat case_bool_decide; try discriminate H.

Lemma process_line_step line data name st :
  line_kind line = StepEvent data ->
  d_step_name data = Some name ->
  process_line line st =
    (Normal Continue,
     setAgentActions (upsert (step_action data name st)) (advance (advance st))).
Proof.
  intros H Hname. line_cases H. injection H as ->.
  unfold bind, make_action, bind, dateNow, mathRandom. simpl.
  rewrite Hname. reflexivity.
Qed.

Lemma process_line_step_unnamed line data st :
  line_kind line = StepEvent data ->
  d_step_name data = None ->
  process_line line st = (Normal Continue, advance (advance st)).
Proof.
  intros H Hname. line_cases H. injection H as ->.
  unfold bind, make_action, bind, dateNow, mathRandom. simpl.
  rewrite Hname. reflexivity.
Qed.

Lemma process_line_final line v st :
  line_kind line = FinalEvent v ->
  process_line line st = (Normal (Return v), final_state v st).
Proof.
  intros H. line_cases H. injection H as <-.
  unfold final_state, reported, bind, update, newDate, ret.
  destruct (longer_than_500 (d_response data')); reflexivity.
Qed.

(** Every other line leaves the state as it is and lets the loop go on:
    a line without the prefix, a payload that does not parse, an event of
    type 'error' (its [throw] is caught by the inner [catch]) or of an
    unknown type. *)
Lemma process_line_skip line st :
  match line_kind line with
  | StepEvent _ | FinalEvent _ => False
  | _ => True
  end ->
  process_line line st = (Normal Continue, st).
Proof.
  intros H. unfold line_kind in H.
  unfold process_line, handle_data, try_catch.
  destruct (startsWith _ _); [|reflexivity].
  destruct (JSON_parse _) as [data'|]; [|reflexivity].
  repeat case_bool_decide; try contradiction; reflexivity.
Qed.

Lemma process_line_eq line st :
  process_line line st =
  (Normal (fst (line_effect (line_kind line) st)),
   snd (line_effect (line_kind line) st)).
Proof.
  destruct (line_kind line) as [| |data|v|m|] eqn:Hk; simpl;
    try (apply process_line_skip; rewrite Hk; exact I).
  - destruct (d_step_name data) as [name|] eqn:Hname; simpl.
    + apply (process_line_step _ _ _ _ Hk Hname).
    + apply (process_line_step_unnamed _ _ _ Hk Hname).
  - apply (process_line_final _ _ _ Hk).
Qed.

Lemma process_lines_cons line rest st :
  process_lines (line :: rest) st =
  match line_effect (line_kind line) st with
  | (Continue, st') => process_lines rest st'
  | (Return v, st') => (Normal (Return v), st')
  end.
Proof.
  cbn [process_lines]. unfold bind. rewrite process_line_eq.
  destruct (line_effect (line_kind line) st) as [[|v] st']; reflexivity.
Qed.

Lemma process_lines_no_throw lines st :
  exists ctl, fst (process_lines lines st) = Normal ctl.
Proof.
  revert st; induction lines as [|line rest IH]; intros st.
  - exists Continue. reflexivity.
  - rewrite process_lines_cons.
    destruct (line_effect (line_kind line) st) as [[|v] st'].
    + apply IH.
    + exists (Return v). reflexivity.
Qed.

Lemma process_lines_app l1 l2 st :
  process_lines (l1 ++ l2) st =
  match process_lines l1 st with
  | (Normal Continue, st') => process_lines l2 st'
  | other => other
  end.
Proof.
  revert st; induction l1 as [|line rest IH]; intros st.
  - reflexivity.
  - rewrite <- app_comm_cons, !process_lines_cons.
    destruct (line_effect (line_kind line) st) as [[|v] st'].
    + apply IH.
    + reflexivity.
Qed.

Lemma read_all_cons_chunk chunk rest st :
  read_all (RChunk chunk :: rest) st =
  match process_lines (split_newline chunk) st with
  | (Normal Continue, st') => read_all rest st'
  | other => other
  end.
Proof.
  cbn [read_all]. unfold bind, process_chunk.
  destruct (process_lines_no_throw (split_newline chunk) st) as [ctl Hctl].
  destruct (process_lines (split_newline chunk) st) as [c st'].
  simpl in Hctl. subst c. destruct ctl; reflexivity.
Qed.

(** Reading chunk after chunk is going through the lines of all of them. *)
Lemma read_all_chunks chunks st :
  read_all (RChunk <$> chunks) st = process_lines (stream_lines chunks) st.
Proof.
  revert st; induction chunks as [|chunk rest IH]; intros st.
  - reflexivity.
  - rewrite fmap_cons, read_all_cons_chunk.
    unfold stream_lines. rewrite fmap_cons. cbn [concat].
    rewrite process_lines_app.
    destruct (process_lines (split_newline chunk) st) as [[[|v]|e] st']; try reflexivity.
    apply IH.
Qed.

(** The state a stream leaves is the one its received lines leave,
    whether the reader ends with [done] or with a rejection. *)
Lemma read_all_state reads st :
  snd (read_all reads st) =
  snd (process_lines (stream_lines (received reads)) st).
Proof.
  revert st; induction reads as [|[chunk|] rest IH]; intros st; try reflexivity.
  rewrite read_all_cons_chunk. cbn [received].
  unfold stream_lines. rewrite fmap_cons. cbn [concat].
  rewrite process_lines_app.
  destruct (process_lines (split_newline chunk) st) as [[[|v]|e] st']; try reflexivity.
  apply IH.
Qed.

Lemma handleAgentStream_body query reads st :
  handleAgentStream query (FetchResponse true (Some reads)) st =
  match read_all reads (stream_start query st) with
  | (Normal Continue, st') => (Normal None, st')
  | (Normal (Return v), st') => (Normal v, st')
  | (Thrown e, st') => (Thrown e, stream_caught st')
  end.
Proof.
  unfold handleAgentStream, read_loop, try_catch, bind, update, stream_start.
  cbn [negb].
  destruct (read_all reads _) as [[[|v]|e] st']; reflexivity.
Qed.

Lemma handleAgentStream_failed query resp st :
  match resp with
  | FetchRejected | FetchResponse false _ | FetchResponse true None => True
  | _ => False
  end ->
  exists e,
    handleAgentStream query resp st = (Thrown e, stream_caught (stream_start query st)).
Proof.
  unfold handleAgentStream, try_catch, bind, update, throw, stream_start.
  destruct resp as [|[|] [reads|]]; intros H; try contradiction; eexists; reflexivity.
Qed.

(* --------------------------------------------------------------------- *)
(** *** Lines that are not events *)
(* --------------------------------------------------------------------- *)

Lemma line_kind_not_data line :
  startsWith line (js "data: ") = false -> line_kind line = NotData.
Proof. intros H. unfold line_kind. rewrite H. reflexivity. Qed.

Lemma process_lines_filter lines st :
  process_lines lines st =
  process_lines (List.filter (fun l => startsWith l (js "data: ")) lines) st.
Proof.
  revert st; induction lines as [|line rest IH]; intros st; [reflexivity|].
  cbn [List.filter]. destruct (startsWith line (js "data: ")) eqn:Hp.
  - rewrite !process_lines_cons.
    destruct (line_effect (line_kind line) st) as [[|v] st']; [apply IH | reflexivity].
  - rewrite process_lines_cons, (line_kind_not_data _ Hp). apply IH.
Qed.

(** C6 — The relay reads an SSE-style line protocol.  A chunk is cut at
    every newline (the lines joined by newlines are the chunk, and no line
    holds a newline); processing a chunk is processing its lines that start
    with 'data: ', in order; a line without that prefix is never handed to
    [JSON.parse] and leaves the whole state, the action list and the message
    list included, as it was. *)
Theorem C6_only_data_lines_are_events :
  (forall chunk : jsstring,
      join_newline (split_newline chunk) = chunk /\
      Forall (fun line => 10 ∉ line) (split_newline chunk)) /\
  (forall (chunk : jsstring) (st : State),
      process_chunk chunk st =
      process_lines
        (List.filter (fun l => startsWith l (js "data: ")) (split_newline chunk)) st) /\
  (forall (line : jsstring) (st : State),
      startsWith line (js "data: ") = false ->
      process_line line st = (Normal Continue, st) /\
      agentActions (snd (process_line line st)) = agentActions st /\
      messages (snd (process_line line st)) = messages st).
Proof.
  split; [|split].
  - intros chunk. split; [apply join_split_newline | apply split_newline_no_newline].
  - intros chunk st. unfold process_chunk. apply process_lines_filter.
  - intros line st Hp.
    assert (H : process_line line st = (Normal Continue, st)).
    { apply process_line_skip. rewrite (line_kind_not_data _ Hp). exact I. }
    rewrite H. repeat split.
Qed.

(* --------------------------------------------------------------------- *)
(** *** The order of the action list *)
(* --------------------------------------------------------------------- *)

Lemma line_effect_titles line st :
  title <$> agentActions (snd (line_effect (line_kind line) st)) =
  match line_kind line with
  | StepEvent data =>
      match d_step_name data with
      | Some name => note_title (title <$> agentActions st) name
      | None => title <$> agentActions st
      end
  | _ => title <$> agentActions st
  end.
Proof.
  destruct (line_kind line) as [| |data|v|m|]; try reflexivity.
  - cbn [line_effect]. destruct (d_step_name data) as [name|]; [|reflexivity].
    cbn [snd setAgentActions agentActions advance]. apply upsert_titles.
  - cbn [line_effect snd]. unfold final_state, reported.
    destruct (longer_than_500 v); reflexivity.
Qed.

Lemma process_lines_titles lines st :
  title <$> agentActions (snd (process_lines lines st)) =
  foldl note_title (title <$> agentActions st) (arrived_titles lines).
Proof.
  revert st; induction lines as [|line rest IH]; intros st; [reflexivity|].
  rewrite process_lines_cons. cbn [arrived_titles].
  pose proof (line_effect_titles line st) as Ht.
  destruct (line_kind line) as [| |data|v|m|];
    cbn [line_effect] in *; try (rewrite IH; reflexivity).
  - destruct (d_step_name data) as [name|]; cbn [snd] in Ht;
      rewrite IH; cbn [foldl]; rewrite <- Ht; reflexivity.
  - cbn [snd] in *. exact Ht.
Qed.

Lemma stream_start_actions query st : agentActions (stream_start query st) = [].
Proof. reflexivity. Qed.

(** C7 — The action list keeps arrival order.  A step whose title is not
    in the list is appended at the end; a step whose title is in the list
    replaces the first entry with that title, at its index, and the titles
    of the list stay as they were.  Hence, after any stream, interrupted or
    not, the titles in the list are pairwise different and are the step
    names received before the final event, each once, in the order in which
    they first arrived ([nub]: the first name, then the others without it);
    so is the list [handleAgentStream] leaves when it returns. *)
Theorem C7_actions_in_first_arrival_order :
  (forall (a : AgentAction) (prev : list AgentAction),
      title a ∉ title <$> prev -> upsert a prev = prev ++ [a]) /\
  (forall (a : AgentAction) (prev : list AgentAction),
      title a ∈ title <$> prev ->
      exists (i : nat) (old : AgentAction),
        prev !! i = Some old /\ title old = title a /\
        upsert a prev = <[i := spread old a]> prev /\
        title <$> upsert a prev = title <$> prev /\
        length (upsert a prev) = length prev) /\
  (forall (query : jsstring) (reads : list ReadResult) (st : State),
      let st' := snd (read_all reads (stream_start query st)) in
      NoDup (title <$> agentActions st') /\
      title <$> agentActions st' =
        nub (arrived_titles (stream_lines (received reads)))) /\
  (forall (query : jsstring) (reads : list ReadResult) (st st' : State)
          (v : option jsstring),
      handleAgentStream query (FetchResponse true (Some reads)) st = (Normal v, st') ->
      NoDup (title <$> agentActions st') /\
      title <$> agentActions st' =
        nub (arrived_titles (stream_lines (received reads)))).
Proof.
  assert (Hstream : forall query reads st,
             title <$> agentActions (snd (read_all reads (stream_start query st))) =
             nub (arrived_titles (stream_lines (received reads)))).
  { intros query reads st. rewrite read_all_state, process_lines_titles.
    rewrite stream_start_actions. apply first_occurrences_nub. }
  assert (Hnd : forall names, NoDup (nub names)).
  { intros names. rewrite <- first_occurrences_nub.
    apply foldl_note_title_NoDup, NoDup_nil_2. }
  split; [exact upsert_new|]. split; [|split].
  - intros a prev Hin.
    destruct (upsert_seen a prev Hin) as (i & old & Hi & Hold & _ & Hup).
    exists i, old. repeat split; try assumption.
    + rewrite upsert_titles. unfold note_title. rewrite bool_decide_eq_true_2; [reflexivity | exact Hin].
    + rewrite upsert_length, bool_decide_eq_true_2; [reflexivity | exact Hin].
  - intros query reads st st'. subst st'. split; [|apply Hstream].
    rewrite Hstream. apply Hnd.
  - intros query reads st st' v H. rewrite handleAgentStream_body in H.
    specialize (Hstream query reads st).
    destruct (read_all reads (stream_start query st)) as [[[|w]|e] st1];
      inversion H; subst; cbn [snd] in Hstream;
      (split; [rewrite Hstream; apply Hnd | exact Hstream]).
Qed.

End LineFacts.

(* ===================================================================== *)
(** ** The types of the actions *)
(* ===================================================================== *)

Lemma four_action_types (t1 t2 t3 t4 : ActionType) :
  NoDup [t1; t2; t3; t4] -> complete ∈ [t1; t2; t3; t4].
Proof.
  intros Hnd.
  apply NoDup_cons in Hnd as [H1 Hnd]. apply NoDup_cons in Hnd as [H2 Hnd].
  apply NoDup_cons in Hnd as [H3 _].
  destruct t1, t2, t3, t4; set_solver.
Qed.

Definition s_stage : jsstring := [38454; 27573].        (* '阶段' *)
Definition s_guihua : jsstring := [35268; 21010].       (* '规划' *)

(** C2, as stated, fails: there is no fourth stage-specific type.  The
    stages as the development guide names them ('规划阶段', '搜索阶段',
    '分析阶段', '报告阶段') get [complete], [search], [analyze] and [generate]:
    the plan stage falls to the catch-all.  And whatever the four names
    are, their types cannot be four different ones without the catch-all
    among them. *)
Lemma C2_plan_stage_has_no_type_of_its_own :
  classify <$> [s_guihua ++ s_stage; s_sousuo ++ s_stage;
                s_fenxi ++ s_stage; s_baogao ++ s_stage]
    = [complete; search; analyze; generate] /\
  classify <$> [js "plan"; js "search"; js "analyze"; js "report"]
    = [complete; complete; complete; complete] /\
  ~ (exists plan_name search_name analyze_name report_name : jsstring,
        let types := classify <$> [plan_name; search_name; analyze_name; report_name] in
        NoDup types /\ complete ∉ types).
Proof.
  split; [reflexivity|]. split; [reflexivity|].
  intros (p & s & a & r & Hnd & Hc). apply Hc, four_action_types, Hnd.
Qed.

(** C2, amended — The type of the action of a step event is read off its
    [step_name] by three markers, in this order: a name that contains
    '搜索' gives [search]; otherwise one that contains '分析' gives
    [analyze]; otherwise one that contains '报告' gives [generate]; every
    other name, a plan stage without these markers included, gives the
    catch-all [complete].  The action built for the event has this type,
    and the name as its title. *)
Theorem C2_type_by_marker (name : jsstring) :
  let has (marker : jsstring) :=
    exists before after : jsstring, name = before ++ marker ++ after in
  (classify name = search <-> has s_sousuo) /\
  (classify name = analyze <-> ~ has s_sousuo /\ has s_fenxi) /\
  (classify name = generate <-> ~ has s_sousuo /\ ~ has s_fenxi /\ has s_baogao) /\
  (classify name = complete <-> ~ has s_sousuo /\ ~ has s_fenxi /\ ~ has s_baogao) /\
  (forall (Date_now Math_random : nat -> N) (data : StreamData) (st : State),
      act_type (step_action Date_now Math_random data name st) = classify name /\
      title (step_action Date_now Math_random data name st) = name).
Proof.
  intros has. unfold has, classify.
  rewrite <- !includes_spec.
  split_and!; [..| intros; split; reflexivity];
    destruct (includes name s_sousuo), (includes name s_fenxi), (includes name s_baogao);
    intuition congruence.
Qed.

(* ===================================================================== *)
(** ** What a stream does *)
(* ===================================================================== *)

Section StreamFacts.

Variable JSON_parse : jsstring -> option StreamData.
Variable Date_now : nat -> N.
Variable Math_random : nat -> N.

Local Abbreviation process_line := (process_line JSON_parse Date_now Math_random).
Local Abbreviation process_lines := (process_lines JSON_parse Date_now Math_random).
Local Abbreviation process_chunk := (process_chunk JSON_parse Date_now Math_random).
Local Abbreviation read_all := (read_all JSON_parse Date_now Math_random).
Local Abbreviation read_loop := (read_loop JSON_parse Date_now Math_random).
Local Abbreviation handleAgentStream := (handleAgentStream JSON_parse Date_now Math_random).
Local Abbreviation line_kind := (line_kind JSON_parse).
Local Abbreviation arrived_titles := (arrived_titles JSON_parse).
Local Abbreviation step_action := (step_action Date_now Math_random).
Local Abbreviation final_state := (final_state Date_now).
Local Abbreviation line_effect := (line_effect Date_now Math_random).
Local Abbreviation stream_caught := (stream_caught Date_now).

Lemma line_kind_step line data :
  startsWith line (js "data: ") = true ->
  JSON_parse (trim (slice_from 6 line)) = Some data ->
  d_type data = Some (js "step") ->
  line_kind line = StepEvent data.
Proof.
  intros Hp Hd Ht. unfold line_kind. rewrite Hp, Hd.
  rewrite bool_decide_eq_true_2; [reflexivity | exact Ht].
Qed.

Lemma line_kind_final line data :
  startsWith line (js "data: ") = true ->
  JSON_parse (trim (slice_from 6 line)) = Some data ->
  d_type data = Some (js "final") ->
  line_kind line = FinalEvent (d_response data).
Proof.
  intros Hp Hd Ht. unfold line_kind. rewrite Hp, Hd.
  rewrite bool_decide_eq_false_2; [|rewrite Ht; discriminate].
  rewrite bool_decide_eq_true_2; [reflexivity | exact Ht].
Qed.

Lemma line_kind_error line data :
  startsWith line (js "data: ") = true ->
  JSON_parse (trim (slice_from 6 line)) = Some data ->
  d_type data = Some (js "error") ->
  line_kind line = ErrorEvent (d_message data).
Proof.
  intros Hp Hd Ht. unfold line_kind. rewrite Hp, Hd.
  rewrite bool_decide_eq_false_2; [|rewrite Ht; discriminate].
  rewrite bool_decide_eq_false_2; [|rewrite Ht; discriminate].
  rewrite bool_decide_eq_true_2; [reflexivity | exact Ht].
Qed.

(** Lines that go on leave [Continue]. *)
Lemma process_lines_go_on lines st :
  Forall (fun l => goes_on (line_kind l)) lines ->
  fst (process_lines lines st) = Normal Continue.
Proof.
  revert st; induction lines as [|line rest IH]; intros st Hall; [reflexivity|].
  inversion Hall as [|? ? Hl Hrest]; subst.
  rewrite process_lines_cons.
  destruct (line_kind line) as [| |data|v|m|] eqn:Hk; cbn [line_effect]; try (apply IH, Hrest).
  - destruct (d_step_name data); apply IH, Hrest.
  - contradiction.
Qed.

(** The first final line ends the function with its response. *)
Lemma process_lines_first_final before line after v st :
  Forall (fun l => goes_on (line_kind l)) before ->
  line_kind line = FinalEvent v ->
  process_lines (before ++ line :: after) st =
  (Normal (Return v), final_state v (snd (process_lines before st))).
Proof.
  intros Hb Hk. rewrite process_lines_app.
  pose proof (process_lines_go_on before st Hb) as Hgo.
  destruct (process_lines before st) as [c st1]. simpl in Hgo. subst c.
  rewrite process_lines_cons, Hk. reflexivity.
Qed.

(** A [Return] comes from a final line. *)
Lemma process_lines_return lines st st' v :
  process_lines lines st = (Normal (Return v), st') ->
  exists before line after,
    lines = before ++ line :: after /\
    Forall (fun l => goes_on (line_kind l)) before /\
    line_kind line = FinalEvent v.
Proof.
  revert st; induction lines as [|line rest IH]; intros st H; [discriminate|].
  rewrite process_lines_cons in H.
  destruct (line_kind line) as [| |data|w|m|] eqn:Hk; cbn [line_effect] in H.
  3: destruct (d_step_name data).
  all: try (apply IH in H as (before & l & after & -> & Hb & Hl);
            exists (line :: before), l, after;
            split; [reflexivity | split; [constructor; [rewrite Hk; exact I | exact Hb] | exact Hl]]).
  injection H as <- _. exists [], line, rest. repeat split; [constructor | exact Hk].
Qed.

(** The loop over the reads, by the lines received. *)
Lemma read_all_by_lines reads st :
  read_all reads st =
  match process_lines (stream_lines (received reads)) st with
  | (Normal Continue, st') =>
      (if rejects reads then Thrown NetworkError else Normal Continue, st')
  | other => other
  end.
Proof.
  revert st; induction reads as [|[chunk|] rest IH]; intros st; try reflexivity.
  rewrite read_all_cons_chunk. cbn [received rejects].
  unfold stream_lines. rewrite fmap_cons. cbn [concat].
  rewrite process_lines_app.
  destruct (process_lines (split_newline chunk) st) as [[[|v]|e] st']; try reflexivity.
  apply IH.
Qed.

(** What no line changes. *)
Lemma line_effect_frame k st :
  let st' := snd (line_effect k st) in
  messages st' = messages st /\ inputValue st' = inputValue st /\
  isLoading st' = isLoading st /\ requests st' = requests st /\
  showAgentPanel st' = showAgentPanel st.
Proof.
  destruct k as [| |data|v|m|]; cbn [line_effect snd]; try (repeat split; reflexivity).
  - destruct (d_step_name data); repeat split; reflexivity.
  - unfold final_state, reported. destruct (longer_than_500 v); repeat split; reflexivity.
Qed.

Lemma process_lines_frame lines st :
  let st' := snd (process_lines lines st) in
  messages st' = messages st /\ inputValue st' = inputValue st /\
  isLoading st' = isLoading st /\ requests st' = requests st /\
  showAgentPanel st' = showAgentPanel st.
Proof.
  revert st; induction lines as [|line rest IH]; intros st; [repeat split; reflexivity|].
  cbn zeta. rewrite process_lines_cons.
  pose proof (line_effect_frame (line_kind line) st) as Hf. cbn zeta in Hf.
  destruct (line_effect (line_kind line) st) as [[|v] st1]; cbn [snd] in *.
  - specialize (IH st1). cbn zeta in IH.
    destruct IH as (-> & -> & -> & -> & ->). exact Hf.
  - exact Hf.
Qed.

Lemma read_all_frame reads st :
  let st' := snd (read_all reads st) in
  messages st' = messages st /\ inputValue st' = inputValue st /\
  isLoading st' = isLoading st /\ requests st' = requests st /\
  showAgentPanel st' = showAgentPanel st.
Proof. cbn zeta. rewrite read_all_state. apply process_lines_frame. Qed.

(** What [handleAgentStream] leaves of the cells it does not own: the
    messages, the input and the loading flag stay; one request is sent. *)
Lemma handleAgentStream_frame query resp st :
  let st' := snd (handleAgentStream query resp st) in
  messages st' = messages st /\ inputValue st' = inputValue st /\
  isLoading st' = isLoading st /\
  requests st' = requests st ++ [stream_request query].
Proof.
  cbn zeta. destruct resp as [|[|] [reads|]].
  2: { rewrite handleAgentStream_body.
       pose proof (read_all_frame reads (stream_start query st)) as Hf. cbn zeta in Hf.
       destruct (read_all reads (stream_start query st)) as [[[|v]|e] st1];
         cbn [snd] in *; destruct Hf as (Hm & Hi & Hl & Hr & _);
         repeat split; assumption. }
  all: unfold handleAgentStream, try_catch, bind, update, throw; cbn;
    repeat split; reflexivity.
Qed.

Lemma read_all_app r1 r2 st :
  read_all (r1 ++ r2) st =
  match read_all r1 st with
  | (Normal Continue, st') => read_all r2 st'
  | other => other
  end.
Proof.
  revert st; induction r1 as [|[chunk|] rest IH]; intros st; try reflexivity.
  rewrite <- app_comm_cons, !read_all_cons_chunk.
  destruct (process_lines (split_newline chunk) st) as [[[|v]|e] st']; try reflexivity.
  apply IH.
Qed.

Lemma process_lines_app_go_on before after st :
  Forall (fun l => goes_on (line_kind l)) before ->
  process_lines (before ++ after) st =
  process_lines after (snd (process_lines before st)).
Proof.
  intros Hb. rewrite process_lines_app.
  pose proof (process_lines_go_on before st Hb) as Hgo.
  destruct (process_lines before st) as [c st1]. simpl in Hgo. subst c. reflexivity.
Qed.

(** C1 — Stage progress is surfaced as it arrives.  A line 'data: <json>'
    whose object has type 'step' and a [step_name] lets the loop go on
    and has, when the line is done, put one action in the list, whose
    title is the name, whose description, status and timestamp are the
    event's, whose type is read off the name and whose id is made from
    the clock and the random source.  If no action has that title, the
    action is appended, without a duration; else it takes the place of
    the first action with that title, whose duration it keeps, and the
    other entries stay.  The message list is not touched.  This happens
    before the rest of the stream is looked at: the run over the whole
    stream goes through the state with the updated list and only then
    through the lines and reads that follow.  The value
    [handleAgentStream] returns, which becomes the content of the chat
    message, is the response of an event of type 'final', the first one
    of the stream; [handleAgentStream] never changes the messages. *)
Theorem C1_steps_surface_on_receipt :
  (forall (line : jsstring) (data : StreamData) (name : jsstring) (st : State),
      startsWith line (js "data: ") = true ->
      JSON_parse (trim (slice_from 6 line)) = Some data ->
      d_type data = Some (js "step") ->
      d_step_name data = Some name ->
      let st' := snd (process_line line st) in
      fst (process_line line st) = Normal Continue /\
      messages st' = messages st /\
      agentActions st' = upsert (step_action data name st) (agentActions st) /\
      exists a : AgentAction,
        act_id a = action_id (Date_now (tick st)) (Math_random (S (tick st))) /\
        title a = name /\
        act_type a = (if includes name s_sousuo then search
                      else if includes name s_fenxi then analyze
                      else if includes name s_baogao then generate
                      else complete) /\
        description a = d_description data /\
        status a = (if bool_decide (d_status data = Some (js "running")) then running
                    else if bool_decide (d_status data = Some (js "completed"))
                         then completed
                    else pending) /\
        act_timestamp a = DateOf (d_timestamp data) /\
        ((name ∉ title <$> agentActions st /\ duration a = None /\
          agentActions st' = agentActions st ++ [a]) \/
         (exists (i : nat) (old : AgentAction),
             agentActions st !! i = Some old /\ title old = name /\
             (forall (j : nat) (b : AgentAction),
                 agentActions st !! j = Some b -> (j < i)%nat -> title b <> name) /\
             duration a = duration old /\
             agentActions st' = <[i := a]> (agentActions st)))) /\
  (forall (chunks_before : list jsstring) (chunk : jsstring)
          (reads_after : list ReadResult)
          (lines_before : list jsstring) (line : jsstring)
          (lines_after : list jsstring)
          (data : StreamData) (name : jsstring) (st : State),
      split_newline chunk = lines_before ++ line :: lines_after ->
      Forall (fun l => goes_on (line_kind l))
             (stream_lines chunks_before ++ lines_before) ->
      line_kind line = StepEvent data ->
      d_step_name data = Some name ->
      let st1 := snd (process_lines (stream_lines chunks_before ++ lines_before) st) in
      let st2 := snd (process_line line st1) in
      agentActions st2 = upsert (step_action data name st1) (agentActions st1) /\
      read_all ((RChunk <$> chunks_before) ++ RChunk chunk :: reads_after) st =
        match process_lines lines_after st2 with
        | (Normal Continue, st3) => read_all reads_after st3
        | other => other
        end) /\
  (forall (query : jsstring) (resp : FetchResult) (st st' : State) (v : jsstring),
      handleAgentStream query resp st = (Normal (Some v), st') ->
      exists (reads : list ReadResult) (before : list jsstring) (line : jsstring)
             (after : list jsstring),
        resp = FetchResponse true (Some reads) /\
        stream_lines (received reads) = before ++ line :: after /\
        Forall (fun l => goes_on (line_kind l)) before /\
        line_kind line = FinalEvent (Some v)) /\
  (forall (query : jsstring) (resp : FetchResult) (st : State),
      messages (snd (handleAgentStream query resp st)) = messages st).
Proof.
  split; [|split; [|split]].
  - intros line data name st Hp Hd Ht Hname st'.
    pose proof (line_kind_step line data Hp Hd Ht) as Hk.
    subst st'. rewrite (process_line_step _ _ _ _ _ _ _ Hk Hname). cbn [fst snd].
    set (a := step_action data name st).
    assert (Hup : agentActions
                    (setAgentActions (upsert a) (advance (advance st)))
                  = upsert a (agentActions st)) by reflexivity.
    rewrite Hup. split; [reflexivity|]. split; [reflexivity|]. split; [reflexivity|].
    destruct (decide (title a ∈ title <$> agentActions st)) as [Hin|Hnew].
    + destruct (upsert_seen a _ Hin) as (i & old & Hi & Hold & Hfirst & Hu).
      exists (spread old a).
      do 6 (split; [reflexivity|]).
      right. exists i, old.
      split; [exact Hi|]. split; [exact Hold|]. split; [exact Hfirst|].
      split; [reflexivity | exact Hu].
    + exists a. do 6 (split; [reflexivity|]).
      left. split; [exact Hnew|]. split; [reflexivity|]. apply upsert_new, Hnew.
  - intros chunks_before chunk reads_after lines_before line lines_after data name st
           Hsplit Hgo Hk Hname st1 st2.
    assert (Hst2 : st2 = setAgentActions (upsert (step_action data name st1))
                           (advance (advance st1))).
    { subst st2. rewrite (process_line_step _ _ _ _ _ _ _ Hk Hname). reflexivity. }
    split; [rewrite Hst2; reflexivity|].
    apply Forall_app in Hgo as [Hgo1 Hgo2].
    rewrite read_all_app, read_all_chunks.
    assert (Hst1 : st1 = snd (process_lines lines_before
                                (snd (process_lines (stream_lines chunks_before) st)))).
    { subst st1. rewrite (process_lines_app_go_on _ _ _ Hgo1). reflexivity. }
    pose proof (process_lines_go_on _ st Hgo1) as Hc1.
    destruct (process_lines (stream_lines chunks_before) st) as [c1 sa].
    cbn [fst snd] in *. subst c1.
    rewrite read_all_cons_chunk, Hsplit, (process_lines_app_go_on _ _ _ Hgo2).
    rewrite <- Hst1, process_lines_cons, Hk. cbn [line_effect]. rewrite Hname.
    rewrite <- Hst2. reflexivity.
  - intros query resp st st' v H.
    destruct resp as [|[|] [reads|]].
    2: { rewrite handleAgentStream_body, read_all_by_lines in H.
         destruct (process_lines _ _) as [[[|w]|e] st1] eqn:Hl.
         - destruct (rejects reads); discriminate.
         - injection H as -> ->.
           apply process_lines_return in Hl as (before & line & after & Heq & Hb & Hk).
           exists reads, before, line, after. repeat split; assumption.
         - discriminate. }
    all: exfalso; revert H;
      unfold handleAgentStream, try_catch, bind, update, throw; cbn; discriminate.
  - intros query resp st. apply handleAgentStream_frame.
Qed.

End StreamFacts.

(* ===================================================================== *)
(** ** What a send does *)
(* ===================================================================== *)

Section SendFacts.

Variable JSON_parse : jsstring -> option StreamData.
Variable Date_now : nat -> N.
Variable Math_random : nat -> N.

Local Abbreviation handleAgentStream := (handleAgentStream JSON_parse Date_now Math_random).
Local Abbreviation send_prologue := (send_prologue Date_now).
Local Abbreviation send_body := (send_body JSON_parse Date_now Math_random).
Local Abbreviation handleSendMessage := (handleSendMessage JSON_parse Date_now Math_random).
Local Abbreviation post_bot_message := (post_bot_message Date_now).
Local Abbreviation show_report := (show_report Date_now).
Local Abbreviation line_kind := (line_kind JSON_parse).
Local Abbreviation reported := (reported Date_now).
Local Abbreviation posted := (posted Date_now).
Local Abbreviation bot_message := (bot_message Date_now).
Local Abbreviation prologue_state := (prologue_state Date_now).
Local Abbreviation user_message := (user_message Date_now).
Local Abbreviation loading_message := (loading_message Date_now).
Local Abbreviation stream_caught := (stream_caught Date_now).
Local Abbreviation send_outcome := (send_outcome Date_now).

Lemma send_prologue_eq st :
  send_prologue st = (Normal (inputValue st), prologue_state st).
Proof.
  reflexivity.
Qed.

Lemma post_bot_message_eq text st :
  post_bot_message text st = (Normal tt, posted text st).
Proof. reflexivity. Qed.

Lemma show_report_eq v st : show_report v st = (Normal tt, reported v st).
Proof.
  unfold show_report, reported, bind, update, newDate, ret.
  destruct (longer_than_500 v); reflexivity.
Qed.

Lemma send_body_eq currentQuery resp fallback st :
  send_body currentQuery resp fallback st =
  (Normal tt, send_outcome currentQuery fallback (handleAgentStream currentQuery resp st)).
Proof.
  unfold send_body, send_outcome, try_finally, try_catch, bind.
  destruct (handleAgentStream currentQuery resp st) as [[v|e] st1].
  - destruct (truthy_opt v).
    + reflexivity.
    + unfold update, throw. destruct fallback as [|response].
      * reflexivity.
      * rewrite post_bot_message_eq, show_report_eq. reflexivity.
  - reflexivity.
Qed.

Lemma handleSendMessage_eq resp fallback st :
  send_guard st = false ->
  handleSendMessage resp fallback st =
  (Normal tt,
   send_outcome (inputValue st) fallback
     (handleAgentStream (inputValue st) resp (prologue_state st))).
Proof.
  intros Hg. unfold handleSendMessage. rewrite Hg.
  unfold bind. rewrite send_prologue_eq. apply send_body_eq.
Qed.

Lemma handleSendMessage_guarded resp fallback st :
  send_guard st = true -> handleSendMessage resp fallback st = (Normal tt, st).
Proof. intros Hg. unfold handleSendMessage. rewrite Hg. reflexivity. Qed.

Lemma replace_loading_spec (m : Message) (prev : list Message) :
  is_loading m = false ->
  Forall (fun msg => is_loading msg = false) (replace_loading m prev).
Proof.
  intros Hm. unfold replace_loading. apply Forall_app. split.
  - apply Forall_forall. intros x Hx. apply list_elem_of_In, filter_In in Hx as [_ Hx].
    apply negb_true_iff in Hx. exact Hx.
  - constructor; [exact Hm | constructor].
Qed.

Lemma reported_messages v st : messages (reported v st) = messages st.
Proof. unfold reported. destruct (longer_than_500 v); reflexivity. Qed.

Lemma send_outcome_messages currentQuery fallback stream :
  exists text st1,
    messages (send_outcome currentQuery fallback stream) =
    replace_loading (bot_message text st1) (messages (snd stream)).
Proof.
  unfold send_outcome. destruct stream as [[v|e] st1]; cbn [snd].
  - destruct (truthy_opt v).
    + eexists _, _. reflexivity.
    + destruct fallback as [|response].
      * eexists _, _. reflexivity.
      * eexists _, _. cbn [setIsLoading messages]. rewrite reported_messages. reflexivity.
  - eexists _, _. reflexivity.
Qed.

Lemma posted_messages text st :
  messages (setIsLoading false (posted text st)) =
  replace_loading (bot_message text st) (messages st).
Proof. reflexivity. Qed.

Lemma posted_after_request text r st :
  requests (setIsLoading false (posted text (send_request r st))) = requests st ++ [r].
Proof. reflexivity. Qed.

Lemma legacy_send_prologue_eq st :
  Legacy.send_prologue Date_now st =
  (Normal (inputValue st), snd (Legacy.send_prologue Date_now st)).
Proof. reflexivity. Qed.

Lemma legacy_send_prologue_requests st :
  requests (snd (Legacy.send_prologue Date_now st)) = requests st.
Proof. reflexivity. Qed.

Lemma legacy_send_body_eq currentQuery answer st :
  Legacy.send_body Date_now currentQuery answer st =
  (Normal tt,
   setIsLoading false
     (posted match answer with
             | AxiosRejected => s_unavailable
             | AxiosOk response => or_else response s_cannot_process
             end
        (send_request (Legacy.chat_request currentQuery) st))).
Proof. destruct answer; reflexivity. Qed.

(** C9 — No loading placeholder survives a completed send.  An invocation
    of [handleSendMessage] that passes the guard ends normally, however the
    stream and the fallback went (an answer, a rejection, a failed status,
    no body, an error inside the stream); the message list it leaves has no
    message with [isLoading] set, and the [isLoading] flag is false.  The
    same holds for the part of the handler that runs after the first
    [await], from any state, and for the earlier revision of the page. *)
Theorem C9_no_loading_message_after_a_send :
  (forall (resp : FetchResult) (fallback : AxiosResult) (st : State),
      send_guard st = false ->
      let result := handleSendMessage resp fallback st in
      fst result = Normal tt /\
      Forall (fun m => is_loading m = false) (messages (snd result)) /\
      isLoading (snd result) = false) /\
  (forall (currentQuery : jsstring) (resp : FetchResult) (fallback : AxiosResult)
          (st : State),
      let result := send_body currentQuery resp fallback st in
      fst result = Normal tt /\
      Forall (fun m => is_loading m = false) (messages (snd result)) /\
      isLoading (snd result) = false) /\
  (forall (answer : AxiosResult) (st : State),
      send_guard st = false ->
      let result := Legacy.handleSendMessage Date_now answer st in
      fst result = Normal tt /\
      Forall (fun m => is_loading m = false) (messages (snd result)) /\
      isLoading (snd result) = false).
Proof.
  assert (Hbody : forall q resp fallback st,
             let result := send_body q resp fallback st in
             fst result = Normal tt /\
             Forall (fun m => is_loading m = false) (messages (snd result)) /\
             isLoading (snd result) = false).
  { intros q resp fallback st. cbn zeta. rewrite send_body_eq. cbn [fst snd].
    split; [reflexivity|]. split; [|reflexivity].
    destruct (send_outcome_messages q fallback (handleAgentStream q resp st))
      as (text & st1 & ->).
    apply replace_loading_spec. reflexivity. }
  split; [|split].
  - intros resp fallback st Hg. cbn zeta.
    unfold handleSendMessage. rewrite Hg. unfold bind. rewrite send_prologue_eq.
    apply Hbody.
  - exact Hbody.
  - intros answer st Hg. cbn zeta.
    unfold Legacy.handleSendMessage. rewrite Hg. unfold bind.
    rewrite legacy_send_prologue_eq, legacy_send_body_eq. cbn [fst snd].
    split; [reflexivity|]. split; [|reflexivity].
    rewrite posted_messages. apply replace_loading_spec. reflexivity.
Qed.

Lemma replace_loading_prologue (m : Message) (prev : list Message) (st : State) :
  replace_loading m ((prev ++ [user_message st]) ++ [loading_message st]) =
  List.filter (fun msg => negb (is_loading msg)) prev ++ [user_message st; m].
Proof.
  unfold replace_loading. rewrite !List.filter_app. cbn. rewrite <- !app_assoc.
  reflexivity.
Qed.

Lemma stream_returns reads before line after v query st :
  stream_lines (received reads) = before ++ line :: after ->
  Forall (fun l => goes_on (line_kind l)) before ->
  line_kind line = FinalEvent v ->
  exists st1,
    handleAgentStream query (FetchResponse true (Some reads)) st = (Normal v, st1) /\
    messages st1 = messages st /\
    requests st1 = requests st ++ [stream_request query].
Proof.
  intros Hsplit Hb Hk.
  pose proof (handleAgentStream_frame JSON_parse Date_now Math_random query
                (FetchResponse true (Some reads)) st) as Hf. cbn zeta in Hf.
  rewrite handleAgentStream_body, read_all_by_lines, Hsplit in *.
  rewrite (process_lines_first_final JSON_parse Date_now Math_random
             before line after v _ Hb Hk) in *.
  eexists. split; [reflexivity|]. cbn [snd] in Hf.
  destruct Hf as (Hm & _ & _ & Hr). split; assumption.
Qed.

(** C5 — The relay forwards the result as it is.  When the first event of
    type 'final' of the stream carries a non-empty [response], that string
    is what [handleAgentStream] returns, and [handleSendMessage] ends with
    the message list made of the earlier messages without the loading
    ones, the user's message, and one bot message whose content is that
    response, unchanged; no other request than the stream request is
    sent. *)
Theorem C5_final_response_is_the_message
    (reads : list ReadResult) (fallback : AxiosResult)
    (before : list jsstring) (line : jsstring) (after : list jsstring)
    (data : StreamData) (r : jsstring) (st : State) :
  send_guard st = false ->
  stream_lines (received reads) = before ++ line :: after ->
  Forall (fun l => goes_on (line_kind l)) before ->
  startsWith line (js "data: ") = true ->
  JSON_parse (trim (slice_from 6 line)) = Some data ->
  d_type data = Some (js "final") ->
  d_response data = Some r ->
  r <> [] ->
  let resp := FetchResponse true (Some reads) in
  let st' := snd (handleSendMessage resp fallback st) in
  fst (handleAgentStream (inputValue st) resp (prologue_state st)) = Normal (Some r) /\
  (exists m : Message,
      messages st' =
        List.filter (fun msg => negb (is_loading msg)) (messages st)
          ++ [user_message st; m] /\
      content m = r /\ msg_type m = bot /\ msg_isLoading m = None) /\
  requests st' = requests st ++ [stream_request (inputValue st)].
Proof.
  intros Hg Hsplit Hb Hp Hd Ht Hr Hne resp st'.
  pose proof (line_kind_final JSON_parse line data Hp Hd Ht) as Hk. rewrite Hr in Hk.
  destruct (stream_returns reads before line after (Some r) (inputValue st)
              (prologue_state st) Hsplit Hb Hk) as (st1 & Hs & Hm & Hq).
  subst st' resp. rewrite (handleSendMessage_eq _ _ _ Hg), Hs. cbn [fst snd].
  split; [reflexivity|].
  unfold send_outcome. assert (Htr : truthy_opt (Some r) = true) by (destruct r; [congruence | reflexivity]).
  rewrite Htr. change (default [] (Some r)) with r. split.
  - exists (bot_message r st1). split; [|repeat split].
    rewrite posted_messages, Hm. apply replace_loading_prologue.
  - exact Hq.
Qed.

(* --------------------------------------------------------------------- *)
(** *** The report panel *)
(* --------------------------------------------------------------------- *)

Lemma longer_than_500_spec (v : option jsstring) :
  longer_than_500 v = true <->
  exists r, v = Some r /\ r <> [] /\ (500 < length r)%nat.
Proof.
  unfold longer_than_500. destruct v as [r|].
  - rewrite andb_true_iff, N.ltb_lt. split.
    + intros [Ht Hl]. exists r. repeat split; [destruct r; [discriminate | discriminate] | lia].
    + intros (r' & Hr & Hne & Hl). injection Hr as <-.
      split; [destruct r; [congruence | reflexivity] | lia].
  - split; [discriminate | intros (r & Hr & _); discriminate].
Qed.

Lemma longer_than_500_truthy (v : option jsstring) :
  longer_than_500 v = true -> truthy_opt v = true.
Proof.
  unfold longer_than_500, truthy_opt. destruct v; [|discriminate].
  intros H. apply andb_true_iff in H as [H _]. exact H.
Qed.

Lemma reported_cells v st :
  report_cells (reported v st) = offered v (report_cells st).
Proof. unfold reported, offered. destruct (longer_than_500 v); reflexivity. Qed.

Lemma line_effect_report k st :
  report_cells (snd (line_effect Date_now Math_random k st)) =
  match fst (line_effect Date_now Math_random k st) with
  | Return v => offered v (report_cells st)
  | Continue => report_cells st
  end.
Proof.
  destruct k as [| |data|v|m|]; try reflexivity.
  - cbn [line_effect]. destruct (d_step_name data); reflexivity.
  - cbn [line_effect fst snd]. unfold final_state.
    rewrite <- reported_cells. reflexivity.
Qed.

Lemma process_lines_report lines st :
  report_cells (snd (process_lines JSON_parse Date_now Math_random lines st)) =
  match fst (process_lines JSON_parse Date_now Math_random lines st) with
  | Normal (Return v) => offered v (report_cells st)
  | _ => report_cells st
  end.
Proof.
  revert st; induction lines as [|line rest IH]; intros st; [reflexivity|].
  rewrite process_lines_cons.
  pose proof (line_effect_report (line_kind line) st) as Hl.
  destruct (line_effect Date_now Math_random (line_kind line) st) as [[|v] st1];
    cbn [fst snd] in *.
  - rewrite IH, Hl. reflexivity.
  - exact Hl.
Qed.

Lemma handleAgentStream_report query resp st :
  report_cells (snd (handleAgentStream query resp st)) =
  match fst (handleAgentStream query resp st) with
  | Normal v => offered v (report_cells st)
  | Thrown _ => report_cells st
  end.
Proof.
  destruct resp as [|[|] [reads|]].
  2: { rewrite handleAgentStream_body, read_all_by_lines.
       pose proof (process_lines_report (stream_lines (received reads))
                     (stream_start query st)) as Hl.
       destruct (process_lines _ _ _ _ _) as [[[|v]|e] st1]; cbn [fst snd] in *.
       - destruct (rejects reads); exact Hl.
       - exact Hl.
       - exact Hl. }
  all: reflexivity.
Qed.

Lemma send_outcome_report query fallback stream :
  report_cells (send_outcome query fallback stream) =
  match fst stream with
  | Normal v =>
      if truthy_opt v then report_cells (snd stream)
      else match fallback with
           | AxiosOk response => offered response (report_cells (snd stream))
           | AxiosRejected => report_cells (snd stream)
           end
  | Thrown _ => report_cells (snd stream)
  end.
Proof.
  destruct stream as [[v|e] st1]; cbn [fst snd]; unfold send_outcome; [|reflexivity].
  destruct (truthy_opt v); [reflexivity|].
  destruct fallback as [|response]; [reflexivity|].
  change (report_cells (setIsLoading false ?s)) with (report_cells s).
  rewrite reported_cells. reflexivity.
Qed.


(* --------------------------------------------------------------------- *)
(** *** The requests of a send *)
(* --------------------------------------------------------------------- *)

Lemma reported_requests v st : requests (reported v st) = requests st.
Proof. unfold reported. destruct (longer_than_500 v); reflexivity. Qed.

Lemma send_outcome_requests query fallback stream :
  requests (send_outcome query fallback stream) =
  requests (snd stream) ++ fallback_requests query (fst stream).
Proof.
  destruct stream as [[v|e] st1]; cbn [fst snd]; unfold send_outcome, fallback_requests.
  - destruct (truthy_opt v); [symmetry; apply app_nil_r|].
    destruct fallback as [|response]; [reflexivity|].
    change (requests (setIsLoading false ?s)) with (requests s).
    rewrite reported_requests. reflexivity.
  - symmetry. apply app_nil_r.
Qed.

Lemma line_effect_ctl k st1 st2 :
  fst (line_effect Date_now Math_random k st1) =
  fst (line_effect Date_now Math_random k st2).
Proof.
  destruct k as [| |data|v|m|]; try reflexivity.
  cbn [line_effect]. destruct (d_step_name data); reflexivity.
Qed.

Lemma process_lines_ctl lines st1 st2 :
  fst (process_lines JSON_parse Date_now Math_random lines st1) =
  fst (process_lines JSON_parse Date_now Math_random lines st2).
Proof.
  revert st1 st2; induction lines as [|line rest IH]; intros st1 st2; [reflexivity|].
  rewrite !process_lines_cons.
  pose proof (line_effect_ctl (line_kind line) st1 st2) as Hc.
  destruct (line_effect Date_now Math_random (line_kind line) st1) as [c1 s1].
  destruct (line_effect Date_now Math_random (line_kind line) st2) as [c2 s2].
  cbn [fst] in Hc. subst c2. destruct c1; [apply IH | reflexivity].
Qed.

(** What [handleAgentStream] returns or throws does not depend on the
    state it starts in. *)
Lemma handleAgentStream_value query resp st1 st2 :
  fst (handleAgentStream query resp st1) = fst (handleAgentStream query resp st2).
Proof.
  destruct resp as [|[|] [reads|]].
  2: { rewrite !handleAgentStream_body, !read_all_by_lines.
       pose proof (process_lines_ctl (stream_lines (received reads))
                     (stream_start query st1) (stream_start query st2)) as Hc.
       destruct (process_lines _ _ _ _ (stream_start query st1)) as [c1 s1].
       destruct (process_lines _ _ _ _ (stream_start query st2)) as [c2 s2].
       cbn [fst] in Hc. subst c2.
       destruct c1 as [[|v]|e]; [destruct (rejects reads)| |]; reflexivity. }
  all: reflexivity.
Qed.

Lemma handleSendMessage_requests resp fallback st :
  requests (snd (handleSendMessage resp fallback st)) =
  requests st ++
    (if send_guard st then []
     else stream_request (inputValue st)
            :: fallback_requests (inputValue st)
                 (fst (handleAgentStream (inputValue st) resp (prologue_state st)))).
Proof.
  destruct (send_guard st) eqn:Hg.
  - rewrite (handleSendMessage_guarded _ _ _ Hg). symmetry. apply app_nil_r.
  - rewrite (handleSendMessage_eq _ _ _ Hg). cbn [snd].
    rewrite send_outcome_requests.
    pose proof (handleAgentStream_frame JSON_parse Date_now Math_random
                  (inputValue st) resp (prologue_state st)) as (_ & _ & _ & Hr).
    rewrite Hr. cbn [prologue_state requests]. rewrite <- app_assoc. reflexivity.
Qed.

(** C3 — The only conversation state is the constant id.  The requests
    one call of [handleSendMessage] adds to those sent so far are: none
    when the guard stops it; else the stream request, followed by the
    fallback request when the stream returned nothing truthy.  Each of
    them goes to [/api/chat/stream] or [/api/chat] and carries
    [conversation_id] 'default' and the input value as [message].  What
    the stream handler returns does not depend on the state, so the
    requests of a call are the same from any two states with the same
    input value and loading flag: nothing of the earlier conversation is
    sent.  The earlier revision of the page sends one request, to
    [/api/chat], with the same id. *)
Theorem C3_requests_carry_the_default_id :
  (forall (resp : FetchResult) (fallback : AxiosResult) (st : State),
      exists new : list Request,
        requests (snd (handleSendMessage resp fallback st)) = requests st ++ new /\
        new = (if send_guard st then []
               else stream_request (inputValue st)
                      :: fallback_requests (inputValue st)
                           (fst (handleAgentStream (inputValue st) resp
                                   (prologue_state st)))) /\
        Forall (fun r => http_method r = js "POST" /\
                         conversation_id r = js "default" /\
                         body_message r = inputValue st /\
                         (url r = url_stream \/ url r = url_chat)) new) /\
  (forall (query : jsstring) (resp : FetchResult) (st1 st2 : State),
      fst (handleAgentStream query resp st1) = fst (handleAgentStream query resp st2)) /\
  (forall (resp : FetchResult) (fallback : AxiosResult) (st1 st2 : State),
      inputValue st1 = inputValue st2 ->
      isLoading st1 = isLoading st2 ->
      drop (length (requests st1)) (requests (snd (handleSendMessage resp fallback st1))) =
      drop (length (requests st2)) (requests (snd (handleSendMessage resp fallback st2)))) /\
  (forall (answer : AxiosResult) (st : State),
      requests (snd (Legacy.handleSendMessage Date_now answer st)) =
        requests st ++
          (if send_guard st then [] else [Legacy.chat_request (inputValue st)]) /\
      Legacy.chat_request (inputValue st) =
        mkRequest (js "POST") url_chat_relative (inputValue st) (js "default")).
Proof.
  split; [|split; [|split]].
  - intros resp fallback st. eexists. split; [apply handleSendMessage_requests|].
    split; [reflexivity|].
    destruct (send_guard st); [constructor|].
    constructor; [repeat split; left; reflexivity|].
    unfold fallback_requests.
    destruct (fst (handleAgentStream (inputValue st) resp (prologue_state st))) as [v|e];
      [destruct (truthy_opt v)|];
      repeat first [apply List.Forall_nil | apply List.Forall_cons].
    repeat split; right; reflexivity.
  - exact handleAgentStream_value.
  - intros resp fallback st1 st2 Hi Hl.
    rewrite !handleSendMessage_requests, !drop_app_length.
    unfold send_guard. rewrite Hi, Hl.
    rewrite (handleAgentStream_value _ _ (prologue_state st1) (prologue_state st2)).
    reflexivity.
  - intros answer st. split; [|reflexivity].
    unfold Legacy.handleSendMessage. destruct (send_guard st).
    + symmetry. apply app_nil_r.
    + unfold bind. rewrite legacy_send_prologue_eq, legacy_send_body_eq.
      cbn [snd]. rewrite posted_after_request, legacy_send_prologue_requests.
      reflexivity.
Qed.

(* --------------------------------------------------------------------- *)
(** *** Failures *)
(* --------------------------------------------------------------------- *)

Lemma process_lines_error_or_blank lines st :
  Forall (fun l => error_or_blank (line_kind l)) lines ->
  process_lines JSON_parse Date_now Math_random lines st = (Normal Continue, st).
Proof.
  revert st; induction lines as [|line rest IH]; intros st Hall; [reflexivity|].
  inversion Hall as [|? ? Hl Hrest]; subst.
  rewrite process_lines_cons.
  destruct (line_kind line); try contradiction; cbn [line_effect]; apply IH, Hrest.
Qed.

(** A failure of the transport is caught and reported: when [fetch]
    rejects, the status is not ok or there is no body, [handleAgentStream]
    throws with the one error action in the list, and [handleSendMessage]
    replaces the loading message by the service-unavailable text, having
    sent the stream request only. *)
Lemma transport_failure_is_reported resp fallback st :
  send_guard st = false ->
  match resp with
  | FetchRejected | FetchResponse false _ | FetchResponse true None => True
  | _ => False
  end ->
  let stream := handleAgentStream (inputValue st) resp (prologue_state st) in
  let st' := snd (handleSendMessage resp fallback st) in
  (exists e, fst stream = Thrown e) /\
  (exists a, agentActions (snd stream) = [a] /\ status a = error) /\
  (exists m, messages st' =
             List.filter (fun msg => negb (is_loading msg)) (messages st)
               ++ [user_message st; m] /\
             content m = s_unavailable /\ msg_type m = bot /\ msg_isLoading m = None) /\
  requests st' = requests st ++ [stream_request (inputValue st)].
Proof.
  intros Hg Hfail stream st'.
  destruct (handleAgentStream_failed JSON_parse Date_now Math_random
              (inputValue st) resp (prologue_state st) Hfail) as [e He].
  subst stream st'. rewrite (handleSendMessage_eq _ _ _ Hg), He. cbn [fst snd].
  split; [exists e; reflexivity|]. split; [eexists; split; reflexivity|]. split.
  - exists (bot_message s_unavailable
              (stream_caught (stream_start (inputValue st) (prologue_state st)))).
    split; [|repeat split].
    unfold send_outcome. rewrite posted_messages.
    change (messages (stream_caught (stream_start (inputValue st) (prologue_state st))))
      with ((messages st ++ [user_message st]) ++ [loading_message st]).
    apply replace_loading_prologue.
  - reflexivity.
Qed.

(** C4 — What the code does with an event of type 'error'.  The [throw]
    of that branch sits inside the inner [try], whose [catch] only logs:
    the line leaves the state as it was and the loop goes on.  So a stream
    that carries nothing but error events and ends is no failure for
    [handleAgentStream]: it returns [undefined] with an empty action list,
    no action of status 'error' is added, and [handleSendMessage] sends a
    second request, the fallback POST, for the same message. *)
Theorem C4_error_event_is_swallowed :
  (forall (line : jsstring) (data : StreamData) (st : State),
      startsWith line (js "data: ") = true ->
      JSON_parse (trim (slice_from 6 line)) = Some data ->
      d_type data = Some (js "error") ->
      process_line JSON_parse Date_now Math_random line st = (Normal Continue, st)) /\
  (forall (reads : list ReadResult) (fallback : AxiosResult) (st : State),
      send_guard st = false ->
      rejects reads = false ->
      Forall (fun l => error_or_blank (line_kind l)) (stream_lines (received reads)) ->
      let resp := FetchResponse true (Some reads) in
      let stream := handleAgentStream (inputValue st) resp (prologue_state st) in
      fst stream = Normal None /\
      agentActions (snd stream) = [] /\
      requests (snd (handleSendMessage resp fallback st)) =
        requests st ++ [stream_request (inputValue st); chat_request (inputValue st)]).
Proof.
  split.
  - intros line data st Hp Hd Ht. apply process_line_skip.
    rewrite (line_kind_error JSON_parse line data Hp Hd Ht). exact I.
  - intros reads fallback st Hg Hrej Hall resp stream.
    assert (Hs : stream = (Normal None, stream_start (inputValue st) (prologue_state st))).
    { subst stream resp. rewrite handleAgentStream_body, read_all_by_lines.
      rewrite (process_lines_error_or_blank _ _ Hall), Hrej. reflexivity. }
    split; [rewrite Hs; reflexivity|]. split; [rewrite Hs; reflexivity|].
    rewrite handleSendMessage_requests, Hg.
    fold resp. fold stream. rewrite Hs. reflexivity.
Qed.

End SendFacts.

(* ===================================================================== *)
(** ** The guard of the send handler *)
(* ===================================================================== *)

Section GuardFacts.

Variable JSON_parse : jsstring -> option StreamData.
Variable Date_now : nat -> N.
Variable Math_random : nat -> N.

Local Abbreviation handleSendMessage := (handleSendMessage JSON_parse Date_now Math_random).
Local Abbreviation app_step := (app_step JSON_parse Date_now Math_random).
Local Abbreviation app_run := (app_run JSON_parse Date_now Math_random).

Lemma send_guard_true_iff st :
  send_guard st = true <->
  Forall (fun c => is_white_space c = true) (inputValue st) \/ isLoading st = true.
Proof.
  unfold send_guard. rewrite orb_true_iff, negb_true_iff, <- trim_nil_iff.
  destruct (trim (inputValue st)); cbn [truthy]; intuition congruence.
Qed.

Lemma app_step_one_in_flight a e : one_in_flight a -> one_in_flight (app_step a e).
Proof.
  intros Hinv. destruct e as [text| |resp fallback|shown|shown]; cbn [app_step].
  - destruct Hinv as [H|[H1 H2]]; [left; exact H | right; split; assumption].
  - destruct (send_guard (page a)) eqn:Hg; [exact Hinv|].
    rewrite send_prologue_eq.
    assert (Hl : isLoading (page a) = false).
    { unfold send_guard in Hg. apply orb_false_iff in Hg as [_ Hg]. exact Hg. }
    destruct Hinv as [H|[_ H2]]; [|congruence].
    right. cbn [in_flight page]. rewrite H. split; [eexists; reflexivity | reflexivity].
  - destruct (in_flight a) as [|q rest] eqn:Hf; [left; exact Hf|].
    destruct Hinv as [H|[[q' H1] _]]; [congruence|].
    rewrite Hf in H1. injection H1 as _ ->. left. reflexivity.
  - destruct Hinv as [H|[H1 H2]]; [left; exact H | right; split; assumption].
  - destruct Hinv as [H|[H1 H2]]; [left; exact H | right; split; assumption].
Qed.

Lemma app_run_one_in_flight events a : one_in_flight a -> one_in_flight (app_run a events).
Proof.
  revert a; induction events as [|e rest IH]; intros a Hinv; [exact Hinv|].
  apply IH, app_step_one_in_flight, Hinv.
Qed.

(** C8 — [handleSendMessage] is a guarded no-op.  When the input value is
    empty or white space only, or [isLoading] is true, the call returns
    with the state as it was: the messages, the input value and the action
    list are untouched and no request is sent; so does the earlier
    revision of the page.  In any run of the page from its first render,
    under any sequence of typing, presses of the send button, settling of
    the awaited calls and panel toggles, at most one invocation is past the
    guard at a time and [isLoading] is true while it is; a press of the
    button in that situation starts nothing.  A press followed by the
    settling of the calls is one call of [handleSendMessage]. *)
Theorem C8_send_is_a_guarded_no_op :
  (forall (resp : FetchResult) (fallback : AxiosResult) (st : State),
      Forall (fun c => is_white_space c = true) (inputValue st) \/ isLoading st = true ->
      handleSendMessage resp fallback st = (Normal tt, st) /\
      Legacy.handleSendMessage Date_now fallback st = (Normal tt, st)) /\
  (forall (t0 : N) (events : list Event),
      let a := app_run (initial_app t0) events in
      (length (in_flight a) <= 1)%nat /\
      (in_flight a <> [] -> isLoading (page a) = true) /\
      (in_flight a <> [] -> app_step a SendPressed = a)) /\
  (forall (a : App) (resp : FetchResult) (fallback : AxiosResult),
      in_flight a = [] ->
      page (app_step (app_step a SendPressed) (Settled resp fallback)) =
      snd (handleSendMessage resp fallback (page a))).
Proof.
  split; [|split].
  - intros resp fallback st Hc. apply send_guard_true_iff in Hc.
    unfold handleSendMessage, Legacy.handleSendMessage. rewrite Hc. split; reflexivity.
  - intros t0 events a.
    assert (Hinv : one_in_flight a).
    { apply app_run_one_in_flight. left. reflexivity. }
    destruct Hinv as [H|[[q H1] H2]].
    + rewrite H. split; [cbn; lia|]. split; intros Hne; contradiction.
    + rewrite H1. split; [cbn; lia|]. split; [intros _; exact H2|].
      intros _. cbn [app_step]. unfold send_guard. rewrite H2, orb_true_r. reflexivity.
  - intros a resp fallback Hf. cbn [app_step].
    destruct (send_guard (page a)) eqn:Hg.
    + cbn [app_step]. rewrite Hf. rewrite (handleSendMessage_guarded _ _ _ _ _ _ Hg).
      reflexivity.
    + rewrite send_prologue_eq. cbn [app_step in_flight page]. rewrite Hf. cbn [app].
      rewrite (handleSendMessage_eq _ _ _ _ _ _ Hg), send_body_eq. reflexivity.
Qed.

End GuardFacts.

(* ===================================================================== *)
(** ** The statements at work on concrete streams *)
(* ===================================================================== *)

Import Demo.

(** Proves [Forall P lines] for closed [lines] and a [P] that computes to
    [True] on each of them. *)
Ltac each_line :=
  lazymatch goal with
  | |- Forall _ ?l =>
      let l' := eval vm_compute in l in
      change l with l';
      repeat (apply List.Forall_cons; [vm_compute; exact I|]);
      apply List.Forall_nil
  end.

Lemma C1_steps_surface_on_receipt_witness :
  (let line := step_line s_sousuo (js "running") in
   fst (process_line demo_parse demo_now demo_random line typed) = Normal Continue /\
   title <$> agentActions (snd (process_line demo_parse demo_now demo_random line typed))
     = [s_sousuo]) /\
  (let first := step_line s_sousuo (js "running") ++ [10; 10] in
   let second := step_line s_fenxi (js "running") ++ [10; 10] in
   let st1 := snd (process_lines demo_parse demo_now demo_random
                     (stream_lines [first] ++ []) typed) in
   let st2 := snd (process_line demo_parse demo_now demo_random
                     (step_line s_fenxi (js "running")) st1) in
   title <$> agentActions st2 = [s_sousuo; s_fenxi] /\
   read_all demo_parse demo_now demo_random
     ((RChunk <$> [first]) ++ RChunk second :: [RReject]) typed =
   match process_lines demo_parse demo_now demo_random [[]; []] st2 with
   | (Normal Continue, st3) => read_all demo_parse demo_now demo_random [RReject] st3
   | other => other
   end) /\
  (exists reads before line after,
      FetchResponse true (Some stream_ok) = FetchResponse true (Some reads) /\
      stream_lines (received reads) = before ++ line :: after /\
      Forall (fun l => goes_on (line_kind demo_parse l)) before /\
      line_kind demo_parse line = FinalEvent (Some (js "Tencent is a company."))).
Proof.
  split; [|split].
  - intros line.
    destruct (proj1 (C1_steps_surface_on_receipt demo_parse demo_now demo_random)
                line (step_data s_sousuo (js "running")) s_sousuo typed
                eq_refl eq_refl eq_refl eq_refl) as (Hc & _ & Ha & _).
    split; [exact Hc|]. rewrite Ha. reflexivity.
  - intros first second st1 st2.
    destruct (proj1 (proj2 (C1_steps_surface_on_receipt demo_parse demo_now demo_random))
                [first] second [RReject] [] (step_line s_fenxi (js "running")) [[]; []]
                (step_data s_fenxi (js "running")) s_fenxi typed)
      as [Ha Hr]; try reflexivity.
    + each_line.
    + split; [|exact Hr]. fold st1 st2 in Ha. rewrite Ha. vm_compute. reflexivity.
  - assert (Hs : handleAgentStream demo_parse demo_now demo_random (js "Tencent")
                   (FetchResponse true (Some stream_ok)) typed
                 = (Normal (Some (js "Tencent is a company.")),
                    snd (handleAgentStream demo_parse demo_now demo_random (js "Tencent")
                           (FetchResponse true (Some stream_ok)) typed)))
      by (vm_compute; reflexivity).
    exact (proj1 (proj2 (proj2
             (C1_steps_surface_on_receipt demo_parse demo_now demo_random)))
             _ _ _ _ _ Hs).
Defined.

(** C1, as it is stated, fails: a 'data: ' line whose parsed object has
    type 'step' but no [step_name] is received, the loop goes on, and the
    list of actions is as before; after the whole stream it is empty. *)
Lemma C1_step_without_a_name_is_not_surfaced :
  startsWith nameless_step (js "data: ") = true /\
  d_type <$> demo_parse (trim (slice_from 6 nameless_step)) = Some (Some (js "step")) /\
  fst (process_line demo_parse demo_now demo_random nameless_step typed)
    = Normal Continue /\
  agentActions (snd (process_line demo_parse demo_now demo_random nameless_step typed))
    = agentActions typed /\
  agentActions (snd (handleAgentStream demo_parse demo_now demo_random (js "Tencent")
                       (FetchResponse true (Some [RChunk (nameless_step ++ [10; 10])]))
                       typed)) = [].
Proof.
  split; [vm_compute; reflexivity|].
  split; [vm_compute; reflexivity|].
  split; [vm_compute; reflexivity|].
  split; vm_compute; reflexivity.
Qed.

Lemma C2_type_by_marker_witness :
  classify (s_sousuo ++ s_stage) = search /\
  classify (s_guihua ++ s_stage) = complete.
Proof.
  split.
  - apply (proj1 (C2_type_by_marker (s_sousuo ++ s_stage))).
    exists [], s_stage. reflexivity.
  - destruct (C2_type_by_marker (s_guihua ++ s_stage)) as (_ & _ & _ & [_ H] & _).
    apply H. rewrite <- !includes_spec. repeat split; discriminate.
Defined.

Lemma C3_requests_carry_the_default_id_witness :
  let st1 := typed in
  let st2 := setMessages (fun prev => prev ++ prev) typed in
  drop (length (requests st1))
       (requests (snd (handleSendMessage demo_parse demo_now demo_random
                         (FetchResponse true (Some stream_ok)) AxiosRejected st1))) =
  drop (length (requests st2))
       (requests (snd (handleSendMessage demo_parse demo_now demo_random
                         (FetchResponse true (Some stream_ok)) AxiosRejected st2))).
Proof.
  intros st1 st2.
  apply (proj1 (proj2 (proj2
           (C3_requests_carry_the_default_id demo_parse demo_now demo_random)))
           (FetchResponse true (Some stream_ok)) AxiosRejected st1 st2);
    reflexivity.
Defined.

Lemma C4_error_event_is_swallowed_witness :
  process_line demo_parse demo_now demo_random error_line typed = (Normal Continue, typed) /\
  (let resp := FetchResponse true (Some stream_error) in
   let stream := handleAgentStream demo_parse demo_now demo_random
                   (inputValue typed) resp (prologue_state demo_now typed) in
   fst stream = Normal None /\
   agentActions (snd stream) = [] /\
   requests (snd (handleSendMessage demo_parse demo_now demo_random resp
                    (AxiosOk (Some (js "ok"))) typed)) =
     [stream_request (js "Tencent"); chat_request (js "Tencent")]).
Proof.
  split.
  - apply (proj1 (C4_error_event_is_swallowed demo_parse demo_now demo_random)
             error_line error_data typed); reflexivity.
  - apply (proj2 (C4_error_event_is_swallowed demo_parse demo_now demo_random)
             stream_error (AxiosOk (Some (js "ok"))) typed); try reflexivity.
    each_line.
Defined.

Lemma C5_final_response_is_the_message_witness :
  let resp := FetchResponse true (Some stream_ok) in
  let st' := snd (handleSendMessage demo_parse demo_now demo_random resp AxiosRejected typed) in
  content <$> last (messages st') = Some (js "Tencent is a company.") /\
  requests st' = [stream_request (js "Tencent")].
Proof.
  intros resp st'.
  destruct (C5_final_response_is_the_message demo_parse demo_now demo_random
              stream_ok AxiosRejected
              (take 8 (stream_lines (received stream_ok)))
              (final_line (js "Tencent is a company.")) [[]; []]
              (final_data (js "Tencent is a company.")) (js "Tencent is a company.")
              typed) as (_ & (m & Hm & Hc & _) & Hr);
    try reflexivity.
  - each_line.
  - discriminate.
  - split; [|exact Hr]. fold resp in Hm. fold st' in Hm. rewrite Hm.
    rewrite last_app_cons. simpl. rewrite Hc. reflexivity.
Defined.

(** C5, as it is stated, fails: the stream carries an event of type
    'final' with the response 'ok', cut by the network inside its line.
    No part of it is an event on its own, so the bot message is not 'ok'
    but what the fallback request answers, and two requests are sent. *)
Lemma C5_final_event_cut_between_chunks_is_dropped :
  line_kind demo_parse (cut_head ++ cut_tail) = FinalEvent (Some (js "ok")) /\
  concat (received stream_cut) = (cut_head ++ cut_tail) ++ [10; 10] /\
  fst (handleAgentStream demo_parse demo_now demo_random (js "Tencent")
         (FetchResponse true (Some stream_cut)) typed) = Normal None /\
  (let st' := snd (handleSendMessage demo_parse demo_now demo_random
                     (FetchResponse true (Some stream_cut))
                     (AxiosOk (Some (js "from fallback"))) typed) in
   content <$> messages st' = [s_greeting; js "Tencent"; js "from fallback"] /\
   requests st' = [stream_request (js "Tencent"); chat_request (js "Tencent")]).
Proof.
  split; [vm_compute; reflexivity|].
  split; [vm_compute; reflexivity|].
  split; [vm_compute; reflexivity|].
  split; vm_compute; reflexivity.
Qed.

Lemma C6_only_data_lines_are_events_witness :
  process_line demo_parse demo_now demo_random (js "event: message") typed
    = (Normal Continue, typed).
Proof.
  apply (proj2 (proj2 (C6_only_data_lines_are_events demo_parse demo_now demo_random))
           (js "event: message") typed).
  reflexivity.
Defined.

Lemma C7_actions_in_first_arrival_order_witness :
  (let stream := handleAgentStream demo_parse demo_now demo_random (js "Tencent")
                   (FetchResponse true (Some stream_ok)) typed in
   NoDup (title <$> agentActions (snd stream)) /\
   title <$> agentActions (snd stream) = [s_sousuo; s_fenxi]) /\
  (let a (name : jsstring) (s : ActionStatus) :=
     mkAction (action_id 0 0) (classify name) name None s (DateOf None) None in
   upsert (a s_baogao running) [a s_sousuo completed; a s_fenxi running]
     = [a s_sousuo completed; a s_fenxi running; a s_baogao running] /\
   upsert (a s_sousuo completed) [a s_sousuo running; a s_fenxi running]
     = [a s_sousuo completed; a s_fenxi running]).
Proof.
  split.
  - intros stream.
    assert (Hs : stream = (Normal (Some (js "Tencent is a company.")), snd stream))
      by (vm_compute; reflexivity).
    destruct (proj2 (proj2 (proj2
                (C7_actions_in_first_arrival_order demo_parse demo_now demo_random)))
                (js "Tencent") stream_ok typed (snd stream) _ Hs) as [Hnd Ht].
    split; [exact Hnd|]. rewrite Ht. vm_compute. reflexivity.
  - intros a. split.
    + apply (proj1 (C7_actions_in_first_arrival_order demo_parse demo_now demo_random)).
      vm_compute. intros H.
      repeat (apply elem_of_cons in H as [H|H]; [discriminate H|]).
      inversion H.
    + destruct (proj1 (proj2
                  (C7_actions_in_first_arrival_order demo_parse demo_now demo_random))
                  (a s_sousuo completed) [a s_sousuo running; a s_fenxi running])
        as (i & old & Hi & Hold & Hu & _).
      * apply list_elem_of_here.
      * rewrite Hu. destruct i as [|[|i]]; cbn in Hi; [| |discriminate Hi];
          injection Hi as <-; [reflexivity | discriminate Hold].
Defined.

Lemma C8_send_is_a_guarded_no_op_witness :
  (let blank := setInputValue (js "   ") (initial_state 0) in
   handleSendMessage demo_parse demo_now demo_random
     (FetchResponse true (Some stream_ok)) AxiosRejected blank = (Normal tt, blank)) /\
  (let a := app_run demo_parse demo_now demo_random (initial_app 0)
              [Typed (js "Tencent"); SendPressed; Typed (js "Alibaba"); SendPressed] in
   in_flight a = [js "Tencent"] /\ isLoading (page a) = true /\
   app_step demo_parse demo_now demo_random a SendPressed = a).
Proof.
  split.
  - intros blank.
    apply (proj1 (C8_send_is_a_guarded_no_op demo_parse demo_now demo_random)
             (FetchResponse true (Some stream_ok)) AxiosRejected blank).
    left. repeat constructor.
  - intros a.
    destruct (proj1 (proj2 (C8_send_is_a_guarded_no_op demo_parse demo_now demo_random))
                0 [Typed (js "Tencent"); SendPressed; Typed (js "Alibaba"); SendPressed])
      as (_ & Hl & Hp).
    fold a in Hl, Hp.
    assert (Hf : in_flight a = [js "Tencent"]) by reflexivity.
    split; [exact Hf|]. split; [apply Hl | apply Hp]; rewrite Hf; discriminate.
Defined.

Lemma C9_no_loading_message_after_a_send_witness :
  (let result := handleSendMessage demo_parse demo_now demo_random
                   FetchRejected AxiosRejected typed in
   Forall (fun m => is_loading m = false) (messages (snd result)) /\
   isLoading (snd result) = false) /\
  (let result := Legacy.handleSendMessage demo_now (AxiosOk (Some (js "ok"))) typed in
   Forall (fun m => is_loading m = false) (messages (snd result)) /\
   isLoading (snd result) = false).
Proof.
  split.
  - intros result.
    apply (proj1 (C9_no_loading_message_after_a_send demo_parse demo_now demo_random)
             FetchRejected AxiosRejected typed).
    reflexivity.
  - intros result.
    apply (proj2 (proj2
             (C9_no_loading_message_after_a_send demo_parse demo_now demo_random))
             (AxiosOk (Some (js "ok"))) typed).
    reflexivity.
Defined.


(* ===================================================================== *)
(** ** More about the stream handler *)
(* ===================================================================== *)

Section MoreStreamFacts.

Variable JSON_parse : jsstring -> option StreamData.
Variable Date_now : nat -> N.
Variable Math_random : nat -> N.

Local Abbreviation process_line := (process_line JSON_parse Date_now Math_random).
Local Abbreviation process_lines := (process_lines JSON_parse Date_now Math_random).
Local Abbreviation read_all := (read_all JSON_parse Date_now Math_random).
Local Abbreviation handleAgentStream := (handleAgentStream JSON_parse Date_now Math_random).
Local Abbreviation handleSendMessage := (handleSendMessage JSON_parse Date_now Math_random).
Local Abbreviation line_kind := (line_kind JSON_parse).
Local Abbreviation line_effect := (line_effect Date_now Math_random).
Local Abbreviation step_action := (step_action Date_now Math_random).
Local Abbreviation final_state := (final_state Date_now).
Local Abbreviation stream_caught := (stream_caught Date_now).
Local Abbreviation prologue_state := (prologue_state Date_now).
Local Abbreviation send_outcome := (send_outcome Date_now).
Local Abbreviation reaches_final := (reaches_final JSON_parse).
Local Abbreviation transport_fails := (transport_fails JSON_parse).
Local Abbreviation first_final := (first_final JSON_parse).
Local Abbreviation stream_value := (stream_value JSON_parse).
Local Abbreviation posted := (posted Date_now).
Local Abbreviation reported := (reported Date_now).

(** The lines up to the first final event are all the handler looks at. *)
Lemma process_lines_outcome lines st :
  fst (process_lines lines st) =
  if existsb (fun l => ends_stream (line_kind l)) lines
  then Normal (Return (first_final lines))
  else Normal Continue.
Proof.
  revert st; induction lines as [|line rest IH]; intros st; [reflexivity|].
  rewrite process_lines_cons. unfold first_final in *. cbn [existsb List.find].
  destruct (line_kind line) as [| |data|v|m|] eqn:Hk;
    cbn [line_effect ends_stream orb]; try (apply IH).
  - destruct (d_step_name data); apply IH.
  - rewrite Hk. reflexivity.
Qed.

Lemma first_final_none lines :
  existsb (fun l => ends_stream (line_kind l)) lines = false ->
  first_final lines = None.
Proof.
  intros Hex. unfold first_final.
  destruct (List.find _ lines) as [l|] eqn:Hf; [|reflexivity].
  apply find_some in Hf as [Hin Hl].
  assert (Ht : existsb (fun l => ends_stream (line_kind l)) lines = true)
    by (apply existsb_exists; exists l; split; assumption).
  congruence.
Qed.

Lemma handleAgentStream_outcome query resp st :
  fst (handleAgentStream query resp st) =
  if transport_fails resp then Thrown (transport_error resp)
  else Normal (stream_value resp).
Proof.
  destruct resp as [|[|] [reads|]]; try reflexivity.
  rewrite handleAgentStream_body, read_all_by_lines.
  pose proof (process_lines_outcome (stream_lines (received reads))
                (stream_start query st)) as Ho.
  unfold transport_fails, reaches_final, stream_value.
  destruct (process_lines (stream_lines (received reads)) (stream_start query st))
    as [c st1]. cbn [fst] in Ho. subst c.
  destruct (existsb _ _) eqn:Hex; cbn [negb andb fst].
  - reflexivity.
  - rewrite (first_final_none _ Hex). destruct (rejects reads); reflexivity.
Qed.

Lemma first_final_decompose lines :
  existsb (fun l => ends_stream (line_kind l)) lines = true ->
  exists before line after v,
    lines = before ++ line :: after /\
    Forall (fun l => goes_on (line_kind l)) before /\
    line_kind line = FinalEvent v /\
    first_final lines = v.
Proof.
  induction lines as [|l rest IH]; [discriminate|].
  unfold first_final in *. cbn [existsb List.find].
  destruct (line_kind l) as [| |data|v|m|] eqn:Hk; cbn [ends_stream orb].
  4: { intros _. exists [], l, rest, v. rewrite Hk. repeat split. constructor. }
  all: intros Hex; destruct (IH Hex) as (before & line & after & v & -> & Hb & Hl & Hv);
    exists (l :: before), line, after, v;
    (split; [reflexivity|]); (split; [constructor; [rewrite Hk; exact I | exact Hb]|]);
    split; assumption.
Qed.

Lemma first_final_compose before line after v :
  Forall (fun l => goes_on (line_kind l)) before ->
  line_kind line = FinalEvent v ->
  existsb (fun l => ends_stream (line_kind l)) (before ++ line :: after) = true /\
  first_final (before ++ line :: after) = v.
Proof.
  intros Hb Hk. unfold first_final.
  induction Hb as [|l before Hl Hb IH]; cbn [app existsb List.find].
  - rewrite Hk. cbn. rewrite Hk. split; reflexivity.
  - destruct (line_kind l); try contradiction; cbn [ends_stream orb]; exact IH.
Qed.

(** X1 — The result of [handleAgentStream], by what the network answered.
    It throws exactly when the transport fails before a final event is
    received: [fetch] rejects, the status is not ok, there is no body, or a
    read rejects.  Otherwise it returns the response of the first final
    event among the lines received, and [undefined] when there is none.
    A final event is received exactly when the lines received are some
    lines that are not final events, then a final event; its response is
    the value. *)
Theorem X1_stream_result_by_answer :
  (forall (query : jsstring) (resp : FetchResult) (st : State),
      fst (handleAgentStream query resp st) =
      if transport_fails resp then Thrown (transport_error resp)
      else Normal (stream_value resp)) /\
  (forall resp : FetchResult,
      reaches_final resp = true <->
      exists reads before line after v,
        resp = FetchResponse true (Some reads) /\
        stream_lines (received reads) = before ++ line :: after /\
        Forall (fun l => goes_on (line_kind l)) before /\
        line_kind line = FinalEvent v /\
        stream_value resp = v) /\
  (forall resp : FetchResult,
      reaches_final resp = false -> stream_value resp = None).
Proof.
  split; [exact handleAgentStream_outcome|]. split.
  - intros resp. split.
    + destruct resp as [|[|] [reads|]]; try discriminate.
      intros Hex. cbn [reaches_final] in Hex.
      destruct (first_final_decompose _ Hex) as (before & line & after & v & H1 & H2 & H3 & H4).
      exists reads, before, line, after, v. repeat split; assumption.
    + intros (reads & before & line & after & v & -> & Hl & Hb & Hk & _).
      cbn [reaches_final]. rewrite Hl. apply (first_final_compose _ _ _ _ Hb Hk).
  - intros resp Hr. destruct resp as [|[|] [reads|]]; try reflexivity.
    apply first_final_none, Hr.
Qed.

(* --------------------------------------------------------------------- *)
(** *** What a stream never does to the cells *)
(* --------------------------------------------------------------------- *)

Lemma classify_status_not_error s : classify_status s <> error.
Proof. unfold classify_status. repeat case_bool_decide; discriminate. Qed.

Lemma upsert_stream_made a prev :
  stream_made a -> Forall stream_made prev -> Forall stream_made (upsert a prev).
Proof.
  intros [Hd Hs] Hprev. unfold upsert.
  destruct (list_find _ prev) as [[i old]|] eqn:Hfind.
  - apply list_find_Some in Hfind as (Hi & _ & _).
    apply Forall_insert; [exact Hprev|].
    rewrite Forall_lookup in Hprev. destruct (Hprev i old Hi) as [Hod _].
    split; [exact Hod | exact Hs].
  - apply Forall_app. split; [exact Hprev|]. constructor; [split; assumption | constructor].
Qed.

(** What the lines keep or only add to. *)
Lemma line_effect_growth k st :
  let st' := snd (line_effect k st) in
  (Forall stream_made (agentActions st) -> Forall stream_made (agentActions st')) /\
  (tick st <= tick st')%nat /\
  timers st' = timers st ++ (if ends_stream k then [(HideAgentPanel, 2000)] else []).
Proof.
  destruct k as [| |data|v|m|]; cbn [line_effect snd ends_stream];
    try (split; [tauto|]; split; [lia | symmetry; apply app_nil_r]).
  - destruct (d_step_name data) as [name|]; cbn [snd].
    + split; [|split; [cbn; lia | symmetry; apply app_nil_r]].
      intros Hall. apply upsert_stream_made; [|exact Hall].
      split; [reflexivity | apply classify_status_not_error].
    + split; [tauto|]. split; [cbn; lia | symmetry; apply app_nil_r].
  - unfold final_state, reported.
    destruct (longer_than_500 v); (split; [tauto|]); split; cbn; try lia; reflexivity.
Qed.

Lemma line_effect_fst k st :
  fst (line_effect k st) = match k with FinalEvent v => Return v | _ => Continue end.
Proof.
  destruct k as [| |data|v|m|]; try reflexivity.
  cbn [line_effect]. destruct (d_step_name data); reflexivity.
Qed.

Lemma process_lines_growth lines st :
  let st' := snd (process_lines lines st) in
  (Forall stream_made (agentActions st) -> Forall stream_made (agentActions st')) /\
  (tick st <= tick st')%nat /\
  timers st' = timers st ++
    (if existsb (fun l => ends_stream (line_kind l)) lines
     then [(HideAgentPanel, 2000)] else []).
Proof.
  revert st; induction lines as [|line rest IH]; intros st.
  - cbn. split; [tauto|]. split; [lia | symmetry; apply app_nil_r].
  - cbn zeta. rewrite process_lines_cons. cbn [existsb].
    pose proof (line_effect_growth (line_kind line) st) as (Ha & Ht & Hm).
    pose proof (line_effect_fst (line_kind line) st) as Hc.
    destruct (line_effect (line_kind line) st) as [c st1]. cbn [fst snd] in *.
    destruct (IH st1) as (Ha' & Ht' & Hm').
    destruct (line_kind line) as [| |data|v|m|]; subst c; cbn [ends_stream orb] in *;
      try (split; [intros H0; apply Ha', Ha, H0|]; split; [lia|];
           rewrite Hm', Hm, app_nil_r; reflexivity).
    cbn [snd]. split; [exact Ha|]. split; assumption.
Qed.

Lemma handleAgentStream_growth query resp st :
  let r := handleAgentStream query resp st in
  timers (snd r) = timers st ++ hide_timers JSON_parse resp /\
  (tick st <= tick (snd r))%nat /\
  showAgentPanel (snd r) = true /\
  if transport_fails resp
  then exists earlier now d,
         agentActions (snd r) = earlier ++ [error_action now d] /\
         Forall stream_made earlier
  else Forall stream_made (agentActions (snd r)).
Proof.
  cbn zeta. unfold hide_timers.
  destruct resp as [|[|] [reads|]].
  2: { rewrite handleAgentStream_body, read_all_by_lines.
       pose proof (process_lines_growth (stream_lines (received reads))
                     (stream_start query st)) as (Ha & Ht & Hm).
       pose proof (process_lines_frame JSON_parse Date_now Math_random
                     (stream_lines (received reads)) (stream_start query st))
         as (_ & _ & _ & _ & Hp).
       pose proof (process_lines_outcome (stream_lines (received reads))
                     (stream_start query st)) as Ho.
       specialize (Ha (Forall_nil_2 _)).
       change (tick (stream_start query st)) with (tick st) in Ht.
       change (timers (stream_start query st)) with (timers st) in Hm.
       change (showAgentPanel (stream_start query st)) with true in Hp.
       unfold transport_fails, reaches_final.
       destruct (process_lines (stream_lines (received reads)) (stream_start query st))
         as [c st1]. cbn [fst snd] in *. subst c.
       destruct (existsb _ _); cbn [negb andb snd].
       - repeat split; assumption.
       - destruct (rejects reads); cbn [snd].
         + split; [exact Hm|]. split; [cbn; lia|]. split; [exact Hp|].
           eexists _, _, _. split; [reflexivity | exact Ha].
         + repeat split; assumption. }
  all: cbn; (split; [symmetry; apply app_nil_r|]); (split; [lia|]); (split; [reflexivity|]);
    exists [], (Date_now (tick st)), (DateAt (Date_now (S (tick st))));
    split; [reflexivity | constructor].
Qed.

(* --------------------------------------------------------------------- *)
(** *** What a send leaves *)
(* --------------------------------------------------------------------- *)

Lemma reported_view v st :
  agentActions (reported v st) = agentActions st /\
  timers (reported v st) = timers st /\
  showAgentPanel (reported v st) = showAgentPanel st /\
  messages (reported v st) = messages st.
Proof. unfold reported. destruct (longer_than_500 v); repeat split. Qed.

Lemma send_outcome_view query fallback c st1 :
  let st' := send_outcome query fallback (c, st1) in
  let text :=
    match c with
    | Normal v =>
        if truthy_opt v then default [] v
        else match fallback with
             | AxiosRejected => s_unavailable
             | AxiosOk response => or_else response s_cannot_process
             end
    | Thrown _ => s_unavailable
    end in
  agentActions st' = agentActions st1 /\
  timers st' = timers st1 /\
  showAgentPanel st' = showAgentPanel st1 /\
  exists st2,
    (tick st1 <= tick st2)%nat /\
    messages st' = replace_loading (bot_message Date_now text st2) (messages st1).
Proof.
  cbn zeta. unfold send_outcome. destruct c as [v|e].
  - destruct (truthy_opt v).
    + repeat split. exists st1. split; [lia | reflexivity].
    + destruct fallback as [|response].
      * repeat split. eexists. split; [|reflexivity]. cbn. lia.
      * destruct (reported_view response
                    (posted (or_else response s_cannot_process)
                       (send_request (chat_request query) st1)))
          as (H1 & H2 & H3 & H4).
        split; [exact H1|]. split; [exact H2|]. split; [exact H3|].
        eexists. split; [|cbn [setIsLoading messages]; rewrite H4; reflexivity].
        cbn. lia.
  - repeat split. exists st1. split; [lia | reflexivity].
Qed.

Lemma handleSendMessage_view resp fallback st :
  send_guard st = false ->
  let st' := snd (handleSendMessage resp fallback st) in
  let r := handleAgentStream (inputValue st) resp (prologue_state st) in
  agentActions st' = agentActions (snd r) /\
  timers st' = timers st ++ hide_timers JSON_parse resp /\
  showAgentPanel st' = true /\
  exists st2,
    (tick st + 4 <= tick st2)%nat /\
    messages st' =
      List.filter (fun msg => negb (is_loading msg)) (messages st)
        ++ [user_message Date_now st;
            bot_message Date_now (final_text JSON_parse resp fallback) st2].
Proof.
  intros Hg. cbn zeta.
  rewrite (handleSendMessage_eq JSON_parse Date_now Math_random _ _ _ Hg). cbn [snd].
  pose proof (handleAgentStream_growth (inputValue st) resp (prologue_state st))
    as (Hm & Ht & Hp & _).
  pose proof (handleAgentStream_frame JSON_parse Date_now Math_random
                (inputValue st) resp (prologue_state st)) as (Hmsg & _).
  pose proof (handleAgentStream_outcome (inputValue st) resp (prologue_state st)) as Ho.
  destruct (handleAgentStream (inputValue st) resp (prologue_state st)) as [c st1].
  cbn [fst snd] in *.
  destruct (send_outcome_view (inputValue st) fallback c st1)
    as (H1 & H2 & H3 & st2 & Ht2 & H4).
  split; [exact H1|]. split; [rewrite H2; exact Hm|]. split; [rewrite H3; exact Hp|].
  exists st2. split; [cbn [prologue_state tick] in Ht; lia|].
  rewrite H4, Hmsg. cbn [prologue_state messages].
  rewrite replace_loading_prologue. do 3 f_equal.
  unfold final_text. subst c. destruct (transport_fails resp); reflexivity.
Qed.

(** X2 — What the user reads after a send, by what the network answered.
    A send that passes the guard leaves the earlier messages without the
    loading ones, the user's message, and one bot message that is not
    loading.  Its text is the service-unavailable text when the transport
    of the stream failed before a final event; else the response of the
    first final event when that is not empty; else what the fallback POST
    gave: its response, the cannot-process text when that is missing or
    empty, the service-unavailable text when the POST was rejected. *)
Theorem X2_final_message_by_answers
    (resp : FetchResult) (fallback : AxiosResult) (st : State) :
  send_guard st = false ->
  exists m : Message,
    messages (snd (handleSendMessage resp fallback st)) =
      List.filter (fun msg => negb (is_loading msg)) (messages st)
        ++ [user_message Date_now st; m] /\
    content m = final_text JSON_parse resp fallback /\
    msg_type m = bot /\ msg_isLoading m = None.
Proof.
  intros Hg.
  destruct (handleSendMessage_view resp fallback st Hg) as (_ & _ & _ & st2 & _ & Hm).
  eexists. split; [exact Hm|]. repeat split.
Qed.

(** X3 — The red card.  While a stream is read no action gets the status
    'error': when [handleAgentStream] returns, no card of the agent panel
    is red.  When it throws, the list is the cards made so far, none of
    them red, followed by one red card, the error action of the [catch]. *)
Theorem X3_one_red_card_exactly_on_failure
    (query : jsstring) (resp : FetchResult) (st : State) :
  let actions := agentActions (snd (handleAgentStream query resp st)) in
  match fst (handleAgentStream query resp st) with
  | Normal _ => Forall (fun a => card_style (status a) <> RedCard) actions
  | Thrown _ =>
      exists earlier last,
        actions = earlier ++ [last] /\
        Forall (fun a => card_style (status a) <> RedCard) earlier /\
        card_style (status last) = RedCard /\
        title last = s_error_title /\
        description last = Some s_error_description
  end.
Proof.
  cbn zeta.
  assert (Hred : forall l, Forall stream_made l ->
                           Forall (fun a => card_style (status a) <> RedCard) l).
  { intros l Hl. eapply Forall_impl; [exact Hl|].
    intros a [_ Hs]. destruct (status a); try discriminate. contradiction. }
  pose proof (handleAgentStream_growth query resp st) as (_ & _ & _ & Ha).
  rewrite handleAgentStream_outcome.
  destruct (transport_fails resp).
  - destruct Ha as (earlier & now & d & -> & He).
    exists earlier, (error_action now d). repeat split. apply Hred, He.
  - apply Hred, Ha.
Qed.

(** X4 — No duration on the streaming page.  No action of the list that
    [handleAgentStream] leaves has a duration, whether it returned or
    threw, so the panel never draws the line with the time a step took;
    the same for the list a send leaves. *)
Theorem X4_no_duration_is_drawn :
  (forall (query : jsstring) (resp : FetchResult) (st : State),
      Forall (fun a => duration a = None /\ shows_duration a = false)
             (agentActions (snd (handleAgentStream query resp st)))) /\
  (forall (resp : FetchResult) (fallback : AxiosResult) (st : State),
      send_guard st = false ->
      Forall (fun a => duration a = None /\ shows_duration a = false)
             (agentActions (snd (handleSendMessage resp fallback st)))).
Proof.
  assert (Hmade : forall l, Forall stream_made l ->
                            Forall (fun a => duration a = None /\ shows_duration a = false) l).
  { intros l Hl. eapply Forall_impl; [exact Hl|].
    intros a [Hd _]. unfold shows_duration. rewrite Hd. split; reflexivity. }
  assert (Hstream : forall query resp st,
             Forall (fun a => duration a = None /\ shows_duration a = false)
                    (agentActions (snd (handleAgentStream query resp st)))).
  { intros query resp st.
    pose proof (handleAgentStream_growth query resp st) as (_ & _ & _ & Ha).
    destruct (transport_fails resp).
    - destruct Ha as (earlier & now & d & -> & He).
      apply Forall_app. split; [apply Hmade, He|].
      constructor; [split; reflexivity | constructor].
    - apply Hmade, Ha. }
  split; [exact Hstream|].
  intros resp fallback st Hg.
  destruct (handleSendMessage_view resp fallback st Hg) as (-> & _).
  apply Hstream.
Qed.

(** X5 — The agent panel after a send.  [handleAgentStream] leaves the
    panel open and arms the timer that hides it, at 2000 ms, exactly when
    a final event was received, with or without a response; so does a send
    that passes the guard.  After a failure of the transport, or a stream
    that ends without a final event and is answered by the fallback, the
    call arms no timer. *)
Theorem X5_hide_timer_only_after_final :
  (forall (query : jsstring) (resp : FetchResult) (st : State),
      let st' := snd (handleAgentStream query resp st) in
      showAgentPanel st' = true /\
      timers st' = timers st ++
        (if reaches_final resp then [(HideAgentPanel, 2000)] else [])) /\
  (forall (resp : FetchResult) (fallback : AxiosResult) (st : State),
      send_guard st = false ->
      let st' := snd (handleSendMessage resp fallback st) in
      showAgentPanel st' = true /\
      timers st' = timers st ++
        (if reaches_final resp then [(HideAgentPanel, 2000)] else [])) /\
  (forall resp : FetchResult,
      transport_fails resp = true -> reaches_final resp = false).
Proof.
  split; [|split].
  - intros query resp st. cbn zeta.
    pose proof (handleAgentStream_growth query resp st) as (Hm & _ & Hp & _).
    split; [exact Hp | exact Hm].
  - intros resp fallback st Hg. cbn zeta.
    destruct (handleSendMessage_view resp fallback st Hg) as (_ & Hm & Hp & _).
    split; [exact Hp | exact Hm].
  - intros resp. destruct resp as [|[|] [reads|]]; try reflexivity.
    unfold transport_fails. destruct (reaches_final _); [discriminate | reflexivity].
Qed.

(* --------------------------------------------------------------------- *)
(** *** Chunks and lines *)
(* --------------------------------------------------------------------- *)

Lemma split_newline_app_newline (s r : jsstring) :
  10 ∉ s -> split_newline (s ++ 10 :: r) = s :: split_newline r.
Proof.
  induction s as [|c s IH]; intros Hs; [reflexivity|].
  apply not_elem_of_cons in Hs as [Hc Hs].
  cbn [app split_newline]. rewrite (proj2 (N.eqb_neq c 10)) by congruence.
  rewrite (IH Hs). reflexivity.
Qed.

Lemma split_newline_one_line (s : jsstring) : 10 ∉ s -> split_newline s = [s].
Proof.
  induction s as [|c s IH]; intros Hs; [reflexivity|].
  apply not_elem_of_cons in Hs as [Hc Hs].
  cbn [split_newline]. rewrite (proj2 (N.eqb_neq c 10)) by congruence.
  rewrite (IH Hs). reflexivity.
Qed.

Lemma process_lines_inert lines st :
  Forall (fun l => is_inert (line_kind l) = true) lines ->
  process_lines lines st = (Normal Continue, st).
Proof.
  revert st; induction lines as [|line rest IH]; intros st Hall; [reflexivity|].
  inversion Hall as [|? ? Hl Hrest]; subst.
  rewrite process_lines_cons.
  destruct (line_kind line); try discriminate; cbn [line_effect]; apply IH, Hrest.
Qed.

Lemma line_kind_blank : line_kind [] = NotData.
Proof. reflexivity. Qed.

(** X6 — An event cut in two by the network is lost.  Take a final event
    on one line.  When the line and the blank line after it arrive in one
    chunk, [handleAgentStream] returns its response.  When the same text
    arrives as two chunks, cut inside the line so that the first part does
    not parse as an event and the second does not start with 'data: ',
    neither part is an event: [handleAgentStream] returns [undefined] and
    leaves the state in which the reading started, and a send goes on to
    the fallback POST. *)
Theorem X6_event_split_across_chunks_is_lost
    (head tail : jsstring) (v : option jsstring)
    (query : jsstring) (fallback : AxiosResult) (st : State) :
  10 ∉ head -> 10 ∉ tail ->
  line_kind (head ++ tail) = FinalEvent v ->
  is_inert (line_kind head) = true ->
  startsWith tail (js "data: ") = false ->
  let whole := FetchResponse true (Some [RChunk (head ++ tail ++ [10; 10])]) in
  let cut := FetchResponse true (Some [RChunk head; RChunk (tail ++ [10; 10])]) in
  fst (handleAgentStream query whole st) = Normal v /\
  handleAgentStream query cut st = (Normal None, stream_start query st) /\
  (send_guard st = false ->
   requests (snd (handleSendMessage cut fallback st)) =
     requests st ++ [stream_request (inputValue st); chat_request (inputValue st)]).
Proof.
  intros Hh Ht Hk Hi Hp whole cut.
  assert (Hcut : forall q s, handleAgentStream q cut s = (Normal None, stream_start q s)).
  { intros q s. subst cut. rewrite handleAgentStream_body, read_all_by_lines.
    cbn [received rejects stream_lines fmap list_fmap concat].
    rewrite (split_newline_one_line head Hh).
    rewrite (split_newline_app_newline tail [10] Ht).
    rewrite process_lines_inert; [reflexivity|].
    constructor; [exact Hi|]. constructor; [rewrite (line_kind_not_data _ _ Hp); reflexivity|].
    cbn. repeat constructor. }
  split; [|split].
  - subst whole. rewrite handleAgentStream_body, read_all_by_lines.
    cbn [received rejects stream_lines fmap list_fmap concat].
    rewrite app_assoc, split_newline_app_newline.
    + rewrite app_nil_r.
      pose proof (process_lines_first_final JSON_parse Date_now Math_random
                    [] (head ++ tail) (split_newline [10]) v (stream_start query st)
                    (Forall_nil_2 _) Hk) as Hf.
      cbn [app] in Hf. rewrite Hf. reflexivity.
    + intros Hin. apply elem_of_app in Hin as [Hin|Hin]; contradiction.
  - apply Hcut.
  - intros Hg.
    rewrite (handleSendMessage_requests JSON_parse Date_now Math_random), Hg, Hcut.
    reflexivity.
Qed.

Lemma trimStart_app_white (s w : jsstring) :
  Forall (fun c => is_white_space c = true) w ->
  trimStart (s ++ w) = match trimStart s with [] => [] | t => t ++ w end.
Proof.
  intros Hw. induction s as [|c s IH].
  - cbn. apply trimStart_nil_iff, Hw.
  - cbn [app trimStart]. destruct (is_white_space c); [exact IH | reflexivity].
Qed.

Lemma trimStart_white_app (w s : jsstring) :
  Forall (fun c => is_white_space c = true) w ->
  trimStart (w ++ s) = trimStart s.
Proof.
  induction 1 as [|c w Hc _ IH]; [reflexivity|].
  cbn [app trimStart]. rewrite Hc. exact IH.
Qed.

(** White space at the end of a string does not show after [trim]. *)
Lemma trim_app_white (s w : jsstring) :
  Forall (fun c => is_white_space c = true) w -> trim (s ++ w) = trim s.
Proof.
  intros Hw. unfold trim. rewrite (trimStart_app_white s w Hw).
  destruct (trimStart s) as [|c t]; [reflexivity|].
  unfold trimEnd. rewrite rev_app_distr, trimStart_white_app; [reflexivity|].
  apply List.Forall_rev, Hw.
Qed.

(** X7 — Line ends.  White space after a data line, the carriage return
    of a CRLF line end among it, changes nothing: the line does what it
    does without it, in every state. *)
Theorem X7_trailing_white_space_is_ignored
    (line w : jsstring) (st : State) :
  startsWith line (js "data: ") = true ->
  Forall (fun c => is_white_space c = true) w ->
  line_kind (line ++ w) = line_kind line /\
  process_line (line ++ w) st = process_line line st.
Proof.
  intros Hp Hw.
  assert (Hk : line_kind (line ++ w) = line_kind line).
  { unfold line_kind.
    apply startsWith_spec in Hp as [payload ->].
    assert (Hp' : startsWith ((js "data: " ++ payload) ++ w) (js "data: ") = true)
      by (apply startsWith_spec; exists (payload ++ w); rewrite app_assoc; reflexivity).
    assert (Hp'' : startsWith (js "data: " ++ payload) (js "data: ") = true)
      by (apply startsWith_spec; exists payload; reflexivity).
    rewrite Hp', Hp''.
    change (slice_from 6 ((js "data: " ++ payload) ++ w)) with (payload ++ w).
    change (slice_from 6 (js "data: " ++ payload)) with payload.
    rewrite (trim_app_white payload w Hw). reflexivity. }
  split; [exact Hk|].
  rewrite !process_line_eq, Hk. reflexivity.
Qed.

(** X8 — Nothing is read after the final event.  Once the chunks received
    hold a final event, what the reader would deliver next is of no
    consequence, a rejection included: [handleAgentStream] ends in the same
    way and state, and so does the send. *)
Theorem X8_nothing_is_read_after_final
    (query : jsstring) (chunks : list jsstring) (rest1 rest2 : list ReadResult)
    (fallback : AxiosResult) (st : State) :
  existsb (fun l => ends_stream (line_kind l)) (stream_lines chunks) = true ->
  let resp1 := FetchResponse true (Some ((RChunk <$> chunks) ++ rest1)) in
  let resp2 := FetchResponse true (Some ((RChunk <$> chunks) ++ rest2)) in
  handleAgentStream query resp1 st = handleAgentStream query resp2 st /\
  handleSendMessage resp1 fallback st = handleSendMessage resp2 fallback st.
Proof.
  intros Hex resp1 resp2.
  assert (Hs : forall q s, handleAgentStream q resp1 s = handleAgentStream q resp2 s).
  { intros q s. subst resp1 resp2.
    rewrite !handleAgentStream_body, !read_all_app, read_all_chunks.
    pose proof (process_lines_outcome (stream_lines chunks) (stream_start q s)) as Ho.
    rewrite Hex in Ho.
    destruct (process_lines (stream_lines chunks) (stream_start q s)) as [c s1].
    cbn [fst] in Ho. subst c. reflexivity. }
  split; [apply Hs|].
  unfold handleSendMessage.
  destruct (send_guard st); [reflexivity|].
  unfold bind. rewrite send_prologue_eq, !send_body_eq, Hs. reflexivity.
Qed.

(** X9 — The ids of the messages of one send.  With a clock that does not
    run backwards, the user's message, the loading message and the bot
    message that replaces it get ids in strictly increasing order, even
    when all of them are made in the same millisecond: the offsets 1 and
    2 keep the React keys of one send apart. *)
Theorem X9_message_ids_increase
    (resp : FetchResult) (fallback : AxiosResult) (st : State) :
  (forall i j : nat, (i <= j)%nat -> Date_now i <= Date_now j) ->
  send_guard st = false ->
  exists m : Message,
    messages (snd (handleSendMessage resp fallback st)) =
      List.filter (fun msg => negb (is_loading msg)) (messages st)
        ++ [user_message Date_now st; m] /\
    msg_id (user_message Date_now st) < msg_id (loading_message Date_now st) /\
    msg_id (loading_message Date_now st) < msg_id m.
Proof.
  intros Hmono Hg.
  destruct (handleSendMessage_view resp fallback st Hg) as (_ & _ & _ & st2 & Ht & Hm).
  eexists. split; [exact Hm|].
  cbn [user_message loading_message bot_message msg_id].
  pose proof (Hmono (tick st) (S (S (tick st))) ltac:(lia)).
  pose proof (Hmono (S (S (tick st))) (tick st2) ltac:(lia)).
  split; lia.
Qed.

End MoreStreamFacts.

(* ===================================================================== *)
(** ** More about the page *)
(* ===================================================================== *)

Section MorePageFacts.

Variable JSON_parse : jsstring -> option StreamData.
Variable Date_now : nat -> N.
Variable Math_random : nat -> N.

Local Abbreviation handleAgentStream := (handleAgentStream JSON_parse Date_now Math_random).
Local Abbreviation handleSendMessage := (handleSendMessage JSON_parse Date_now Math_random).
Local Abbreviation send_body := (send_body JSON_parse Date_now Math_random).
Local Abbreviation app_step := (app_step JSON_parse Date_now Math_random).
Local Abbreviation app_run := (app_run JSON_parse Date_now Math_random).
Local Abbreviation prologue_state := (prologue_state Date_now).
Local Abbreviation user_message := (user_message Date_now).
Local Abbreviation loading_message := (loading_message Date_now).
Local Abbreviation bot_message := (bot_message Date_now).

Lemma filter_not_loading_id (l : list Message) :
  Forall (fun m => is_loading m = false) l ->
  List.filter (fun msg => negb (is_loading msg)) l = l.
Proof.
  induction 1 as [|m l Hm _ IH]; [reflexivity|].
  cbn [List.filter]. rewrite Hm. cbn [negb]. rewrite IH. reflexivity.
Qed.

Lemma send_body_messages currentQuery resp fallback st :
  exists text st1,
    messages (snd (send_body currentQuery resp fallback st)) =
      replace_loading (bot_message text st1) (messages st) /\
    isLoading (snd (send_body currentQuery resp fallback st)) = false.
Proof.
  rewrite (send_body_eq JSON_parse Date_now Math_random). cbn [snd].
  destruct (send_outcome_messages Date_now currentQuery fallback
              (handleAgentStream currentQuery resp st)) as (text & st1 & Hm).
  pose proof (handleAgentStream_frame JSON_parse Date_now Math_random
                currentQuery resp st) as (Hf & _).
  exists text, st1. rewrite Hm, Hf. split; reflexivity.
Qed.

Lemma send_body_settles currentQuery resp fallback st earlier u l :
  messages st = earlier ++ [u; l] ->
  Forall (fun m => is_loading m = false) earlier ->
  is_loading u = false -> is_loading l = true ->
  exists text st1,
    messages (snd (send_body currentQuery resp fallback st)) =
      earlier ++ [u; bot_message text st1] /\
    isLoading (snd (send_body currentQuery resp fallback st)) = false.
Proof.
  intros Hm Hall Hul Hll.
  destruct (send_body_messages currentQuery resp fallback st) as (text & st1 & Hms & Hload).
  exists text, st1. split; [|exact Hload].
  rewrite Hms, Hm. unfold replace_loading.
  rewrite List.filter_app, (filter_not_loading_id _ Hall).
  cbn [List.filter]. rewrite Hul, Hll. cbn [negb]. rewrite <- app_assoc. reflexivity.
Qed.

Lemma head_app_cons {A} (l : list A) (x y z : A) :
  head (l ++ [x; y]) = head (l ++ [x; z]).
Proof. destruct l; reflexivity. Qed.

Lemma app_step_settled_or_waiting t0 a e :
  settled_or_waiting t0 a -> settled_or_waiting t0 (app_step a e).
Proof.
  intros [Hhead Hcase].
  destruct e as [text| |resp fallback|shown|shown]; cbn [app_step];
    try (split; [exact Hhead | exact Hcase]).
  - destruct (send_guard (page a)) eqn:Hg; [split; assumption|].
    rewrite (send_prologue_eq Date_now).
    assert (Hl : isLoading (page a) = false).
    { unfold send_guard in Hg. apply orb_false_iff in Hg as [_ Hg]. exact Hg. }
    destruct Hcase as [(Hf & _ & Hall)|(q & earlier & u & l & _ & Hl' & _)];
      [|congruence].
    split.
    + cbn [page prologue_state messages].
      destruct (messages (page a)); [discriminate Hhead | exact Hhead].
    + right. exists (inputValue (page a)), (messages (page a)),
        (user_message (page a)), (loading_message (page a)).
      cbn [page in_flight prologue_state messages isLoading]. rewrite Hf.
      rewrite <- app_assoc. repeat split. exact Hall.
  - destruct (in_flight a) as [|q rest] eqn:Hf;
      [split; [exact Hhead | rewrite Hf; exact Hcase]|].
    destruct Hcase as [(Hf' & _)|(q' & earlier & u & l & Hq & _ & Hm & Hall & Hu & Hc & Hul & Hlt & Hlc & Hll)];
      [discriminate Hf'|].
    injection Hq as -> ->.
    destruct (send_body_settles q' resp fallback (page a) earlier u l Hm Hall Hul Hll)
      as (text & st1 & Hnew & Hload).
    split.
    + cbn [page]. rewrite Hnew, <- Hhead, Hm. apply head_app_cons.
    + left. cbn [page in_flight]. split; [reflexivity|]. split; [exact Hload|].
      rewrite Hnew. apply Forall_app. split; [exact Hall|].
      repeat constructor. exact Hul.
Qed.

Lemma app_run_settled_or_waiting t0 events a :
  settled_or_waiting t0 a -> settled_or_waiting t0 (app_run a events).
Proof.
  revert a; induction events as [|e rest IH]; intros a Hinv; [exact Hinv|].
  apply IH, app_step_settled_or_waiting, Hinv.
Qed.

Lemma initial_settled t0 : settled_or_waiting t0 (initial_app t0).
Proof.
  split; [reflexivity|]. left. repeat split. repeat constructor.
Qed.

(** X10 — The loading bubble and the flag.  In every state the page
    reaches from its first render, under typing, presses of the send
    button, settling of the awaited calls and panel toggles: the greeting
    is the first message; [isLoading] is true exactly while an invocation
    is in flight; with none in flight no message is loading; with one in
    flight the list ends with the user's message, whose content is the
    query, followed by the loading message, the only one that is
    loading. *)
Theorem X10_loading_bubble_while_in_flight (t0 : N) (events : list Event) :
  let a := app_run (initial_app t0) events in
  head (messages (page a)) = Some (greeting t0) /\
  (isLoading (page a) = true <-> in_flight a <> []) /\
  (in_flight a = [] ->
   Forall (fun m => is_loading m = false) (messages (page a))) /\
  (forall q, in_flight a = [q] ->
     exists earlier u l,
       messages (page a) = earlier ++ [u; l] /\
       Forall (fun m => is_loading m = false) earlier /\
       msg_type u = user /\ content u = q /\ is_loading u = false /\
       msg_type l = bot /\ content l = s_loading /\ is_loading l = true).
Proof.
  intros a.
  destruct (app_run_settled_or_waiting t0 events _ (initial_settled t0))
    as [Hhead Hcase]. fold a in Hhead, Hcase.
  split; [exact Hhead|].
  destruct Hcase as [(Hf & Hl & Hall)|(q & earlier & u & l & Hf & Hl & Hrest)].
  - rewrite Hf, Hl. split; [split; [discriminate | congruence]|].
    split; [intros _; exact Hall | discriminate].
  - rewrite Hf, Hl. split; [split; [discriminate | reflexivity]|].
    split; [discriminate|]. intros q' Hq. injection Hq as <-.
    exists earlier, u, l. exact Hrest.
Qed.

Lemma chat_history_app st (l1 l2 : list Message) :
  messages st = l1 ++ l2 ->
  chat_history st = List.filter is_user l1 ++ List.filter is_user l2.
Proof. intros H. unfold chat_history. rewrite H. apply List.filter_app. Qed.

(** X11 — The chat history.  In every state the page reaches, a step
    changes the list of the left panel in one way only: a press of the
    send button that passes the guard appends the user's message, whose
    content is the input value.  The settling of the calls, whatever the
    answer, typing and the panel toggles leave it as it is: no answer and
    no error text ever shows there, and no entry is ever removed. *)
Theorem X11_history_grows_by_accepted_sends
    (t0 : N) (events : list Event) (e : Event) :
  let a := app_run (initial_app t0) events in
  content <$> chat_history (page (app_step a e)) =
  (content <$> chat_history (page a)) ++
    match e with
    | SendPressed => if send_guard (page a) then [] else [inputValue (page a)]
    | _ => []
    end.
Proof.
  intros a.
  destruct (app_run_settled_or_waiting t0 events _ (initial_settled t0))
    as [_ Hcase]. fold a in Hcase.
  destruct e as [text| |resp fallback|shown|shown]; cbn [app_step];
    try (symmetry; apply app_nil_r).
  - destruct (send_guard (page a)); [symmetry; apply app_nil_r|].
    rewrite (send_prologue_eq Date_now). cbn [page].
    unfold chat_history. cbn [prologue_state messages].
    rewrite !List.filter_app. cbn [List.filter is_user user_message loading_message msg_type].
    rewrite app_nil_r, fmap_app. reflexivity.
  - destruct (in_flight a) as [|q rest] eqn:Hf; [symmetry; apply app_nil_r|].
    destruct Hcase as [(Hf' & _)|(q' & earlier & u & l & Hq & _ & Hm & Hall & Hu & Hc & Hul & Hlt & Hlc & Hll)];
      [discriminate Hf'|].
    injection Hq as -> ->.
    destruct (send_body_settles q' resp fallback (page a) earlier u l Hm Hall Hul Hll)
      as (text & st1 & Hnew & _).
    cbn [page]. rewrite app_nil_r. f_equal.
    unfold chat_history. rewrite Hnew, Hm, !List.filter_app.
    f_equal. cbn [List.filter]. unfold is_user. rewrite Hu, Hlt. reflexivity.
Qed.

(* --------------------------------------------------------------------- *)
(** *** The revisions of the page *)
(* --------------------------------------------------------------------- *)

Lemma first_send_prologue_eq st :
  First.send_prologue Date_now st =
  (Normal (inputValue st), snd (First.send_prologue Date_now st)).
Proof. reflexivity. Qed.

Lemma first_send_body_eq inputValue0 answer st :
  First.send_body Date_now inputValue0 answer st =
  (Normal tt,
   setIsLoading false
     (posted Date_now
        match answer with
        | AxiosRejected => s_unavailable
        | AxiosOk response => or_else response s_cannot_process
        end
        (send_request (Legacy.chat_request inputValue0) st))).
Proof. destruct answer; reflexivity. Qed.

(** The cells the two early revisions share, after the prologue. *)
Lemma early_prologues_agree st :
  let a := snd (First.send_prologue Date_now st) in
  let b := snd (Legacy.send_prologue Date_now st) in
  messages a = messages b /\ inputValue a = inputValue b /\
  isLoading a = isLoading b /\ requests a = requests b /\ tick a = tick b /\
  showAgentPanel a = showAgentPanel st /\ agentActions a = agentActions st /\
  timers a = timers st /\
  showAgentPanel b = true /\ agentActions b = [] /\
  timers b = timers st ++ [(SimulateAction 0 (inputValue st), 0);
                           (SimulateAction 1 (inputValue st), 800);
                           (SimulateAction 2 (inputValue st), 1600)].
Proof.
  cbn zeta. repeat split. cbn. rewrite <- !app_assoc. reflexivity.
Qed.

Lemma early_outcome_fields text r s :
  let s' := setIsLoading false (posted Date_now text (send_request r s)) in
  messages s' =
    replace_loading
      (mkMessage (Date_now (tick s) + 2) bot text (DateAt (Date_now (S (tick s)))) None)
      (messages s) /\
  inputValue s' = inputValue s /\ isLoading s' = false /\
  requests s' = requests s ++ [r] /\
  showAgentPanel s' = showAgentPanel s /\ agentActions s' = agentActions s /\
  timers s' = timers s.
Proof. repeat split. Qed.

(** X12 — The revision that added the simulated agent panel changed
    nothing else.  For every state and every answer of the POST, the first
    revision of [handleSendMessage] and the one with [simulateAgentActions]
    leave the same messages, input value, loading flag and requests.  The
    first leaves the panel cells alone; the second, when the guard passes,
    opens the panel, empties the action list and arms three timers, at 0,
    800 and 1600 ms, for the three simulated actions. *)
Theorem X12_simulated_panel_changes_nothing_else
    (answer : AxiosResult) (st : State) :
  let a := snd (First.handleSendMessage Date_now answer st) in
  let b := snd (Legacy.handleSendMessage Date_now answer st) in
  (messages a = messages b /\ inputValue a = inputValue b /\
   isLoading a = isLoading b /\ requests a = requests b) /\
  (showAgentPanel a = showAgentPanel st /\ agentActions a = agentActions st /\
   timers a = timers st) /\
  (send_guard st = false ->
   showAgentPanel b = true /\ agentActions b = [] /\
   timers b = timers st ++ [(SimulateAction 0 (inputValue st), 0);
                            (SimulateAction 1 (inputValue st), 800);
                            (SimulateAction 2 (inputValue st), 1600)]).
Proof.
  cbn zeta. unfold First.handleSendMessage, Legacy.handleSendMessage.
  destruct (send_guard st).
  - split; [repeat split|]. split; [repeat split|]. discriminate.
  - unfold bind.
    rewrite first_send_prologue_eq, (legacy_send_prologue_eq Date_now).
    rewrite first_send_body_eq, (legacy_send_body_eq Date_now). cbn [snd].
    pose proof (early_prologues_agree st) as
      (Hm & Hi & Hl & Hr & Ht & Hp & Ha & Htm & Hp' & Ha' & Htm').
    cbn zeta in *.
    set (a0 := snd (First.send_prologue Date_now st)) in *.
    set (b0 := snd (Legacy.send_prologue Date_now st)) in *.
    clearbody a0 b0.
    set (text := match answer with
                 | AxiosRejected => s_unavailable
                 | AxiosOk response => or_else response s_cannot_process
                 end).
    destruct (early_outcome_fields text (Legacy.chat_request (inputValue st)) a0)
      as (Ha1 & Ha2 & Ha3 & Ha4 & Ha5 & Ha6 & Ha7).
    destruct (early_outcome_fields text (Legacy.chat_request (inputValue st)) b0)
      as (Hb1 & Hb2 & Hb3 & Hb4 & Hb5 & Hb6 & Hb7).
    cbn zeta in *.
    rewrite Ha1, Ha2, Ha3, Ha4, Ha5, Ha6, Ha7, Hb1, Hb2, Hb3, Hb4, Hb5, Hb6, Hb7.
    rewrite Hm, Hi, Hr, Ht.
    split; [repeat split|]. split; [repeat split; assumption|].
    intros _. repeat split; assumption.
Qed.

Lemma legacy_prologue_messages st :
  messages (snd (Legacy.send_prologue Date_now st)) =
  (messages st ++ [user_message st]) ++ [loading_message st].
Proof. reflexivity. Qed.

Lemma legacy_messages answer st :
  send_guard st = false ->
  exists m,
    messages (snd (Legacy.handleSendMessage Date_now answer st)) =
      replace_loading m ((messages st ++ [user_message st]) ++ [loading_message st]) /\
    msg_type m = bot /\
    content m = match answer with
                | AxiosRejected => s_unavailable
                | AxiosOk response => or_else response s_cannot_process
                end.
Proof.
  intros Hg. unfold Legacy.handleSendMessage. rewrite Hg. unfold bind.
  rewrite (legacy_send_prologue_eq Date_now), (legacy_send_body_eq Date_now).
  cbn [snd].
  destruct (early_outcome_fields
              match answer with
              | AxiosRejected => s_unavailable
              | AxiosOk response => or_else response s_cannot_process
              end
              (Legacy.chat_request (inputValue st))
              (snd (Legacy.send_prologue Date_now st))) as (H1 & _).
  cbn zeta in H1. rewrite H1, legacy_prologue_messages.
  eexists. split; [reflexivity|]. split; reflexivity.
Qed.

(** X13 — The streaming page falls back to what the page did before.
    When the stream ends without failure of the transport and without a
    non-empty final response, a send shows the same texts, message by
    message, as the earlier revision shows for the same answer of the
    POST, and its last request carries the same body as that revision's
    request. *)
Theorem X13_fallback_is_the_earlier_behaviour
    (resp : FetchResult) (answer : AxiosResult) (st : State) :
  send_guard st = false ->
  transport_fails JSON_parse resp = false ->
  truthy_opt (stream_value JSON_parse resp) = false ->
  let now := snd (handleSendMessage resp answer st) in
  let before := snd (Legacy.handleSendMessage Date_now answer st) in
  content <$> messages now = content <$> messages before /\
  msg_type <$> messages now = msg_type <$> messages before /\
  exists r r',
    last (requests now) = Some r /\ last (requests before) = Some r' /\
    body_message r = body_message r' /\ conversation_id r = conversation_id r' /\
    http_method r = http_method r'.
Proof.
  intros Hg Hok Hfalsy now before.
  destruct (handleSendMessage_view JSON_parse Date_now Math_random resp answer st Hg)
    as (_ & _ & _ & st2 & _ & Hm).
  assert (Htext : final_text JSON_parse resp answer =
                  match answer with
                  | AxiosRejected => s_unavailable
                  | AxiosOk response => or_else response s_cannot_process
                  end).
  { unfold final_text. rewrite Hok, Hfalsy. reflexivity. }
  destruct (legacy_messages answer st Hg) as (m & Hlm & Hmt & Hmc).
  subst now before. rewrite Hm, Hlm, Htext.
  rewrite replace_loading_prologue, !fmap_app.
  split; [cbn; rewrite Hmc; reflexivity|]. split; [cbn; rewrite Hmt; reflexivity|].
  exists (chat_request (inputValue st)), (Legacy.chat_request (inputValue st)).
  split; [|split; [|repeat split]].
  - rewrite (handleSendMessage_requests JSON_parse Date_now Math_random), Hg.
    rewrite (handleAgentStream_outcome JSON_parse Date_now Math_random), Hok.
    unfold fallback_requests. rewrite Hfalsy.
    rewrite last_app_cons. reflexivity.
  - unfold Legacy.handleSendMessage. rewrite Hg. unfold bind.
    rewrite (legacy_send_prologue_eq Date_now), (legacy_send_body_eq Date_now).
    cbn [snd]. rewrite posted_after_request. apply last_snoc.
Qed.

End MorePageFacts.

(* ===================================================================== *)
(** ** The controls and the name of the PDF *)
(* ===================================================================== *)


Lemma replace_other_chars_app (a b : jsstring) :
  replace_other_chars (a ++ b) = replace_other_chars a ++ replace_other_chars b.
Proof. apply List.map_app. Qed.

(** X15 — The name of the PDF.  Every code unit of the title that is not
    an ASCII letter, a digit or in U+4E00..U+9FFF becomes an underscore,
    place by place; the others stay.  So the name is as long as the title
    plus the four of '.pdf', holds nothing but such characters,
    underscores and the dot, hence no slash, backslash, colon or space,
    whatever the locale wrote into the date.  For the titles the page sets
    the name starts with the six characters of '企业分析报告' and three
    underscores.  Without a title the name is '企业分析报告.pdf'. *)
Theorem X15_pdf_name_is_a_plain_name :
  pdf_file_name [] = s_default_pdf /\
  (forall title : jsstring,
      title <> [] ->
      exists stem,
        pdf_file_name title = stem ++ js ".pdf" /\
        length stem = length title /\
        (forall (i : nat) (c : N), title !! i = Some c ->
           stem !! i = Some (if is_name_char c then c else 95)) /\
        replace_other_chars stem = stem) /\
  (forall (title : jsstring) (c : N),
      c ∈ pdf_file_name title -> is_name_char c = true \/ c = 95 \/ c = 46) /\
  (forall (toLocaleDateString : Date -> jsstring) (d : Date),
      pdf_file_name (report_title_text toLocaleDateString (Some d)) =
      take 6 s_report_title ++ js "___"
        ++ replace_other_chars (toLocaleDateString d) ++ js ".pdf").
Proof.
  split; [reflexivity|]. split; [|split].
  - intros title Hne. exists (replace_other_chars title).
    split; [destruct title; [congruence | reflexivity]|].
    split; [apply List.length_map|]. split.
    + clear Hne. induction title as [|c0 rest IH]; intros i c Hi; [discriminate Hi|].
      destruct i as [|i]; cbn in Hi |- *.
      * injection Hi as ->. reflexivity.
      * apply IH, Hi.
    + unfold replace_other_chars. rewrite List.map_map. apply List.map_ext.
      intros c. destruct (is_name_char c) eqn:Hc; [rewrite Hc; reflexivity | reflexivity].
  - intros title c Hin. unfold pdf_file_name in Hin.
    destruct (truthy title).
    + apply elem_of_app in Hin as [Hin|Hin].
      * unfold replace_other_chars in Hin. apply list_elem_of_In, in_map_iff in Hin
          as (c0 & Hc & _).
        destruct (is_name_char c0) eqn:H0; subst c; [left; exact H0 | right; left; reflexivity].
      * cbn in Hin.
        repeat (apply elem_of_cons in Hin as [->|Hin];
                [first [left; reflexivity | right; right; reflexivity]|]).
        inversion Hin.
    + unfold s_default_pdf in Hin.
      repeat (apply elem_of_cons in Hin as [->|Hin];
              [first [left; reflexivity | right; right; reflexivity]|]).
      inversion Hin.
  - intros f d. unfold pdf_file_name, report_title_text.
    rewrite replace_other_chars_app. reflexivity.
Qed.

(* ===================================================================== *)
(** ** What the cards show *)
(* ===================================================================== *)

Section CardFacts.

Variable JSON_parse : jsstring -> option StreamData.
Variable Date_now : nat -> N.
Variable Math_random : nat -> N.

Local Abbreviation process_line := (process_line JSON_parse Date_now Math_random).
Local Abbreviation process_lines := (process_lines JSON_parse Date_now Math_random).
Local Abbreviation read_all := (read_all JSON_parse Date_now Math_random).
Local Abbreviation handleAgentStream := (handleAgentStream JSON_parse Date_now Math_random).
Local Abbreviation line_kind := (line_kind JSON_parse).
Local Abbreviation line_effect := (line_effect Date_now Math_random).
Local Abbreviation step_action := (step_action Date_now Math_random).
Local Abbreviation arrived_steps := (arrived_steps JSON_parse).

Lemma latest_step_snoc name steps name' data :
  latest_step name (steps ++ [(name', data)]) =
  if bool_decide (name' = name) then Some data else latest_step name steps.
Proof.
  unfold latest_step. rewrite rev_app_distr. cbn [rev app List.find fst].
  case_bool_decide; reflexivity.
Qed.

Lemma upsert_up_to_date steps actions data name st :
  up_to_date steps actions ->
  up_to_date (steps ++ [(name, data)]) (upsert (step_action data name st) actions).
Proof.
  intros [Hnd Hall]. split.
  - rewrite upsert_titles. apply note_title_NoDup, Hnd.
  - set (new := step_action data name st).
    assert (Hnew : forall old, exists d, latest_step (title (spread old new))
                                 (steps ++ [(name, data)]) = Some d /\
                               shows (spread old new) d).
    { intros old. exists data. rewrite latest_step_snoc.
      cbn [spread title]. rewrite bool_decide_eq_true_2 by reflexivity.
      split; [reflexivity | repeat split]. }
    assert (Hold : forall a, a ∈ actions -> title a <> name ->
                     exists d, latest_step (title a) (steps ++ [(name, data)]) = Some d /\
                               shows a d).
    { intros a Ha Hne. destruct (Hall a Ha) as (d & Hd & Hs).
      exists d. rewrite latest_step_snoc, bool_decide_eq_false_2 by congruence.
      split; assumption. }
    intros a Ha.
    destruct (decide (title new ∈ title <$> actions)) as [Hin|Hout].
    + destruct (upsert_seen new actions Hin) as (i & old & Hi & Ht & _ & Hu).
      rewrite Hu in Ha. apply list_elem_of_lookup in Ha as [j Hj].
      destruct (decide (i = j)) as [<-|Hij].
      * rewrite list_lookup_insert_eq in Hj by (eapply lookup_lt_Some; exact Hi).
        injection Hj as <-. apply Hnew.
      * rewrite list_lookup_insert_ne in Hj by exact Hij.
        apply Hold; [eapply list_elem_of_lookup_2; exact Hj|].
        intros Heq. apply Hij.
        apply (NoDup_lookup (title <$> actions) i j name Hnd).
        -- rewrite list_lookup_fmap, Hi. cbn. f_equal. exact Ht.
        -- rewrite list_lookup_fmap, Hj. cbn. f_equal. exact Heq.
    + rewrite (upsert_new new actions Hout) in Ha.
      apply elem_of_app in Ha as [Ha|Ha].
      * apply Hold; [exact Ha|]. intros Heq. apply Hout.
        change (title new) with name. rewrite <- Heq.
        apply list_elem_of_fmap_2, Ha.
      * apply list_elem_of_singleton in Ha as ->.
        destruct (Hnew new) as (d & Hd & Hs). exists d. split; [exact Hd | exact Hs].
Qed.

Lemma process_lines_up_to_date lines steps st :
  up_to_date steps (agentActions st) ->
  up_to_date (steps ++ arrived_steps lines)
             (agentActions (snd (process_lines lines st))).
Proof.
  revert steps st; induction lines as [|line rest IH]; intros steps st Hinv.
  - cbn. rewrite app_nil_r. exact Hinv.
  - rewrite process_lines_cons. cbn [arrived_steps].
    destruct (line_kind line) as [| |data|v|m|]; cbn [line_effect];
      try (apply IH; exact Hinv).
    + destruct (d_step_name data) as [name|].
      * replace (steps ++ (name, data) :: arrived_steps rest)
          with ((steps ++ [(name, data)]) ++ arrived_steps rest)
          by (rewrite <- app_assoc; reflexivity).
        apply IH. apply upsert_up_to_date, Hinv.
      * apply IH. exact Hinv.
    + cbn [snd]. rewrite app_nil_r. unfold final_state, reported.
      destruct (longer_than_500 v); exact Hinv.
Qed.


(** X17 — A malformed event is skipped.  A 'data: ' line whose payload
    does not parse, whose type is none of 'step', 'final' and 'error', or
    which is a step without a [step_name], lets the loop go on and changes
    no cell of the component, sends nothing and arms no timer. *)
Theorem X17_malformed_events_are_skipped (line : jsstring) (st : State) :
  startsWith line (js "data: ") = true ->
  (JSON_parse (trim (slice_from 6 line)) = None \/
   exists data : StreamData,
     JSON_parse (trim (slice_from 6 line)) = Some data /\
     (d_type data = Some (js "step") /\ d_step_name data = None \/
      d_type data <> Some (js "step") /\ d_type data <> Some (js "final") /\
      d_type data <> Some (js "error"))) ->
  fst (process_line line st) = Normal Continue /\
  cells (snd (process_line line st)) = cells st.
Proof.
  intros Hp Hbad. rewrite process_line_eq. cbn [fst snd].
  assert (Hk : line_kind line = Unparsed \/ line_kind line = OtherEvent \/
               exists data, line_kind line = StepEvent data /\ d_step_name data = None).
  { unfold line_kind. rewrite Hp.
    destruct Hbad as [->|(data & -> & [[Ht Hn]|(H1 & H2 & H3)])].
    - left. reflexivity.
    - right. right. exists data. rewrite bool_decide_eq_true_2 by exact Ht.
      split; [reflexivity | exact Hn].
    - right. left. rewrite !bool_decide_eq_false_2 by assumption. reflexivity. }
  destruct Hk as [->|[->|(data & -> & Hn)]]; cbn [line_effect];
    try rewrite Hn; split; reflexivity.
Qed.

Lemma split_newline_app (s r : jsstring) :
  split_newline (s ++ 10 :: r) = split_newline s ++ split_newline r.
Proof.
  induction s as [|c s IH]; [reflexivity|].
  cbn [app split_newline]. rewrite IH.
  destruct (N.eqb c 10); [reflexivity|].
  pose proof (split_newline_nonempty s) as Hne.
  destruct (split_newline s) as [|l ls]; [contradiction | reflexivity].
Qed.

(** X18 — Where a line ends, the stream may be cut.  A chunk that ends
    with a newline followed by a second chunk is read as the two of them
    in one piece: same result, same state.  (Only a cut inside a line
    loses an event.) *)
Theorem X18_a_cut_at_a_newline_is_harmless
    (first second : jsstring) (rest : list ReadResult) (st : State) :
  read_all (RChunk (first ++ [10]) :: RChunk second :: rest) st =
  read_all (RChunk (first ++ 10 :: second) :: rest) st.
Proof.
  rewrite !read_all_cons_chunk, !split_newline_app, !process_lines_app.
  destruct (process_lines (split_newline first) st) as [[[|v]|e] st1]; try reflexivity.
  change (split_newline []) with [@nil N].
  rewrite (process_lines_inert JSON_parse Date_now Math_random [[]] st1)
    by (apply List.Forall_cons; [reflexivity | apply List.Forall_nil]).
  rewrite read_all_cons_chunk. reflexivity.
Qed.

End CardFacts.

(* ===================================================================== *)
(** ** The further facts on the demonstration streams *)
(* ===================================================================== *)

Lemma X1_stream_result_by_answer_witness :
  fst (handleAgentStream demo_parse demo_now demo_random (js "Tencent")
         (FetchResponse true (Some stream_ok)) typed)
    = Normal (Some (js "Tencent is a company.")) /\
  fst (handleAgentStream demo_parse demo_now demo_random (js "Tencent")
         (FetchResponse true (Some (stream_error ++ [RReject]))) typed)
    = Thrown NetworkError /\
  stream_value demo_parse (FetchResponse true (Some stream_error)) = None.
Proof.
  pose proof (X1_stream_result_by_answer demo_parse demo_now demo_random)
    as (H1 & _ & H3).
  split; [|split].
  - rewrite H1. vm_compute. reflexivity.
  - rewrite H1. vm_compute. reflexivity.
  - apply H3. vm_compute. reflexivity.
Defined.

Lemma X2_final_message_by_answers_witness :
  send_guard typed = false /\
  exists m : Message,
    messages (snd (handleSendMessage demo_parse demo_now demo_random
                     (FetchResponse true (Some stream_ok)) AxiosRejected typed))
      = [greeting 0; user_message demo_now typed; m] /\
    content m = js "Tencent is a company.".
Proof.
  split; [reflexivity|].
  destruct (X2_final_message_by_answers demo_parse demo_now demo_random
              (FetchResponse true (Some stream_ok)) AxiosRejected typed eq_refl)
    as (m & Hm & Hc & _).
  exists m. split; [exact Hm|]. rewrite Hc. vm_compute. reflexivity.
Defined.

Lemma X3_one_red_card_exactly_on_failure_witness :
  let actions := agentActions (snd (handleAgentStream demo_parse demo_now demo_random
                                      (js "Tencent") FetchRejected typed)) in
  exists earlier last,
    actions = earlier ++ [last] /\
    Forall (fun a => card_style (status a) <> RedCard) earlier /\
    card_style (status last) = RedCard /\
    title last = s_error_title /\
    description last = Some s_error_description.
Proof.
  exact (X3_one_red_card_exactly_on_failure demo_parse demo_now demo_random
           (js "Tencent") FetchRejected typed).
Defined.

Lemma X4_no_duration_is_drawn_witness :
  send_guard typed = false /\
  Forall (fun a => duration a = None /\ shows_duration a = false)
         (agentActions (snd (handleSendMessage demo_parse demo_now demo_random
                               (FetchResponse true (Some stream_ok)) AxiosRejected typed))).
Proof.
  split; [reflexivity|].
  apply (proj2 (X4_no_duration_is_drawn demo_parse demo_now demo_random)).
  reflexivity.
Defined.

Lemma X5_hide_timer_only_after_final_witness :
  timers (snd (handleAgentStream demo_parse demo_now demo_random (js "Tencent")
                 (FetchResponse true (Some stream_ok)) typed))
    = [(HideAgentPanel, 2000)] /\
  timers (snd (handleAgentStream demo_parse demo_now demo_random (js "Tencent")
                 (FetchResponse true (Some stream_error)) typed)) = [] /\
  reaches_final demo_parse (FetchResponse true (Some (stream_error ++ [RReject]))) = false.
Proof.
  pose proof (X5_hide_timer_only_after_final demo_parse demo_now demo_random)
    as (H1 & _ & H3).
  split; [|split].
  - destruct (H1 (js "Tencent") (FetchResponse true (Some stream_ok)) typed) as [_ Ht].
    rewrite Ht. vm_compute. reflexivity.
  - destruct (H1 (js "Tencent") (FetchResponse true (Some stream_error)) typed) as [_ Ht].
    rewrite Ht. vm_compute. reflexivity.
  - apply H3. vm_compute. reflexivity.
Defined.

Lemma X6_event_split_across_chunks_is_lost_witness :
  let head := jsq "data: {'type':'final','resp" in
  let tail := jsq "onse':'ok'}" in
  line_kind demo_parse (head ++ tail) = FinalEvent (Some (js "ok")) /\
  fst (handleAgentStream demo_parse demo_now demo_random (js "Tencent")
         (FetchResponse true (Some [RChunk (head ++ tail ++ [10; 10])])) typed)
    = Normal (Some (js "ok")) /\
  fst (handleAgentStream demo_parse demo_now demo_random (js "Tencent")
         (FetchResponse true (Some [RChunk head; RChunk (tail ++ [10; 10])])) typed)
    = Normal None.
Proof.
  intros head tail.
  assert (Hk : line_kind demo_parse (head ++ tail) = FinalEvent (Some (js "ok")))
    by (vm_compute; reflexivity).
  split; [exact Hk|].
  destruct (X6_event_split_across_chunks_is_lost demo_parse demo_now demo_random
              head tail (Some (js "ok")) (js "Tencent") AxiosRejected typed)
    as (H1 & H2 & _).
  - apply (bool_decide_unpack _). vm_compute. exact I.
  - apply (bool_decide_unpack _). vm_compute. exact I.
  - exact Hk.
  - vm_compute. reflexivity.
  - vm_compute. reflexivity.
  - split; [exact H1 | rewrite H2; reflexivity].
Defined.

Lemma X7_trailing_white_space_is_ignored_witness :
  startsWith (final_line (js "ok")) (js "data: ") = true /\
  process_line demo_parse demo_now demo_random (final_line (js "ok") ++ [13]) typed =
  process_line demo_parse demo_now demo_random (final_line (js "ok")) typed.
Proof.
  split; [reflexivity|].
  apply (X7_trailing_white_space_is_ignored demo_parse demo_now demo_random
           (final_line (js "ok")) [13] typed).
  - reflexivity.
  - apply List.Forall_cons; [reflexivity | apply List.Forall_nil].
Defined.

Lemma X8_nothing_is_read_after_final_witness :
  existsb (fun l => ends_stream (line_kind demo_parse l))
          (stream_lines (received stream_ok)) = true /\
  handleAgentStream demo_parse demo_now demo_random (js "Tencent")
    (FetchResponse true (Some ((RChunk <$> received stream_ok) ++ []))) typed =
  handleAgentStream demo_parse demo_now demo_random (js "Tencent")
    (FetchResponse true (Some ((RChunk <$> received stream_ok) ++ [RReject]))) typed.
Proof.
  assert (H : existsb (fun l => ends_stream (line_kind demo_parse l))
                      (stream_lines (received stream_ok)) = true)
    by (vm_compute; reflexivity).
  split; [exact H|].
  exact (proj1 (X8_nothing_is_read_after_final demo_parse demo_now demo_random
                  (js "Tencent") (received stream_ok) [] [RReject] AxiosRejected typed H)).
Defined.

Lemma X9_message_ids_increase_witness :
  exists m : Message,
    messages (snd (handleSendMessage demo_parse demo_now demo_random
                     (FetchResponse true (Some stream_ok)) AxiosRejected typed))
      = [greeting 0; user_message demo_now typed; m] /\
    msg_id (user_message demo_now typed) < msg_id m.
Proof.
  destruct (X9_message_ids_increase demo_parse demo_now demo_random
              (FetchResponse true (Some stream_ok)) AxiosRejected typed)
    as (m & Hm & H1 & H2).
  - intros i j Hij. unfold demo_now. lia.
  - reflexivity.
  - exists m. split; [exact Hm | lia].
Defined.

Lemma X10_loading_bubble_while_in_flight_witness :
  let a := app_run demo_parse demo_now demo_random (initial_app 0)
             [Typed (js "Tencent"); SendPressed] in
  head (messages (page a)) = Some (greeting 0) /\ isLoading (page a) = true.
Proof.
  intros a.
  destruct (X10_loading_bubble_while_in_flight demo_parse demo_now demo_random 0
              [Typed (js "Tencent"); SendPressed]) as (H1 & H2 & _).
  split; [exact H1|]. apply H2. vm_compute. discriminate.
Defined.

Lemma X11_history_grows_by_accepted_sends_witness :
  content <$> chat_history
    (page (app_step demo_parse demo_now demo_random
             (app_run demo_parse demo_now demo_random (initial_app 0)
                [Typed (js "Tencent")]) SendPressed))
  = [js "Tencent"].
Proof.
  exact (X11_history_grows_by_accepted_sends demo_parse demo_now demo_random 0
           [Typed (js "Tencent")] SendPressed).
Defined.

Lemma X12_simulated_panel_changes_nothing_else_witness :
  let a := snd (First.handleSendMessage demo_now (AxiosOk (Some (js "ok"))) typed) in
  let b := snd (Legacy.handleSendMessage demo_now (AxiosOk (Some (js "ok"))) typed) in
  messages a = messages b /\ timers a = [] /\ length (timers b) = 3%nat.
Proof.
  intros a b.
  destruct (X12_simulated_panel_changes_nothing_else demo_now
              (AxiosOk (Some (js "ok"))) typed)
    as ((Hm & _) & (_ & _ & Ht) & Hb).
  split; [exact Hm | split; [exact Ht|]].
  destruct (Hb eq_refl) as (_ & _ & Hb'). fold b in Hb'. rewrite Hb'. reflexivity.
Defined.

Lemma X13_fallback_is_the_earlier_behaviour_witness :
  truthy_opt (stream_value demo_parse (FetchResponse true (Some []))) = false /\
  content <$> messages (snd (handleSendMessage demo_parse demo_now demo_random
                               (FetchResponse true (Some []))
                               (AxiosOk (Some (js "ok"))) typed)) =
  content <$> messages (snd (Legacy.handleSendMessage demo_now
                               (AxiosOk (Some (js "ok"))) typed)).
Proof.
  split; [reflexivity|].
  exact (proj1 (X13_fallback_is_the_earlier_behaviour demo_parse demo_now demo_random
                  (FetchResponse true (Some [])) (AxiosOk (Some (js "ok"))) typed
                  eq_refl eq_refl eq_refl)).
Defined.


Lemma X15_pdf_name_is_a_plain_name_witness :
  exists stem,
    pdf_file_name (s_report_title ++ js "2026/11/2") = stem ++ js ".pdf" /\
    length stem = 18%nat.
Proof.
  destruct (proj1 (proj2 X15_pdf_name_is_a_plain_name)
              (s_report_title ++ js "2026/11/2")) as (stem & H1 & H2 & _).
  - vm_compute. discriminate.
  - exists stem. split; [exact H1 | rewrite H2; reflexivity].
Defined.


Lemma X17_malformed_events_are_skipped_witness :
  let line := jsq "data: {'type':'step'}" in
  startsWith line (js "data: ") = true /\
  fst (process_line demo_parse demo_now demo_random line typed) = Normal Continue /\
  cells (snd (process_line demo_parse demo_now demo_random line typed)) = cells typed.
Proof.
  intros line. split; [reflexivity|].
  apply (X17_malformed_events_are_skipped demo_parse demo_now demo_random line typed).
  - reflexivity.
  - right. exists (mkData (Some (js "step")) None None None None None None).
    split; [vm_compute; reflexivity | left; split; reflexivity].
Defined.

Lemma X18_a_cut_at_a_newline_is_harmless_witness :
  read_all demo_parse demo_now demo_random
    [RChunk (step_line s_sousuo (js "running") ++ [10]);
     RChunk (final_line (js "ok"))] typed =
  read_all demo_parse demo_now demo_random
    [RChunk (step_line s_sousuo (js "running") ++ 10 :: final_line (js "ok"))] typed.
Proof.
  exact (X18_a_cut_at_a_newline_is_harmless demo_parse demo_now demo_random
           (step_line s_sousuo (js "running")) (final_line (js "ok")) [] typed).
Defined.
